(** * Relevance filtering, context rendering and the response pipeline
      of the ITMO master's-programs assistant

    A shallow embedding of [utils/ai_assistant.py] (class [AIAssistant]) and
    of the part of [models/database.py] (class [Database]) it runs on,
    together with the properties the specification states about them.

    Python strings are sequences of code points; the values read back from
    the JSON columns are dynamically typed; methods are computations over an
    explicit world (the SQLite tables, the requests sent to the language
    model, the clock) that either return or raise.  Library functions
    ([str.lower], [json.dumps], [json.loads], [repr], the OpenAI client) are
    taken from a [Platform].  The [print] calls of the exception handlers are
    left out: nothing reads what they write. *)

From Stdlib Require Import Ascii String DecimalString.
From Stdlib Require Import List NArith ZArith Bool Lia QArith.
Import ListNotations.
Close Scope Q_scope.

(* ================================================================== *)
(** ** Python strings *)

(** A Python [str] is a sequence of Unicode code points. *)
Definition char := N.
Definition str := list char.

(** String literals of the source are written [u "..."]: the literal is
    read as UTF-8 and decoded into its code points. *)
Fixpoint utf8_decode (bs : list N) : str :=
  match bs with
  | [] => []
  | b0 :: r0 =>
      if (b0 <? 128)%N then b0 :: utf8_decode r0
      else if (b0 <? 224)%N then
        match r0 with
        | b1 :: r1 => ((b0 - 192) * 64 + (b1 - 128))%N :: utf8_decode r1
        | _ => []
        end
      else if (b0 <? 240)%N then
        match r0 with
        | b1 :: b2 :: r2 =>
            ((b0 - 224) * 4096 + (b1 - 128) * 64 + (b2 - 128))%N
              :: utf8_decode r2
        | _ => []
        end
      else
        match r0 with
        | b1 :: b2 :: b3 :: r3 =>
            ((b0 - 240) * 262144 + (b1 - 128) * 4096
             + (b2 - 128) * 64 + (b3 - 128))%N :: utf8_decode r3
        | _ => []
        end
  end.

Definition u (s : string) : str :=
  utf8_decode (map N_of_ascii (list_ascii_of_string s)).

Definition char_eqb (a b : char) : bool := (a =? b)%N.

Fixpoint str_eqb (a b : str) : bool :=
  match a, b with
  | [], [] => true
  | x :: a', y :: b' => char_eqb x y && str_eqb a' b'
  | _, _ => false
  end.

(** [s.startswith(p)] *)
Fixpoint str_startswith (p s : str) : bool :=
  match p, s with
  | [], _ => true
  | _ :: _, [] => false
  | c :: p', d :: s' => char_eqb c d && str_startswith p' s'
  end.

(** [sub in s]: [sub] occurs in [s] as a contiguous run of code points. *)
Fixpoint str_in (sub s : str) : bool :=
  str_startswith sub s ||
  match s with
  | [] => false
  | _ :: s' => str_in sub s'
  end.

(** [str.isspace] on one code point, the set CPython's [str.split()] and
    [str.strip()] use. *)
Definition isspace (c : char) : bool :=
  ((9 <=? c) && (c <=? 13) || (28 <=? c) && (c <=? 32)
   || (c =? 133) || (c =? 160) || (c =? 5760)
   || (8192 <=? c) && (c <=? 8202)
   || (c =? 8232) || (c =? 8233) || (c =? 8239) || (c =? 8287)
   || (c =? 12288))%N.

(** [s.split()]: the maximal runs of non-whitespace code points, in order.
    [cur] holds the token being read, last code point first. *)
Fixpoint split_from (cur : str) (s : str) : list str :=
  match s with
  | [] => match cur with [] => [] | _ => [rev cur] end
  | c :: s' =>
      if isspace c then
        match cur with
        | [] => split_from [] s'
        | _ => rev cur :: split_from [] s'
        end
      else split_from (c :: cur) s'
  end.

Definition str_split (s : str) : list str := split_from [] s.

Fixpoint lstrip (s : str) : str :=
  match s with
  | c :: s' => if isspace c then lstrip s' else s
  | [] => []
  end.

(** [s.strip()] *)
Definition str_strip (s : str) : str := rev (lstrip (rev (lstrip s))).

(** [sep.join(parts)] *)
Fixpoint str_join (sep : str) (parts : list str) : str :=
  match parts with
  | [] => []
  | [p] => p
  | p :: rest => p ++ sep ++ str_join sep rest
  end.

(** [str(z)] for an [int]. *)
Definition str_of_int (z : Z) : str :=
  map N_of_ascii (list_ascii_of_string (NilZero.string_of_int (Z.to_int z))).

(* ================================================================== *)
(** ** Python values that JSON carries *)

(** The structured fields of a record ([directions], [faq], ...) hold
    whatever [json.loads] returned: dynamically typed values.  A [dict] keeps
    its insertion order.  JSON numbers with a fraction do not occur in the
    records of this program and are left out. *)
#[warnings="-register-all"]
Inductive pyval : Type :=
| PNone
| PBool (b : bool)
| PInt (z : Z)
| PStr (s : str)
| PList (l : list pyval)
| PDict (d : list (str * pyval)).

(** Every exception of the program is caught as [Exception] and its kind
    is never inspected: the kind is kept for reading only. *)
Inductive exn : Type :=
| TypeError | AttributeError | IndexError
| JSONDecodeError | SqliteError | OpenAIError.

Inductive res (A : Type) : Type :=
| Ret (a : A)
| Raise (e : exn).
Arguments Ret {A} a.
Arguments Raise {A} e.

Definition res_bind {A B} (r : res A) (k : A -> res B) : res B :=
  match r with
  | Ret a => k a
  | Raise e => Raise e
  end.

(** The request sent to the language model and what comes back. *)
Record ChatMessage := { role : str; content : str }.

Record ChatRequest := {
  req_model : str;
  req_messages : list ChatMessage;
  req_max_tokens : Z;
  req_temperature : Q
}.

(** [create] either raises or returns a response whose [choices] each
    carry [message.content], which the API types as optional. *)
Inductive ModelOutcome : Type :=
| ApiRaises
| ApiResponse (choices : list (option str)).

(** What the program takes from its platform: library functions of the
    Python runtime, the configured model name and the language model. *)
Class Platform := {
  str_lower : str -> str;                (* str.lower() *)
  repr_str : str -> str;                 (* repr() of a str *)
  json_dumps : pyval -> str;             (* json.dumps(v, ensure_ascii=False) *)
  json_loads : str -> option pyval;      (* json.loads; None when it raises *)
  openai_model : str;                    (* settings.openai_model *)
  (* client.chat.completions.create, given the requests made so far *)
  openai_create : list ChatRequest -> ChatRequest -> ModelOutcome
}.

(* ================================================================== *)
(** ** Relevance classifier: [AIAssistant.is_relevant_question] *)

Definition irrelevant_keywords : list str :=
  [ u "погода"; u "спорт"; u "политика"; u "новости"; u "рецепт";
    u "фильм"; u "музыка"; u "игра"; u "автомобиль"; u "путешествие";
    u "здоровье"; u "футбол"; u "борщ"; u "приготовить"; u "купить";
    u "телефон" ].

Definition relevant_keywords : list str :=
  [ u "итмо"; u "магистр"; u "поступление"; u "обучение"; u "программа";
    u "программы"; u "искусственный интеллект"; u "машинное обучение";
    u "ai"; u "ml"; u "продукт"; u "карьера"; u "экзамен"; u "документы";
    u "бюджет"; u "контракт"; u "стипендия"; u "общежитие";
    u "университет"; u "вуз"; u "отличаются"; u "разница"; u "сравнить";
    u "подходит"; u "требования"; u "стоимость"; u "стоит";
    u "перспективы"; u "доступны" ].

(** [for keyword in keywords: if keyword in text: return ...] reaches its
    [return] exactly when this is [true]. *)
Fixpoint any_keyword_in (keywords : list str) (text : str) : bool :=
  match keywords with
  | [] => false
  | keyword :: rest =>
      if str_in keyword text then true else any_keyword_in rest text
  end.

Definition is_relevant_question `{Platform} (question : str) : bool :=
  let question_lower := str_lower question in
  if any_keyword_in irrelevant_keywords question_lower then false
  else if any_keyword_in relevant_keywords question_lower then true
  else if (length (str_split question_lower) <=? 2)%nat then false
  else if (3 <? length (str_split question_lower))%nat then true
  else false.

(* ================================================================== *)
(** ** Operations on dynamically typed values *)

Definition nl : str := [10%N].   (* "\n" *)
Definition dq : str := [34%N].   (* the double quote *)

(** Truth value of a value, as [not v] and [if v] test it. *)
Definition py_truthy (v : pyval) : bool :=
  match v with
  | PNone => false
  | PBool b => b
  | PInt z => negb (z =? 0)%Z
  | PStr s => match s with [] => false | _ => true end
  | PList l => match l with [] => false | _ => true end
  | PDict d => match d with [] => false | _ => true end
  end.

(** The items [for x in v] visits: the elements of a list, the keys of a
    dict, the one-character strings of a str; anything else is not
    iterable. *)
Definition py_iter (v : pyval) : res (list pyval) :=
  match v with
  | PList l => Ret l
  | PDict d => Ret (map (fun kv => PStr (fst kv)) d)
  | PStr s => Ret (map (fun c => PStr [c]) s)
  | _ => Raise TypeError
  end.

(** [v[:n]].  A dict or a scalar cannot be sliced (a dict raises
    [KeyError] instead of [TypeError] from Python 3.12 on; no handler of
    the program tells them apart). *)
Definition py_slice_to (n : nat) (v : pyval) : res pyval :=
  match v with
  | PList l => Ret (PList (firstn n l))
  | PStr s => Ret (PStr (firstn n s))
  | _ => Raise TypeError
  end.

Fixpoint dict_get (d : list (str * pyval)) (key : str) (default : pyval)
  : pyval :=
  match d with
  | [] => default
  | (k, v) :: d' => if str_eqb k key then v else dict_get d' key default
  end.

(** [v.get(key, default)]: only a dict has [get]. *)
Definition py_get (v : pyval) (key : str) (default : pyval) : res pyval :=
  match v with
  | PDict d => Ret (dict_get d key default)
  | _ => Raise AttributeError
  end.

(** [repr(v)] and [str(v)], which is what an f-string field [{v}] shows. *)
Fixpoint py_repr `{Platform} (v : pyval) : str :=
  match v with
  | PNone => u "None"
  | PBool true => u "True"
  | PBool false => u "False"
  | PInt z => str_of_int z
  | PStr s => repr_str s
  | PList l => u "[" ++ str_join (u ", ") (map py_repr l) ++ u "]"
  | PDict d =>
      u "{"
      ++ str_join (u ", ")
           (map (fun kv => repr_str (fst kv) ++ u ": " ++ py_repr (snd kv)) d)
      ++ u "}"
  end.

Definition py_str `{Platform} (v : pyval) : str :=
  match v with
  | PStr s => s
  | _ => py_repr v
  end.

(** The loop [for x in items: body], threading the variables the body
    assigns; an exception in the body ends it. *)
Fixpoint for_each {A S} (items : list A) (body : S -> A -> res S) (s : S)
  : res S :=
  match items with
  | [] => Ret s
  | x :: rest => res_bind (body s x) (for_each rest body)
  end.

Definition expect_str (s : list str) (v : pyval) : res (list str) :=
  match v with
  | PStr t => Ret (s ++ [t])
  | _ => Raise TypeError
  end.

(** [sep.join(v)]: [v] must be iterable and every item a str. *)
Definition py_join (sep : str) (v : pyval) : res str :=
  res_bind (py_iter v) (fun items =>
  res_bind (for_each items expect_str []) (fun parts =>
  Ret (str_join sep parts))).

(* ================================================================== *)
(** ** Context serializer: [_format_directions], [_format_faq] *)

Definition directions_not_found : str :=
  u "Информация о направлениях не найдена".

Definition faq_not_found : str := u "FAQ не найден".

(** Body of the loop of [_format_directions]: the three [result += ...]
    statements for one direction. *)
Definition format_direction `{Platform} (result : str) (direction : pyval)
  : res str :=
  res_bind (py_get direction (u "name") (PStr (u "N/A"))) (fun name =>
  res_bind (py_get direction (u "code") (PStr (u "N/A"))) (fun code =>
  let result :=
    result ++ u "- " ++ py_str name ++ u " (" ++ py_str code ++ u ")" ++ nl in
  res_bind (py_get direction (u "budget_places") (PInt 0)) (fun budget =>
  let result := result ++ u "  Бюджет: " ++ py_str budget ++ u ", " in
  res_bind (py_get direction (u "target_places") (PInt 0)) (fun target =>
  let result := result ++ u "Целевые: " ++ py_str target ++ u ", " in
  res_bind (py_get direction (u "contract_places") (PInt 0)) (fun contract =>
  Ret (result ++ u "Контракт: " ++ py_str contract ++ nl)))))).

Definition _format_directions `{Platform} (directions : pyval) : res str :=
  if negb (py_truthy directions) then Ret directions_not_found
  else
    res_bind (py_iter directions) (fun items =>
    for_each items format_direction []).

(** Body of the loop of [_format_faq]. *)
Definition format_qa `{Platform} (result : str) (qa : pyval) : res str :=
  res_bind (py_get qa (u "question") (PStr [])) (fun question =>
  let result := result ++ u "Q: " ++ py_str question ++ nl in
  res_bind (py_get qa (u "answer") (PStr [])) (fun answer =>
  Ret (result ++ u "A: " ++ py_str answer ++ nl ++ nl))).

Definition _format_faq `{Platform} (faq : pyval) : res str :=
  if negb (py_truthy faq) then Ret faq_not_found
  else
    res_bind (py_slice_to 5 faq) (fun first5 =>
    res_bind (py_iter first5) (fun items =>
    for_each items format_qa [])).

(* ================================================================== *)
(** ** Records of [models/database.py] *)

(** The dataclass [Program].  The seven structured fields hold the values
    [json.loads] produced. *)
Record Program := {
  name : str;
  url : str;
  institute : str;
  duration : str;
  language : str;
  cost : str;
  description : str;
  directions : pyval;
  career_prospects : pyval;
  partners : pyval;
  team : pyval;
  admission_ways : pyval;
  faq : pyval;
  exam_dates : pyval;
  created_at : str;
  updated_at : str
}.

(** The dataclass [UserProfile]. *)
Record UserProfile := {
  user_id : Z;
  username : str;
  background : pyval;
  interests : pyval;
  technical_skills : pyval;
  career_goals : pyval;
  preferred_program : option str;
  profile_created_at : str;
  profile_updated_at : str
}.

(** Rows of the three tables, one field per column in the order of
    [CREATE TABLE] (so [row[0]] is the first field, [row[1]] the second,
    and so on); the columns marked JSON hold text. *)
Record ProgramRow := {
  p_id : Z;                  (* row[0]  INTEGER PRIMARY KEY AUTOINCREMENT *)
  p_name : str;              (* row[1]  TEXT UNIQUE NOT NULL *)
  p_url : str;               (* row[2]  *)
  p_institute : str;         (* row[3]  *)
  p_duration : str;          (* row[4]  *)
  p_language : str;          (* row[5]  *)
  p_cost : str;              (* row[6]  *)
  p_description : str;       (* row[7]  *)
  p_directions : str;        (* row[8]  JSON *)
  p_career_prospects : str;  (* row[9]  JSON *)
  p_partners : str;          (* row[10] JSON *)
  p_team : str;              (* row[11] JSON *)
  p_admission_ways : str;    (* row[12] JSON *)
  p_faq : str;               (* row[13] JSON *)
  p_exam_dates : str;        (* row[14] JSON *)
  p_created_at : str;        (* row[15] *)
  p_updated_at : str         (* row[16] *)
}.

Record ProfileRow := {
  u_user_id : Z;                    (* row[0] INTEGER PRIMARY KEY *)
  u_username : str;                 (* row[1] *)
  u_background : str;               (* row[2] JSON *)
  u_interests : str;                (* row[3] JSON *)
  u_technical_skills : str;         (* row[4] JSON *)
  u_career_goals : str;             (* row[5] JSON *)
  u_preferred_program : option str; (* row[6] nullable *)
  u_created_at : str;               (* row[7] *)
  u_updated_at : str                (* row[8] *)
}.

Record ConversationRow := {
  c_id : Z;          (* INTEGER PRIMARY KEY AUTOINCREMENT *)
  c_user_id : Z;
  c_message : str;
  c_response : str;
  c_timestamp : str
}.

(** Everything the program reads or changes outside its own variables:
    the SQLite file, the requests sent to the language model so far, the
    wall clock, and the run's schedule of SQLite failures (one entry per
    [sqlite3.connect] block, [true] when that block raises; none left
    means no failure). *)
Record World := {
  programs_table : list ProgramRow;          (* in rowid order *)
  programs_seq : Z;                          (* largest id given out *)
  user_profiles_table : list ProfileRow;
  conversations_table : list ConversationRow; (* in rowid order *)
  conversations_seq : Z;
  sqlite_faults : list bool;
  model_calls : list ChatRequest;            (* oldest first *)
  clock : str                                (* datetime.now().isoformat() *)
}.

Definition with_programs (w : World) (t : list ProgramRow) (seq : Z) : World :=
  {| programs_table := t; programs_seq := seq;
     user_profiles_table := user_profiles_table w;
     conversations_table := conversations_table w;
     conversations_seq := conversations_seq w;
     sqlite_faults := sqlite_faults w;
     model_calls := model_calls w; clock := clock w |}.

Definition with_user_profiles (w : World) (t : list ProfileRow) : World :=
  {| programs_table := programs_table w; programs_seq := programs_seq w;
     user_profiles_table := t;
     conversations_table := conversations_table w;
     conversations_seq := conversations_seq w;
     sqlite_faults := sqlite_faults w;
     model_calls := model_calls w; clock := clock w |}.

Definition with_conversations (w : World) (t : list ConversationRow) (seq : Z)
  : World :=
  {| programs_table := programs_table w; programs_seq := programs_seq w;
     user_profiles_table := user_profiles_table w;
     conversations_table := t; conversations_seq := seq;
     sqlite_faults := sqlite_faults w;
     model_calls := model_calls w; clock := clock w |}.

Definition with_sqlite_faults (w : World) (f : list bool) : World :=
  {| programs_table := programs_table w; programs_seq := programs_seq w;
     user_profiles_table := user_profiles_table w;
     conversations_table := conversations_table w;
     conversations_seq := conversations_seq w;
     sqlite_faults := f;
     model_calls := model_calls w; clock := clock w |}.

Definition with_model_calls (w : World) (c : list ChatRequest) : World :=
  {| programs_table := programs_table w; programs_seq := programs_seq w;
     user_profiles_table := user_profiles_table w;
     conversations_table := conversations_table w;
     conversations_seq := conversations_seq w;
     sqlite_faults := sqlite_faults w;
     model_calls := c; clock := clock w |}.

(* ================================================================== *)
(** ** Computations that read and change the world and may raise *)

Definition M (A : Type) : Type := World -> res A * World.

Definition ret {A} (a : A) : M A := fun w => (Ret a, w).

Definition raise {A} (e : exn) : M A := fun w => (Raise e, w).

Definition bind {A B} (m : M A) (k : A -> M B) : M B :=
  fun w =>
    match m w with
    | (Ret a, w') => k a w'
    | (Raise e, w') => (Raise e, w')
    end.

(** [try: body  except Exception as e: handler]; what the body changed
    before it raised stays changed. *)
Definition try_except {A} (body : M A) (handler : exn -> M A) : M A :=
  fun w =>
    match body w with
    | (Ret a, w') => (Ret a, w')
    | (Raise e, w') => handler e w'
    end.

(** A computation that raises or returns without touching the world. *)
Definition lift {A} (r : res A) : M A := fun w => (r, w).

Declare Scope py_scope.
Delimit Scope py_scope with py.
Notation "x <- m ;; k" := (bind m (fun x => k))
  (at level 100, m at next level, right associativity) : py_scope.
Notation "m ;;; k" := (bind m (fun _ => k))
  (at level 100, right associativity) : py_scope.
Open Scope py_scope.

(* ================================================================== *)
(** ** Record store: class [Database]

    Each method runs one [with sqlite3.connect(...)] block inside
    [try/except Exception]; the handler prints the error (not modelled)
    and the method returns its failure value. *)

(** Entering a [sqlite3.connect] block: takes the next entry of the
    failure schedule.  A block that raises commits nothing. *)
Definition sqlite_connect : M unit :=
  fun w =>
    match sqlite_faults w with
    | [] => (Ret tt, w)
    | false :: rest => (Ret tt, with_sqlite_faults w rest)
    | true :: rest => (Raise SqliteError, with_sqlite_faults w rest)
    end.

Definition loads `{Platform} (text : str) : res pyval :=
  match json_loads text with
  | Some v => Ret v
  | None => Raise JSONDecodeError
  end.

(** The values bound to the sixteen placeholders of the [INSERT] of
    [save_program], under the row id SQLite assigns. *)
Definition program_row `{Platform} (id : Z) (program : Program) : ProgramRow :=
  {| p_id := id;
     p_name := name program;
     p_url := url program;
     p_institute := institute program;
     p_duration := duration program;
     p_language := language program;
     p_cost := cost program;
     p_description := description program;
     p_directions := json_dumps (directions program);
     p_career_prospects := json_dumps (career_prospects program);
     p_partners := json_dumps (partners program);
     p_team := json_dumps (team program);
     p_admission_ways := json_dumps (admission_ways program);
     p_faq := json_dumps (faq program);
     p_exam_dates := json_dumps (exam_dates program);
     p_created_at := created_at program;
     p_updated_at := updated_at program |}.

(** [INSERT OR REPLACE INTO programs (name, ..., updated_at) VALUES ...]:
    rows that hold the UNIQUE [name] are deleted, then the new row is
    appended under a fresh id. *)
Definition insert_or_replace_program `{Platform} (program : Program)
  : M unit :=
  fun w =>
    let id := (programs_seq w + 1)%Z in
    let kept :=
      filter (fun r => negb (str_eqb (p_name r) (name program)))
             (programs_table w) in
    (Ret tt, with_programs w (kept ++ [program_row id program]) id).

Definition save_program `{Platform} (program : Program) : M bool :=
  try_except
    (sqlite_connect ;;;
     insert_or_replace_program program ;;;
     ret true)
    (fun _ => ret false).

(** [Program(name=row[1], ..., updated_at=row[16])] *)
Definition program_of_row `{Platform} (row : ProgramRow) : res Program :=
  res_bind (loads (p_directions row)) (fun v_directions =>
  res_bind (loads (p_career_prospects row)) (fun v_career_prospects =>
  res_bind (loads (p_partners row)) (fun v_partners =>
  res_bind (loads (p_team row)) (fun v_team =>
  res_bind (loads (p_admission_ways row)) (fun v_admission_ways =>
  res_bind (loads (p_faq row)) (fun v_faq =>
  res_bind (loads (p_exam_dates row)) (fun v_exam_dates =>
  Ret {| name := p_name row;
         url := p_url row;
         institute := p_institute row;
         duration := p_duration row;
         language := p_language row;
         cost := p_cost row;
         description := p_description row;
         directions := v_directions;
         career_prospects := v_career_prospects;
         partners := v_partners;
         team := v_team;
         admission_ways := v_admission_ways;
         faq := v_faq;
         exam_dates := v_exam_dates;
         created_at := p_created_at row;
         updated_at := p_updated_at row |}))))))).

(** [SELECT * FROM programs WHERE name = ?] *)
Definition select_programs_where_name (n : str) : M (list ProgramRow) :=
  fun w => (Ret (filter (fun r => str_eqb (p_name r) n) (programs_table w)), w).

Definition get_program `{Platform} (n : str) : M (option Program) :=
  try_except
    (sqlite_connect ;;;
     rows <- select_programs_where_name n ;;
     match rows with
     | row :: _ =>                       (* cursor.fetchone() *)
         program <- lift (program_of_row row) ;;
         ret (Some program)
     | [] => ret None
     end)
    (fun _ => ret None).

(** The loop of [get_all_programs]: [programs] collects the rows decoded
    so far, and keeps them when a later row raises. *)
Fixpoint append_programs `{Platform} (rows : list ProgramRow)
  (programs : list Program) : list Program :=
  match rows with
  | [] => programs
  | row :: rest =>
      match program_of_row row with
      | Ret program => append_programs rest (programs ++ [program])
      | Raise _ => programs
      end
  end.

Definition get_all_programs `{Platform} : M (list Program) :=
  fun w =>
    match sqlite_connect w with
    | (Ret _, w') => (Ret (append_programs (programs_table w') []), w')
    | (Raise _, w') => (Ret [], w')
    end.

(** [INSERT OR REPLACE INTO user_profiles ...], keyed on [user_id]. *)
Definition insert_or_replace_profile `{Platform} (profile : UserProfile)
  : M unit :=
  fun w =>
    let row :=
      {| u_user_id := user_id profile;
         u_username := username profile;
         u_background := json_dumps (background profile);
         u_interests := json_dumps (interests profile);
         u_technical_skills := json_dumps (technical_skills profile);
         u_career_goals := json_dumps (career_goals profile);
         u_preferred_program := preferred_program profile;
         u_created_at := profile_created_at profile;
         u_updated_at := profile_updated_at profile |} in
    let kept :=
      filter (fun r => negb (u_user_id r =? user_id profile)%Z)
             (user_profiles_table w) in
    (Ret tt, with_user_profiles w (kept ++ [row])).

Definition save_user_profile `{Platform} (profile : UserProfile) : M bool :=
  try_except
    (sqlite_connect ;;;
     insert_or_replace_profile profile ;;;
     ret true)
    (fun _ => ret false).

(** [json.loads(text) if text else default] *)
Definition loads_or `{Platform} (text : str) (default : pyval) : res pyval :=
  match text with
  | [] => Ret default
  | _ => loads text
  end.

Definition profile_of_row `{Platform} (row : ProfileRow) : res UserProfile :=
  res_bind (loads_or (u_background row) (PDict [])) (fun v_background =>
  res_bind (loads_or (u_interests row) (PList [])) (fun v_interests =>
  res_bind (loads_or (u_technical_skills row) (PList [])) (fun v_skills =>
  res_bind (loads_or (u_career_goals row) (PList [])) (fun v_goals =>
  Ret {| user_id := u_user_id row;
         username := u_username row;
         background := v_background;
         interests := v_interests;
         technical_skills := v_skills;
         career_goals := v_goals;
         preferred_program := u_preferred_program row;
         profile_created_at := u_created_at row;
         profile_updated_at := u_updated_at row |})))).

Definition get_user_profile `{Platform} (uid : Z) : M (option UserProfile) :=
  try_except
    (sqlite_connect ;;;
     rows <- (fun w =>
                (Ret (filter (fun r => (u_user_id r =? uid)%Z)
                             (user_profiles_table w)), w)) ;;
     match rows with
     | row :: _ =>
         profile <- lift (profile_of_row row) ;;
         ret (Some profile)
     | [] => ret None
     end)
    (fun _ => ret None).

(** [INSERT INTO conversations (user_id, message, response, timestamp)] *)
Definition insert_conversation (uid : Z) (message response timestamp : str)
  : M unit :=
  fun w =>
    let id := (conversations_seq w + 1)%Z in
    let row := {| c_id := id; c_user_id := uid; c_message := message;
                  c_response := response; c_timestamp := timestamp |} in
    (Ret tt, with_conversations w (conversations_table w ++ [row]) id).

Definition save_conversation (uid : Z) (message response timestamp : str)
  : M bool :=
  try_except
    (sqlite_connect ;;;
     insert_conversation uid message response timestamp ;;;
     ret true)
    (fun _ => ret false).

(* ================================================================== *)
(** ** The assistant: class [AIAssistant] *)

Definition system_prompt : str :=
  u "
Ты - эксперт-консультант по магистерским программам ИТМО в области искусственного интеллекта.
Твоя задача - помочь абитуриентам выбрать подходящую программу и спланировать обучение.

У тебя есть доступ к информации о двух программах:
1. " ++ dq ++ u "Искусственный интеллект" ++ dq ++ u " - техническая программа с фокусом на ML Engineering, Data Engineering, AI Product Development
2. " ++ dq ++ u "Управление ИИ-продуктами/AI Product" ++ dq ++ u " - продуктовая программа с фокусом на AI Product Management

ВАЖНЫЕ ПРАВИЛА:
- Отвечай ТОЛЬКО на вопросы, связанные с этими двумя магистерскими программами ИТМО
- Если вопрос не касается обучения в данных магистратурах, вежливо перенаправь пользователя к релевантной теме
- Используй только проверенную информацию из базы данных
- Давай конкретные и практичные рекомендации
- Учитывай бэкграунд и цели абитуриента при составлении рекомендаций

Формат ответов:
- Структурированные и информативные
- С конкретными примерами
- С учетом карьерных перспектив
- С рекомендациями по выборным дисциплинам (если применимо)
".

(** One pass of the loop of [get_programs_context]:
    [context += f"..."] for one program. *)
Definition format_program `{Platform} (context : str) (program : Program)
  : res str :=
  res_bind (_format_directions (directions program)) (fun s_directions =>
  res_bind (py_join (u ", ") (career_prospects program)) (fun s_career =>
  res_bind (py_join (u ", ") (partners program)) (fun s_partners =>
  res_bind (py_join (u ", ") (admission_ways program)) (fun s_admission =>
  res_bind (py_join (u ", ") (exam_dates program)) (fun s_exam_dates =>
  res_bind (_format_faq (faq program)) (fun s_faq =>
  Ret (context ++ u "
ПРОГРАММА: " ++ name program ++ u "
URL: " ++ url program ++ u "
Институт: " ++ institute program ++ u "
Длительность: " ++ duration program ++ u "
Язык обучения: " ++ language program ++ u "
Стоимость: " ++ cost program ++ u "

Описание: " ++ description program ++ u "

Направления подготовки:
" ++ s_directions ++ u "

Карьерные перспективы:
" ++ s_career ++ u "

Партнеры:
" ++ s_partners ++ u "

Способы поступления:
" ++ s_admission ++ u "

Даты экзаменов:
" ++ s_exam_dates ++ u "

FAQ:
" ++ s_faq ++ u "

---
"))))))).

Definition get_programs_context `{Platform} : M str :=
  programs <- get_all_programs ;;
  lift (for_each programs format_program []).

(** [client.chat.completions.create(...)]: the request is sent (and
    recorded) whether or not the call then raises. *)
Definition chat_completions_create `{Platform} (request : ChatRequest)
  : M (list (option str)) :=
  fun w =>
    let w' := with_model_calls w (model_calls w ++ [request]) in
    match openai_create (model_calls w) request with
    | ApiRaises => (Raise OpenAIError, w')
    | ApiResponse choices => (Ret choices, w')
    end.

(** [response.choices[0].message.content.strip()] *)
Definition first_content_stripped (choices : list (option str)) : res str :=
  match choices with
  | [] => Raise IndexError
  | None :: _ => Raise AttributeError
  | Some text :: _ => Ret (str_strip text)
  end.

(** [datetime.now().isoformat()]: the reading of the clock of the world.
    Every operation of the assistant and of the chat layer reads it at most
    once in a run; the parser, which reads the clock once per page, has a
    clock of its own ([time_at]). *)
Definition now : M str := fun w => (Ret (clock w), w).

Definition redirect_message : str :=
  u "
Я специализируюсь только на вопросах, связанных с магистерскими программами ИТМО в области искусственного интеллекта:
• " ++ dq ++ u "Искусственный интеллект" ++ dq ++ u "
• " ++ dq ++ u "Управление ИИ-продуктами/AI Product" ++ dq ++ u "

Пожалуйста, задайте вопрос о поступлении, обучении, карьерных перспективах или других аспектах этих программ.
".

Definition apology_message : str :=
  u "Извините, произошла ошибка при обработке вашего запроса. Попробуйте еще раз.".

(** [x or default] for an optional str. *)
Definition str_or (x : option str) (default : str) : str :=
  match x with
  | Some (c :: s) => c :: s
  | _ => default
  end.

(** The [profile_context] of [get_response]. *)
Definition format_profile_context (user_profile : option UserProfile)
  : res str :=
  match user_profile with
  | None => Ret []
  | Some p =>
      res_bind (py_join (u ", ") (interests p)) (fun s_interests =>
      res_bind (py_join (u ", ") (technical_skills p)) (fun s_skills =>
      res_bind (py_join (u ", ") (career_goals p)) (fun s_goals =>
      Ret (u "
ПРОФИЛЬ ПОЛЬЗОВАТЕЛЯ:
Интересы: " ++ s_interests ++ u "
Технические навыки: " ++ s_skills ++ u "
Карьерные цели: " ++ s_goals ++ u "
Предпочитаемая программа: " ++ str_or (preferred_program p) (u "не указана") ++ u "
"))))
  end.

Definition ask_prompt (programs_context profile_context user_message : str)
  : str :=
  u "
" ++ programs_context ++ u "

" ++ profile_context ++ u "

ВОПРОС ПОЛЬЗОВАТЕЛЯ: " ++ user_message ++ u "

Пожалуйста, дай подробный и полезный ответ, основанный на предоставленной информации о программах.
".

Definition chat_request `{Platform} (prompt : str) (max_tokens : Z)
  (temperature : Q) : ChatRequest :=
  {| req_model := openai_model;
     req_messages := [ {| role := u "system"; content := system_prompt |};
                       {| role := u "user"; content := prompt |} ];
     req_max_tokens := max_tokens;
     req_temperature := temperature |}.

(** The request [get_response] sends for a question, given the two
    rendered contexts. *)
Definition ask_request `{Platform} (programs_context profile_context
  user_message : str) : ChatRequest :=
  chat_request (ask_prompt programs_context profile_context user_message)
               1500 (7 # 10)%Q.

(** The body of the [try] of [get_response], after the relevance test. *)
Definition get_response_relevant `{Platform} (user_message : str) (uid : Z)
  : M str :=
  user_profile <- get_user_profile uid ;;
  profile_context <- lift (format_profile_context user_profile) ;;
  programs_context <- get_programs_context ;;
  response <- chat_completions_create
                (ask_request programs_context profile_context user_message) ;;
  ai_response <- lift (first_content_stripped response) ;;
  timestamp <- now ;;
  save_conversation uid user_message ai_response timestamp ;;;
  ret ai_response.

(** The body of the [try] of [get_response]. *)
Definition get_response_body `{Platform} (user_message : str) (uid : Z)
  : M str :=
  if negb (is_relevant_question user_message) then ret redirect_message
  else get_response_relevant user_message uid.

(** [get_response] is declared [async] and awaits nothing: it runs to its
    [return] when awaited. *)
Definition get_response `{Platform} (user_message : str) (uid : Z) : M str :=
  try_except (get_response_body user_message uid)
             (fun _ => ret apology_message).

Definition recommendation_fallback : str :=
  u "Не удалось сгенерировать рекомендацию. Попробуйте позже.".

Definition comparison_fallback : str :=
  u "Не удалось выполнить сравнение программ. Попробуйте позже.".

Definition admission_guide_fallback : str :=
  u "Не удалось создать гид по поступлению. Попробуйте позже.".

Definition recommendation_prompt `{Platform} (programs_context : str)
  (user_profile : UserProfile) : res str :=
  res_bind (py_join (u ", ") (interests user_profile)) (fun s_interests =>
  res_bind (py_join (u ", ") (technical_skills user_profile)) (fun s_skills =>
  res_bind (py_join (u ", ") (career_goals user_profile)) (fun s_goals =>
  Ret (u "
" ++ programs_context ++ u "

ПРОФИЛЬ АБИТУРИЕНТА:
Интересы: " ++ s_interests ++ u "
Технические навыки: " ++ s_skills ++ u "
Карьерные цели: " ++ s_goals ++ u "
Дополнительная информация: " ++ py_str (background user_profile) ++ u "

ЗАДАЧА: Проанализируй профиль абитуриента и дай детальную рекомендацию:
1. Какая программа лучше подходит и почему
2. Конкретные преимущества выбранной программы для данного профиля
3. Рекомендации по подготовке к поступлению
4. Suggested траектория обучения (какие курсы/проекты выбрать)
5. Карьерные перспективы после окончания

Будь конкретным и обоснованным в своих рекомендациях.
")))).

Definition recommendation_body `{Platform} (user_profile : UserProfile)
  : M str :=
  programs_context <- get_programs_context ;;
  prompt <- lift (recommendation_prompt programs_context user_profile) ;;
  response <- chat_completions_create (chat_request prompt 2000 (6 # 10)%Q) ;;
  lift (first_content_stripped response).

Definition generate_program_recommendation `{Platform}
  (user_profile : UserProfile) : M str :=
  try_except (recommendation_body user_profile)
             (fun _ => ret recommendation_fallback).

Definition comparison_prompt (programs_context : str) : str :=
  u "
" ++ programs_context ++ u "

ЗАДАЧА: Создай подробное сравнение двух программ магистратуры ИТМО:

Сравни программы по следующим критериям:
1. Фокус и специализация
2. Карьерные возможности
3. Партнеры и проекты
4. Направления подготовки и количество мест
5. Способы поступления
6. Для кого подходит каждая программа

Представь информацию в структурированном виде, выделяя ключевые различия.
".

Definition comparison_body `{Platform} : M str :=
  programs_context <- get_programs_context ;;
  response <- chat_completions_create
                (chat_request (comparison_prompt programs_context)
                              2000 (5 # 10)%Q) ;;
  lift (first_content_stripped response).

Definition compare_programs `{Platform} : M str :=
  try_except comparison_body (fun _ => ret comparison_fallback).

Definition admission_guide_prompt (programs_context : str) : str :=
  u "
" ++ programs_context ++ u "

ЗАДАЧА: Создай подробный гид по поступлению на программы магистратуры ИТМО по ИИ.

Включи следующую информацию:
1. Все способы поступления (экзамены, конкурсы, портфолио и т.д.)
2. Даты и сроки
3. Требования и документы
4. Советы по подготовке к каждому способу поступления
5. Количество мест на каждом направлении
6. Стоимость обучения и возможности получения стипендий

Структурируй информацию так, чтобы она была максимально полезна для абитуриента.
".

Definition admission_guide_body `{Platform} : M str :=
  programs_context <- get_programs_context ;;
  response <- chat_completions_create
                (chat_request (admission_guide_prompt programs_context)
                              2000 (5 # 10)%Q) ;;
  lift (first_content_stripped response).

Definition generate_admission_guide `{Platform} : M str :=
  try_except admission_guide_body (fun _ => ret admission_guide_fallback).

(* ================================================================== *)
(** ** A reference platform

    Executable stand-ins for the library functions, used to run the
    program on the inputs of its test suite.  The theorems below hold for
    every platform and do not depend on these. *)

Module Reference.

(** [str.lower] on Basic Latin and on the Cyrillic block. *)
Definition lower_char (c : char) : char :=
  if ((65 <=? c) && (c <=? 90))%N then (c + 32)%N
  else if ((1040 <=? c) && (c <=? 1071))%N then (c + 32)%N
  else if ((1024 <=? c) && (c <=? 1039))%N then (c + 80)%N
  else c.

Definition lower (s : str) : str := map lower_char s.

Definition sq : str := [39%N].          (* the single quote *)
Definition backslash : str := [92%N].

(** [repr] of a str of printable text: single quotes unless the text has
    one and no double quote; backslash, the quote in use and the usual
    control characters are escaped. *)
Definition repr_char (quote : char) (c : char) : str :=
  if (c =? 92)%N then backslash ++ backslash
  else if (c =? quote)%N then backslash ++ [c]
  else if (c =? 10)%N then backslash ++ u "n"
  else if (c =? 13)%N then backslash ++ u "r"
  else if (c =? 9)%N then backslash ++ u "t"
  else [c].

Definition repr (s : str) : str :=
  let quote :=
    if str_in sq s && negb (str_in dq s) then 34%N else 39%N in
  [quote] ++ flat_map (repr_char quote) s ++ [quote].

Definition hex_digit (n : N) : char :=
  if (n <? 10)%N then (48 + n)%N else (87 + n)%N.

(** [json.dumps(v, ensure_ascii=False)] *)
Definition json_escape (c : char) : str :=
  if (c =? 34)%N then backslash ++ dq
  else if (c =? 92)%N then backslash ++ backslash
  else if (c =? 10)%N then backslash ++ u "n"
  else if (c =? 13)%N then backslash ++ u "r"
  else if (c =? 9)%N then backslash ++ u "t"
  else if (c =? 8)%N then backslash ++ u "b"
  else if (c =? 12)%N then backslash ++ u "f"
  else if (c <? 32)%N then
    backslash ++ u "u00" ++ [hex_digit (c / 16); hex_digit (c mod 16)]
  else [c].

Definition json_string (s : str) : str := dq ++ flat_map json_escape s ++ dq.

Fixpoint dumps (v : pyval) : str :=
  match v with
  | PNone => u "null"
  | PBool true => u "true"
  | PBool false => u "false"
  | PInt z => str_of_int z
  | PStr s => json_string s
  | PList l => u "[" ++ str_join (u ", ") (map dumps l) ++ u "]"
  | PDict d =>
      u "{"
      ++ str_join (u ", ")
           (map (fun kv => json_string (fst kv) ++ u ": " ++ dumps (snd kv)) d)
      ++ u "}"
  end.

(** [json.loads] on documents without fractional numbers. *)
Definition json_space (c : char) : bool :=
  ((c =? 32) || (c =? 9) || (c =? 10) || (c =? 13))%N.

Fixpoint skip_ws (s : str) : str :=
  match s with
  | c :: s' => if json_space c then skip_ws s' else s
  | [] => []
  end.

Definition hex_value (c : char) : option N :=
  if ((48 <=? c) && (c <=? 57))%N then Some (c - 48)%N
  else if ((97 <=? c) && (c <=? 102))%N then Some (c - 87)%N
  else if ((65 <=? c) && (c <=? 70))%N then Some (c - 55)%N
  else None.

Definition hex4 (a b c d : char) : option N :=
  match hex_value a, hex_value b, hex_value c, hex_value d with
  | Some x, Some y, Some z, Some t => Some (((x * 16 + y) * 16 + z) * 16 + t)%N
  | _, _, _, _ => None
  end.

(** The text after an opening quote, up to the closing one. *)
Fixpoint parse_string (s : str) (acc : str) : option (str * str) :=
  match s with
  | [] => None
  | c :: r =>
      if (c =? 34)%N then Some (acc, r)
      else if (c =? 92)%N then
        match r with
        | e :: r1 =>
            if (e =? 117)%N then
              match r1 with
              | h1 :: h2 :: h3 :: h4 :: r2 =>
                  match hex4 h1 h2 h3 h4 with
                  | Some x => parse_string r2 (acc ++ [x])
                  | None => None
                  end
              | _ => None
              end
            else if (e =? 110)%N then parse_string r1 (acc ++ [10%N])
            else if (e =? 114)%N then parse_string r1 (acc ++ [13%N])
            else if (e =? 116)%N then parse_string r1 (acc ++ [9%N])
            else if (e =? 98)%N then parse_string r1 (acc ++ [8%N])
            else if (e =? 102)%N then parse_string r1 (acc ++ [12%N])
            else if ((e =? 34) || (e =? 92) || (e =? 47))%N
                 then parse_string r1 (acc ++ [e])
            else None
        | [] => None
        end
      else if (c <? 32)%N then None
      else parse_string r (acc ++ [c])
  end.

Definition is_digit (c : char) : bool := ((48 <=? c) && (c <=? 57))%N.

Fixpoint parse_digits (s : str) (acc : Z) : Z * str :=
  match s with
  | c :: r =>
      if is_digit c then parse_digits r (acc * 10 + Z.of_N (c - 48))%Z
      else (acc, s)
  | [] => (acc, [])
  end.

Definition parse_int (s : str) : option (pyval * str) :=
  let (negative, body) :=
    match s with
    | c :: r => if (c =? 45)%N then (true, r) else (false, s)
    | [] => (false, s)
    end in
  match body with
  | c :: _ =>
      if is_digit c then
        let (z, rest) := parse_digits body 0%Z in
        match rest with
        | d :: _ =>
            if ((d =? 46) || (d =? 101) || (d =? 69))%N then None
            else Some (PInt (if negative then - z else z)%Z, rest)
        | [] => Some (PInt (if negative then - z else z)%Z, rest)
        end
      else None
  | [] => None
  end.

(** Storing under a key: an existing key keeps its place. *)
Fixpoint dict_set (d : list (str * pyval)) (k : str) (v : pyval)
  : list (str * pyval) :=
  match d with
  | [] => [(k, v)]
  | (k', v') :: d' =>
      if str_eqb k' k then (k', v) :: d' else (k', v') :: dict_set d' k v
  end.

Fixpoint parse_elements (value : str -> option (pyval * str)) (n : nat)
  (s : str) (acc : list pyval) : option (pyval * str) :=
  match n with
  | O => None
  | S n' =>
      match value s with
      | Some (v, r) =>
          match skip_ws r with
          | c :: r' =>
              if (c =? 44)%N then parse_elements value n' r' (acc ++ [v])
              else if (c =? 93)%N then Some (PList (acc ++ [v]), r')
              else None
          | [] => None
          end
      | None => None
      end
  end.

Fixpoint parse_members (value : str -> option (pyval * str)) (n : nat)
  (s : str) (acc : list (str * pyval)) : option (pyval * str) :=
  match n with
  | O => None
  | S n' =>
      match skip_ws s with
      | q :: r0 =>
          if (q =? 34)%N then
            match parse_string r0 [] with
            | Some (k, r1) =>
                match skip_ws r1 with
                | colon :: r2 =>
                    if (colon =? 58)%N then
                      match value r2 with
                      | Some (v, r3) =>
                          match skip_ws r3 with
                          | c :: r4 =>
                              if (c =? 44)%N
                              then parse_members value n' r4 (dict_set acc k v)
                              else if (c =? 125)%N
                              then Some (PDict (dict_set acc k v), r4)
                              else None
                          | [] => None
                          end
                      | None => None
                      end
                    else None
                | [] => None
                end
            | None => None
            end
          else None
      | [] => None
      end
  end.

Fixpoint parse_value (fuel : nat) (s : str) : option (pyval * str) :=
  match fuel with
  | O => None
  | S fuel' =>
      let s := skip_ws s in
      if str_startswith (u "null") s then Some (PNone, skipn 4 s)
      else if str_startswith (u "true") s then Some (PBool true, skipn 4 s)
      else if str_startswith (u "false") s then Some (PBool false, skipn 5 s)
      else
        match s with
        | c :: r =>
            if (c =? 34)%N then
              match parse_string r [] with
              | Some (t, r') => Some (PStr t, r')
              | None => None
              end
            else if (c =? 91)%N then
              match skip_ws r with
              | c' :: r' =>
                  if (c' =? 93)%N then Some (PList [], r')
                  else parse_elements (parse_value fuel') (List.length r) r []
              | [] => None
              end
            else if (c =? 123)%N then
              match skip_ws r with
              | c' :: r' =>
                  if (c' =? 125)%N then Some (PDict [], r')
                  else parse_members (parse_value fuel') (List.length r) r []
              | [] => None
              end
            else parse_int s
        | [] => None
        end
  end.

Definition json_loads_ref (s : str) : option pyval :=
  match parse_value (S (List.length s)) s with
  | Some (v, rest) =>
      match skip_ws rest with
      | [] => Some v
      | _ => None
      end
  | None => None
  end.

(** The language model of the test suite: every call answers with the
    same text. *)
Definition mock_answer : str :=
  u "Мокированный ответ от AI ассистента для тестирования.".

Definition platform (create : list ChatRequest -> ChatRequest -> ModelOutcome)
  : Platform :=
  {| str_lower := lower;
     repr_str := repr;
     json_dumps := dumps;
     json_loads := json_loads_ref;
     openai_model := u "gpt-4.1-mini-2025-04-14";
     openai_create := create |}.

Definition mock_platform : Platform :=
  platform (fun _ _ => ApiResponse [Some mock_answer]).

(** The test suite's [side_effect = Exception("API Error")]. *)
Definition failing_platform : Platform := platform (fun _ _ => ApiRaises).

(** An empty database file, with the clock reading the given time. *)
Definition empty_world (time : str) : World :=
  {| programs_table := []; programs_seq := 0;
     user_profiles_table := [];
     conversations_table := []; conversations_seq := 0;
     sqlite_faults := []; model_calls := []; clock := time |}.

(** [sample_program] and [sample_user_profile] of [tests/conftest.py]. *)
Definition sample_program : Program :=
  {| name := u "Искусственный интеллект";
     url := u "https://abit.itmo.ru/program/master/ai";
     institute := u "институт прикладных компьютерных наук";
     duration := u "2 года";
     language := u "русский";
     cost := u "599 000 ₽";
     description := u "Создавайте AI-продукты и технологии, которые меняют мир.";
     directions :=
       PList [ PDict [ (u "name", PStr (u "Информатика и вычислительная техника"));
                       (u "code", PStr (u "09.04.01"));
                       (u "budget_places", PInt 51);
                       (u "target_places", PInt 4);
                       (u "contract_places", PInt 55) ] ];
     career_prospects :=
       PList [ PStr (u "ML Engineer"); PStr (u "Data Engineer");
               PStr (u "AI Product Developer") ];
     partners := PList [ PStr (u "X5 Group"); PStr (u "Ozon Bank"); PStr (u "МТС") ];
     team :=
       PList [ PDict [ (u "name", PStr (u "Дмитрий Сергеевич Ботов"));
                       (u "position", PStr (u "Руководитель программы"));
                       (u "description", PStr (u "кандидат технических наук")) ] ];
     admission_ways :=
       PList [ PStr (u "Вступительный экзамен");
               PStr (u "Конкурс Junior ML Contest") ];
     faq :=
       PList [ PDict [ (u "question",
                        PStr (u "Можно ли поступить без профильного образования?"));
                       (u "answer",
                        PStr (u "Да, но нужно будет пройти вступительные испытания.")) ] ];
     exam_dates :=
       PList [ PStr (u "29.07.2025, 11:00"); PStr (u "31.07.2025, 11:00") ];
     created_at := u "2025-01-01T12:00:00";
     updated_at := u "2025-01-01T12:00:00" |}.

Definition sample_user_profile : UserProfile :=
  {| user_id := 12345;
     username := u "test_user";
     background :=
       PDict [ (u "description",
                PStr (u "Бакалавр по информатике, работал Junior Python Developer")) ];
     interests :=
       PList [ PStr (u "машинное обучение"); PStr (u "компьютерное зрение");
               PStr (u "NLP") ];
     technical_skills :=
       PList [ PStr (u "Python"); PStr (u "TensorFlow"); PStr (u "SQL");
               PStr (u "Git") ];
     career_goals :=
       PList [ PStr (u "ML Engineer в крупной компании");
               PStr (u "Data Scientist") ];
     preferred_program := None;
     profile_created_at := u "2025-01-01T12:00:00";
     profile_updated_at := u "2025-01-01T12:00:00" |}.

End Reference.

(* ================================================================== *)
(** ** Vocabulary of the properties *)

(** *** Text *)

(** [sub] occurs in [s]: some run of consecutive code points of [s] is
    [sub]. *)
Definition occurs_in (sub s : str) : Prop :=
  exists pre post, s = pre ++ sub ++ post.

Definition program_name_ai : str := u "Искусственный интеллект".
Definition program_name_ai_product : str :=
  u "Управление ИИ-продуктами/AI Product".

(** *** Worlds *)

(** [w'] is [w] with, at most, entries of the failure schedule used up. *)
Definition same_store (w w' : World) : Prop :=
  programs_table w' = programs_table w
  /\ programs_seq w' = programs_seq w
  /\ user_profiles_table w' = user_profiles_table w
  /\ conversations_table w' = conversations_table w
  /\ conversations_seq w' = conversations_seq w
  /\ model_calls w' = model_calls w
  /\ clock w' = clock w.

(** One [sqlite3.connect] block that wrote nothing: the store is as it
    was and one entry of the failure schedule is used up. *)
Definition one_connect (w w' : World) : Prop :=
  same_store w w' /\ sqlite_faults w' = tl (sqlite_faults w).

(** The world right after [request] went to the language model. *)
Definition sent (w : World) (request : ChatRequest) : World :=
  with_model_calls w (model_calls w ++ [request]).

(** No [sqlite3.connect] block of the run fails. *)
Definition no_faults (w : World) : Prop :=
  forall b, In b (sqlite_faults w) -> b = false.

(** *** Stored programs *)

(** [json.loads] gives back the seven structured fields of the program
    from what [json.dumps] wrote for them. *)
Definition json_roundtrips `{Platform} (p : Program) : Prop :=
  json_loads (json_dumps (directions p)) = Some (directions p)
  /\ json_loads (json_dumps (career_prospects p)) = Some (career_prospects p)
  /\ json_loads (json_dumps (partners p)) = Some (partners p)
  /\ json_loads (json_dumps (team p)) = Some (team p)
  /\ json_loads (json_dumps (admission_ways p)) = Some (admission_ways p)
  /\ json_loads (json_dumps (faq p)) = Some (faq p)
  /\ json_loads (json_dumps (exam_dates p)) = Some (exam_dates p).

(** The row reads back as a program. *)
Definition decodable `{Platform} (row : ProgramRow) : Prop :=
  exists p, program_of_row row = Ret p.

(** *** Rendered sub-blocks *)

(** The value stored under [key], if the dict has the key. *)
Fixpoint dict_lookup (d : list (str * pyval)) (key : str) : option pyval :=
  match d with
  | [] => None
  | (k, v) :: d' => if str_eqb k key then Some v else dict_lookup d' key
  end.

(** How a field of a dict reads in the rendered text: the stored value, or
    the placeholder when the dict has no such key. *)
Definition field_or `{Platform} (d : list (str * pyval)) (key : str)
  (placeholder : str) : str :=
  match dict_lookup d key with
  | Some v => py_str v
  | None => placeholder
  end.

(** The two lines rendered for one direction. *)
Definition direction_line `{Platform} (d : list (str * pyval)) : str :=
  u "- " ++ field_or d (u "name") (u "N/A")
  ++ u " (" ++ field_or d (u "code") (u "N/A") ++ u ")" ++ nl
  ++ u "  Бюджет: " ++ field_or d (u "budget_places") (u "0")
  ++ u ", Целевые: " ++ field_or d (u "target_places") (u "0")
  ++ u ", Контракт: " ++ field_or d (u "contract_places") (u "0") ++ nl.

(** The Q/A pair rendered for one FAQ entry. *)
Definition qa_block `{Platform} (d : list (str * pyval)) : str :=
  u "Q: " ++ field_or d (u "question") [] ++ nl
  ++ u "A: " ++ field_or d (u "answer") [] ++ nl ++ nl.

(** *** Two sentences of the specification, as they are worded *)

(** "A placeholder is rendered in place of the code whenever the code is
    empty", be it missing or the empty string. *)
Definition code_is_empty (d : list (str * pyval)) : bool :=
  match dict_lookup d (u "code") with
  | None => true
  | Some (PStr []) => true
  | Some _ => false
  end.

Definition claimed_direction_line `{Platform} (d : list (str * pyval)) : str :=
  u "- " ++ field_or d (u "name") (u "N/A")
  ++ u " ("
  ++ (if code_is_empty d then u "N/A" else field_or d (u "code") (u "N/A"))
  ++ u ")" ++ nl
  ++ u "  Бюджет: " ++ field_or d (u "budget_places") (u "0")
  ++ u ", Целевые: " ++ field_or d (u "target_places") (u "0")
  ++ u ", Контракт: " ++ field_or d (u "contract_places") (u "0") ++ nl.

Definition placeholder_for_empty_code `{Platform}
  (ds : list (list (str * pyval))) : Prop :=
  forall out d,
    _format_directions (PList (map PDict ds)) = Ret out
    -> In d ds
    -> occurs_in (claimed_direction_line d) out.

(** "The same apology for a Record Store read failure": a failed read of
    the record store (here the profile lookup, the first read of the run)
    would end in the apology. *)
Definition store_failure_gives_apology `{Platform} (question : str)
  (uid : Z) (w : World) : Prop :=
  is_relevant_question question = true
  -> hd false (sqlite_faults w) = true
  -> fst (get_response question uid w) = Ret apology_message.

(** *** Sample data *)

(** Three directions: the one of the test suite, one as the scraper
    leaves it when it finds no code (the code is the empty string), and one
    without a code key. *)
Definition sample_directions : list (list (str * pyval)) :=
  [ [ (u "name", PStr (u "Информатика и вычислительная техника"));
      (u "code", PStr (u "09.04.01"));
      (u "budget_places", PInt 51);
      (u "target_places", PInt 4);
      (u "contract_places", PInt 55) ];
    [ (u "name", PStr (u "Инноватика"));
      (u "code", PStr []);
      (u "budget_places", PInt 0);
      (u "target_places", PInt 0);
      (u "contract_places", PInt 0) ];
    [ (u "name", PStr (u "Инфокоммуникационные технологии")) ] ].

(** Six FAQ entries, numbered. *)
Definition six_faq : list (list (str * pyval)) :=
  map (fun n => [ (u "question", PStr (u "Q" ++ str_of_int n));
                  (u "answer", PStr (u "A" ++ str_of_int n)) ])
      [1; 2; 3; 4; 5; 6]%Z.

(** The test suite's [test_save_program_duplicate]: the sample program is
    saved, then saved again with a new description. *)
Definition updated_sample_program : Program :=
  let p := Reference.sample_program in
  {| name := name p; url := url p; institute := institute p;
     duration := duration p; language := language p; cost := cost p;
     description := u "Updated description";
     directions := directions p; career_prospects := career_prospects p;
     partners := partners p; team := team p;
     admission_ways := admission_ways p; faq := faq p;
     exam_dates := exam_dates p; created_at := created_at p;
     updated_at := u "2025-01-02T09:30:00" |}.

(** A stored program whose [career_prospects] holds a number where the
    renderer joins strings. *)
Definition ill_typed_program : Program :=
  let p := Reference.sample_program in
  {| name := name p; url := url p; institute := institute p;
     duration := duration p; language := language p; cost := cost p;
     description := description p;
     directions := directions p; career_prospects := PList [PInt 1];
     partners := partners p; team := team p;
     admission_ways := admission_ways p; faq := faq p;
     exam_dates := exam_dates p; created_at := created_at p;
     updated_at := updated_at p |}.

(* ================================================================== *)
(** ** Vocabulary of the further properties *)

(** [json.loads] gives back the four structured fields of the profile from
    what [json.dumps] wrote for them, and [json.dumps] never writes the
    empty text (which [get_user_profile] would read as "no value"). *)
Definition survives_json `{Platform} (v : pyval) : Prop :=
  json_dumps v <> [] /\ json_loads (json_dumps v) = Some v.

Definition profile_json_roundtrips `{Platform} (p : UserProfile) : Prop :=
  survives_json (background p)
  /\ survives_json (interests p)
  /\ survives_json (technical_skills p)
  /\ survives_json (career_goals p).

(** The values bound to the nine placeholders of the [INSERT] of
    [save_user_profile]. *)
Definition profile_row `{Platform} (profile : UserProfile) : ProfileRow :=
  {| u_user_id := user_id profile;
     u_username := username profile;
     u_background := json_dumps (background profile);
     u_interests := json_dumps (interests profile);
     u_technical_skills := json_dumps (technical_skills profile);
     u_career_goals := json_dumps (career_goals profile);
     u_preferred_program := preferred_program profile;
     u_created_at := profile_created_at profile;
     u_updated_at := profile_updated_at profile |}.

(** The entry [save_conversation] writes, under the id SQLite assigns. *)
Definition conversation_row (id uid : Z) (message response timestamp : str)
  : ConversationRow :=
  {| c_id := id; c_user_id := uid; c_message := message;
     c_response := response; c_timestamp := timestamp |}.

(** The keys of the two record tables are unique: no two programs share a
    name, no two profiles a user id. *)
Definition keys_unique (w : World) : Prop :=
  NoDup (map p_name (programs_table w))
  /\ NoDup (map u_user_id (user_profiles_table w)).

(** Decoding table rows one by one. *)
Definition decodes_to `{Platform} (rows : list ProgramRow)
  (ps : list Program) : Prop :=
  Forall2 (fun row p => program_of_row row = Ret p) rows ps.

(** A second sample user. *)
Definition other_user_profile : UserProfile :=
  {| user_id := 777;
     username := u "other_user";
     background := PDict [ (u "description", PStr (u "Product manager")) ];
     interests := PList [ PStr (u "AI продукты") ];
     technical_skills := PList [];
     career_goals := PList [ PStr (u "AI Product Manager") ];
     preferred_program := None;
     profile_created_at := u "2025-02-01T08:00:00";
     profile_updated_at := u "2025-02-01T08:00:00" |}.

(** The sample profile after the wizard was run again. *)
Definition updated_user_profile : UserProfile :=
  {| user_id := 12345;
     username := u "test_user";
     background := PDict [ (u "description", PStr (u "Магистрант")) ];
     interests := PList [ PStr (u "NLP") ];
     technical_skills := PList [ PStr (u "Python") ];
     career_goals := PList [];
     preferred_program := None;
     profile_created_at := u "2025-03-01T10:00:00";
     profile_updated_at := u "2025-03-01T10:00:00" |}.

(** A program under another name. *)
Definition second_program : Program :=
  {| name := u "Second Program";
     url := u "https://test2.com";
     institute := u "Test Institute 2";
     duration := u "2 years";
     language := u "english";
     cost := u "200000";
     description := u "Second test description";
     directions := PList [];
     career_prospects := PList [ PStr (u "Manager") ];
     partners := PList [ PStr (u "Partner1") ];
     team := PList [];
     admission_ways := PList [];
     faq := PList [];
     exam_dates := PList [];
     created_at := u "2025-01-03T12:00:00";
     updated_at := u "2025-01-03T12:00:00" |}.

(** A row of the programs table whose [directions] column is not JSON. *)
Definition corrupt_row : ProgramRow :=
  {| p_id := 99; p_name := u "Corrupt"; p_url := []; p_institute := [];
     p_duration := []; p_language := []; p_cost := []; p_description := [];
     p_directions := u "{not json"; p_career_prospects := u "[]";
     p_partners := u "[]"; p_team := u "[]"; p_admission_ways := u "[]";
     p_faq := u "[]"; p_exam_dates := u "[]";
     p_created_at := []; p_updated_at := [] |}.

(** The shape the bodies of the three report generators share: render the
    programs, build the prompt, send one request, strip the answer. *)
Definition report_body `{Platform} (make_prompt : str -> res str)
  (max_tokens : Z) (temperature : Q) : M str :=
  programs_context <- get_programs_context ;;
  prompt <- lift (make_prompt programs_context) ;;
  response <- chat_completions_create
                (chat_request prompt max_tokens temperature) ;;
  lift (first_content_stripped response).

(** The tables of the store are the same in both worlds. *)
Definition same_tables (w w' : World) : Prop :=
  programs_table w' = programs_table w
  /\ programs_seq w' = programs_seq w
  /\ user_profiles_table w' = user_profiles_table w
  /\ conversations_table w' = conversations_table w
  /\ conversations_seq w' = conversations_seq w.

(** At most one request went to the language model between [w] and [w']. *)
Definition at_most_one_request (w w' : World) : Prop :=
  model_calls w' = model_calls w
  \/ exists request, model_calls w' = model_calls w ++ [request].

(** A program whose structured fields hold what their annotations say:
    lists of dicts for [directions] and [faq], lists of strings for the four
    joined fields. *)
Record ProgramLists := {
  l_directions : list (list (str * pyval));
  l_career_prospects : list str;
  l_partners : list str;
  l_admission_ways : list str;
  l_exam_dates : list str;
  l_faq : list (list (str * pyval))
}.

Definition has_lists (p : Program) (t : ProgramLists) : Prop :=
  directions p = PList (map PDict (l_directions t))
  /\ career_prospects p = PList (map PStr (l_career_prospects t))
  /\ partners p = PList (map PStr (l_partners t))
  /\ admission_ways p = PList (map PStr (l_admission_ways t))
  /\ exam_dates p = PList (map PStr (l_exam_dates t))
  /\ faq p = PList (map PDict (l_faq t)).

Definition well_typed (p : Program) : Prop := exists t, has_lists p t.

(** The lists of the sample program. *)
Definition sample_lists : ProgramLists :=
  {| l_directions :=
       [ [ (u "name", PStr (u "Информатика и вычислительная техника"));
           (u "code", PStr (u "09.04.01"));
           (u "budget_places", PInt 51);
           (u "target_places", PInt 4);
           (u "contract_places", PInt 55) ] ];
     l_career_prospects :=
       [ u "ML Engineer"; u "Data Engineer"; u "AI Product Developer" ];
     l_partners := [ u "X5 Group"; u "Ozon Bank"; u "МТС" ];
     l_admission_ways :=
       [ u "Вступительный экзамен"; u "Конкурс Junior ML Contest" ];
     l_exam_dates := [ u "29.07.2025, 11:00"; u "31.07.2025, 11:00" ];
     l_faq :=
       [ [ (u "question",
            PStr (u "Можно ли поступить без профильного образования?"));
           (u "answer",
            PStr (u "Да, но нужно будет пройти вступительные испытания.")) ] ]
  |}.

(** The texts a well-typed program supplies to its block: its scalar
    fields, the items of the four joined lists, the lines of its directions
    and the Q/A pairs of its first five FAQ entries. *)
Definition block_parts `{Platform} (p : Program) (t : ProgramLists)
  : list str :=
  [ name p; url p; institute p; duration p; language p; cost p;
    description p ]
  ++ l_career_prospects t ++ l_partners t ++ l_admission_ways t
  ++ l_exam_dates t
  ++ map direction_line (l_directions t)
  ++ map qa_block (firstn 5 (l_faq t)).

(* ================================================================== *)
(** ** Chat handlers: [handlers/user_handlers.py]

    A handler runs on one incoming update of one user.  Besides the world
    of the store and the assistant (the module-level [db] and
    [ai_assistant] work on the same database file), it has the user's FSM
    context (a state and a data dict, as aiogram's [FSMContext] over
    [MemoryStorage] keeps them) and the Telegram Bot API, to which it sends
    calls and which may fail a call. *)

(** [message.text.split(",")]: the pieces between the separators, one more
    than there are separators. *)
Fixpoint split_at (sep : char) (cur : str) (s : str) : list str :=
  match s with
  | [] => [rev cur]
  | c :: s' =>
      if char_eqb c sep then rev cur :: split_at sep [] s'
      else split_at sep (c :: cur) s'
  end.

Definition str_split_on (sep : char) (s : str) : list str :=
  split_at sep [] s.

Definition comma : char := 44%N.

(** [[x.strip() for x in text.split(",")]] of [process_interests] and
    [process_skills]. *)
Definition stripped_items (text : str) : list str :=
  map str_strip (str_split_on comma text).

(** [[goal.strip() for goal in text.split(",") if goal.strip()]] of
    [process_goals]. *)
Definition nonempty_stripped_items (text : str) : list str :=
  map str_strip
      (filter (fun goal => match str_strip goal with [] => false | _ => true end)
              (str_split_on comma text)).

(** The states the handlers set; [no_state] is the cleared context. *)
Inductive FsmState : Type :=
| no_state
| waiting_for_question
| waiting_for_background
| waiting_for_interests
| waiting_for_skills
| waiting_for_goals.

(** An inline keyboard: rows of buttons, each a text and a callback
    datum. *)
Definition Keyboard := list (list (str * str)).

(** Calls to the Bot API, with the arguments the handlers pass. *)
Inductive ApiCall : Type :=
| send_message (text : str) (reply_markup : option Keyboard)
    (parse_mode : option str)                       (* message.answer *)
| edit_message_text (text : str) (reply_markup : option Keyboard)
    (parse_mode : option str)             (* callback.message.edit_text *)
| answer_callback_query                             (* callback.answer *)
| send_chat_action (action : str).

Record Chat := {
  store : World;
  fsm_state : FsmState;
  fsm_data : list (str * pyval);
  api_calls : list ApiCall;          (* calls that went through, oldest first *)
  telegram_faults : list bool        (* one entry per call, as for SQLite *)
}.

(** Who sent the update and what it carries. *)
Record Update := {
  from_id : Z;                       (* from_user.id *)
  from_username : option str;        (* from_user.username *)
  from_first_name : str;             (* from_user.first_name *)
  update_text : option str           (* message.text *)
}.

Inductive handler_exn : Type :=
| python_exn (e : exn)
| TelegramAPIError.

Inductive outcome (A : Type) : Type :=
| Done (a : A)
| Failed (e : handler_exn).
Arguments Done {A} a.
Arguments Failed {A} e.

Definition H (A : Type) : Type := Chat -> outcome A * Chat.

Definition h_ret {A} (a : A) : H A := fun c => (Done a, c).

Definition h_bind {A B} (m : H A) (k : A -> H B) : H B :=
  fun c =>
    match m c with
    | (Done a, c') => k a c'
    | (Failed e, c') => (Failed e, c')
    end.

Definition h_try {A} (body : H A) (handler : H A) : H A :=
  fun c =>
    match body c with
    | (Done a, c') => (Done a, c')
    | (Failed _, c') => handler c'
    end.

Notation "x <~ m ;; k" := (h_bind m (fun x => k))
  (at level 100, m at next level, right associativity) : py_scope.
Notation "m ;;~ k" := (h_bind m (fun _ => k))
  (at level 100, right associativity) : py_scope.

Definition with_store (c : Chat) (w : World) : Chat :=
  {| store := w; fsm_state := fsm_state c; fsm_data := fsm_data c;
     api_calls := api_calls c; telegram_faults := telegram_faults c |}.

Definition with_fsm (c : Chat) (s : FsmState) (d : list (str * pyval)) : Chat :=
  {| store := store c; fsm_state := s; fsm_data := d;
     api_calls := api_calls c; telegram_faults := telegram_faults c |}.

Definition with_api (c : Chat) (calls : list ApiCall) (faults : list bool)
  : Chat :=
  {| store := store c; fsm_state := fsm_state c; fsm_data := fsm_data c;
     api_calls := calls; telegram_faults := faults |}.

(** Running a method of the store or the assistant from a handler. *)
Definition in_store {A} (m : M A) : H A :=
  fun c =>
    match m (store c) with
    | (Ret a, w) => (Done a, with_store c w)
    | (Raise e, w) => (Failed (python_exn e), with_store c w)
    end.

(** A value or a Python exception, computed without effects. *)
Definition h_lift {A} (r : res A) : H A :=
  fun c =>
    match r with
    | Ret a => (Done a, c)
    | Raise e => (Failed (python_exn e), c)
    end.

(** One awaited call to the Bot API. *)
Definition api (call : ApiCall) : H unit :=
  fun c =>
    match telegram_faults c with
    | true :: rest => (Failed TelegramAPIError, with_api c (api_calls c) rest)
    | false :: rest => (Done tt, with_api c (api_calls c ++ [call]) rest)
    | [] => (Done tt, with_api c (api_calls c ++ [call]) [])
    end.

(** [state.set_state], [state.update_data], [state.get_data],
    [state.clear]. *)
Definition set_state (s : FsmState) : H unit :=
  fun c => (Done tt, with_fsm c s (fsm_data c)).

Fixpoint dict_update (d : list (str * pyval)) (key : str) (v : pyval)
  : list (str * pyval) :=
  match d with
  | [] => [(key, v)]
  | (k, old) :: d' =>
      if str_eqb k key then (k, v) :: d' else (k, old) :: dict_update d' key v
  end.

Definition update_data (key : str) (v : pyval) : H unit :=
  fun c => (Done tt, with_fsm c (fsm_state c) (dict_update (fsm_data c) key v)).

Definition get_data : H (list (str * pyval)) :=
  fun c => (Done (fsm_data c), c).

Definition clear_state : H unit :=
  fun c => (Done tt, with_fsm c no_state []).

(** [message.text] as a Python value. *)
Definition text_value (t : option str) : pyval :=
  match t with
  | Some s => PStr s
  | None => PNone
  end.

(** [message.text.split(",")] raises on a message without text. *)
Definition text_of (upd : Update) : res str :=
  match update_text upd with
  | Some s => Ret s
  | None => Raise AttributeError
  end.

(** [from_user.username or from_user.first_name or "Пользователь"] *)
Definition display_name (upd : Update) : str :=
  match from_username upd with
  | Some (c :: s) => c :: s
  | _ =>
      match from_first_name upd with
      | c :: s => c :: s
      | [] => u "Пользователь"
      end
  end.

Definition create_main_menu : Keyboard :=
  [ [ (u "🤖 Задать вопрос", u "ask_question") ];
    [ (u "📊 Сравнить программы", u "compare_programs") ];
    [ (u "🎯 Получить рекомендацию", u "get_recommendation") ];
    [ (u "📚 Гид по поступлению", u "admission_guide") ];
    [ (u "👤 Мой профиль", u "user_profile") ];
    [ (u "ℹ️ Помощь", u "help") ] ].

Definition create_profile_menu : Keyboard :=
  [ [ (u "✏️ Настроить профиль", u "setup_profile") ];
    [ (u "👀 Посмотреть профиль", u "view_profile") ];
    [ (u "🔄 Обновить профиль", u "update_profile") ];
    [ (u "🏠 Главное меню", u "main_menu") ] ].

Definition markdown : option str := Some (u "Markdown").

(** [get_response] on the text of an update.  For an update without text
    the first statement of its [try], [question.lower()], raises, and the
    handler of [get_response] returns the apology. *)
Definition get_response_of `{Platform} (text : option str) (uid : Z) : M str :=
  match text with
  | Some question => get_response question uid
  | None => ret apology_message
  end.

Definition question_keyboard : Keyboard :=
  [ [ (u "❓ Задать еще вопрос", u "ask_question") ];
    [ (u "🏠 Главное меню", u "main_menu") ] ].

(** [ask_question_mode] *)
Definition ask_question_mode : H unit :=
  api (edit_message_text
         (u "🤖 **Режим вопросов активирован**" ++ nl ++ nl
          ++ u "Задайте любой вопрос о магистерских программах ИТМО по ИИ." ++ nl
          ++ u "Например:" ++ nl
          ++ u "• Чем отличаются программы?" ++ nl
          ++ u "• Какие требования для поступления?" ++ nl
          ++ u "• Какие карьерные перспективы?" ++ nl
          ++ u "• Сколько стоит обучение?" ++ nl ++ nl
          ++ u "💬 Напишите ваш вопрос следующим сообщением:")
         None markdown) ;;~
  set_state waiting_for_question ;;~
  api answer_callback_query.

(** [process_question] *)
Definition process_question `{Platform} (upd : Update) : H unit :=
  api (send_chat_action (u "typing")) ;;~
  h_try
    (ai_response <~ in_store (get_response_of (update_text upd) (from_id upd)) ;;
     api (send_message ai_response (Some question_keyboard) markdown))
    (api (send_message
            (u "Извините, произошла ошибка при обработке вашего вопроса. Попробуйте еще раз.")
            (Some create_main_menu) None)) ;;~
  clear_state.

(** [handle_other_messages] *)
Definition handle_other_messages `{Platform} (upd : Update) : H unit :=
  api (send_chat_action (u "typing")) ;;~
  h_try
    (ai_response <~ in_store (get_response_of (update_text upd) (from_id upd)) ;;
     api (send_message ai_response (Some question_keyboard) markdown))
    (api (send_message
            (u "Произошла ошибка при обработке сообщения. Попробуйте использовать меню.")
            (Some create_main_menu) None)).

(** The handler [compare_programs] of the chat layer. *)
Definition compare_programs_handler `{Platform} : H unit :=
  api (edit_message_text (u "🔄 Генерирую сравнение программ...") None None) ;;~
  api answer_callback_query ;;~
  h_try
    (comparison <~ in_store compare_programs ;;
     api (edit_message_text comparison
            (Some [ [ (u "🎯 Получить рекомендацию", u "get_recommendation") ];
                    [ (u "🏠 Главное меню", u "main_menu") ] ])
            markdown))
    (api (edit_message_text
            (u "Ошибка при генерации сравнения. Попробуйте позже.")
            (Some create_main_menu) None)).

(** [admission_guide] *)
Definition admission_guide_handler `{Platform} : H unit :=
  api (edit_message_text (u "📚 Генерирую гид по поступлению...") None None) ;;~
  api answer_callback_query ;;~
  h_try
    (guide <~ in_store generate_admission_guide ;;
     api (edit_message_text guide
            (Some [ [ (u "🎯 Получить рекомендацию", u "get_recommendation") ];
                    [ (u "🏠 Главное меню", u "main_menu") ] ])
            markdown))
    (api (edit_message_text
            (u "Ошибка при генерации гида. Попробуйте позже.")
            (Some create_main_menu) None)).

(** [get_recommendation] *)
Definition get_recommendation `{Platform} (upd : Update) : H unit :=
  user_profile <~ in_store (get_user_profile (from_id upd)) ;;
  match user_profile with
  | None =>
      api (edit_message_text
             (u "🎯 **Персональные рекомендации**" ++ nl ++ nl
              ++ u "Для получения персональных рекомендаций необходимо заполнить профиль." ++ nl ++ nl
              ++ u "Профиль поможет мне:" ++ nl
              ++ u "• Понять ваш технический бэкграунд" ++ nl
              ++ u "• Узнать ваши карьерные цели" ++ nl
              ++ u "• Предложить подходящую программу" ++ nl
              ++ u "• Рекомендовать выборные дисциплины")
             (Some [ [ (u "✏️ Настроить профиль", u "setup_profile") ];
                     [ (u "🏠 Главное меню", u "main_menu") ] ])
             markdown) ;;~
      api answer_callback_query
  | Some profile =>
      api (edit_message_text (u "🔄 Генерирую персональную рекомендацию...")
             None None) ;;~
      api answer_callback_query ;;~
      h_try
        (recommendation <~ in_store (generate_program_recommendation profile) ;;
         api (edit_message_text
                (u "🎯 **Персональная рекомендация**" ++ nl ++ nl
                 ++ recommendation)
                (Some [ [ (u "🔄 Обновить профиль", u "update_profile") ];
                        [ (u "📚 Гид по поступлению", u "admission_guide") ];
                        [ (u "🏠 Главное меню", u "main_menu") ] ])
                markdown))
        (api (edit_message_text
                (u "Ошибка при генерации рекомендации. Попробуйте позже.")
                (Some create_main_menu) None))
  end.

(** [setup_profile], for both "setup_profile" and "update_profile" *)
Definition setup_profile : H unit :=
  api (edit_message_text
         (u "✏️ **Настройка профиля**" ++ nl ++ nl
          ++ u "Расскажите немного о своем образовательном/профессиональном бэкграунде." ++ nl ++ nl
          ++ u "Например:" ++ nl
          ++ u "• Какое у вас образование" ++ nl
          ++ u "• Опыт работы" ++ nl
          ++ u "• Проекты, над которыми работали" ++ nl
          ++ u "• Что изучали самостоятельно" ++ nl ++ nl
          ++ u "💬 Напишите ваш ответ:")
         None None) ;;~
  set_state waiting_for_background ;;~
  api answer_callback_query.

(** [process_background] *)
Definition process_background (upd : Update) : H unit :=
  update_data (u "background") (text_value (update_text upd)) ;;~
  api (send_message
         (u "🎯 **Ваши интересы**" ++ nl ++ nl
          ++ u "Какие области ИИ/ML вас больше всего интересуют?" ++ nl ++ nl
          ++ u "Например:" ++ nl
          ++ u "• Машинное обучение" ++ nl
          ++ u "• Компьютерное зрение" ++ nl
          ++ u "• NLP" ++ nl
          ++ u "• Продуктовая аналитика" ++ nl
          ++ u "• AI продукты" ++ nl ++ nl
          ++ u "💬 Перечислите через запятую:")
         None None) ;;~
  set_state waiting_for_interests.

(** [process_interests] *)
Definition process_interests (upd : Update) : H unit :=
  text <~ h_lift (text_of upd) ;;
  update_data (u "interests") (PList (map PStr (stripped_items text))) ;;~
  api (send_message
         (u "💻 **Технические навыки**" ++ nl ++ nl
          ++ u "Какими языками программирования, фреймворками или инструментами вы владеете?" ++ nl ++ nl
          ++ u "Например:" ++ nl
          ++ u "• Python, R, SQL" ++ nl
          ++ u "• TensorFlow, PyTorch" ++ nl
          ++ u "• Docker, Git" ++ nl
          ++ u "• Jupyter, Pandas" ++ nl ++ nl
          ++ u "💬 Перечислите через запятую:")
         None None) ;;~
  set_state waiting_for_skills.

(** [process_skills] *)
Definition process_skills (upd : Update) : H unit :=
  text <~ h_lift (text_of upd) ;;
  update_data (u "skills") (PList (map PStr (stripped_items text))) ;;~
  api (send_message
         (u "🎯 **Карьерные цели**" ++ nl ++ nl
          ++ u "Какие у вас карьерные планы после окончания магистратуры?" ++ nl ++ nl
          ++ u "Например:" ++ nl
          ++ u "• ML Engineer в крупной компании" ++ nl
          ++ u "• Product Manager в AI стартапе" ++ nl
          ++ u "• Data Scientist" ++ nl
          ++ u "• Исследователь в университете" ++ nl
          ++ u "• Основать собственную компанию" ++ nl ++ nl
          ++ u "💬 Опишите ваши цели:")
         None None) ;;~
  set_state waiting_for_goals.

(** The [UserProfile(...)] that [process_goals] builds. *)
Definition wizard_profile (upd : Update) (user_data : list (str * pyval))
  (goals : list str) (now_iso : str) : UserProfile :=
  {| user_id := from_id upd;
     username := display_name upd;
     background :=
       PDict [ (u "description", dict_get user_data (u "background") (PStr [])) ];
     interests := dict_get user_data (u "interests") (PList []);
     technical_skills := dict_get user_data (u "skills") (PList []);
     career_goals := PList (map PStr goals);
     preferred_program := None;
     profile_created_at := now_iso;
     profile_updated_at := now_iso |}.

Definition profile_saved_text : str :=
  u "✅ **Профиль успешно сохранен!**" ++ nl ++ nl
  ++ u "Теперь вы можете получить персональные рекомендации по программам и планированию обучения.".

Definition profile_save_failed_text : str :=
  u "❌ Ошибка при сохранении профиля. Попробуйте еще раз.".

(** [process_goals] *)
Definition process_goals `{Platform} (upd : Update) : H unit :=
  text <~ h_lift (text_of upd) ;;
  let goals := nonempty_stripped_items text in
  user_data <~ get_data ;;
  now_iso <~ in_store now ;;
  let profile := wizard_profile upd user_data goals now_iso in
  success <~ in_store (save_user_profile profile) ;;
  (if success : bool then
     api (send_message profile_saved_text
            (Some [ [ (u "🎯 Получить рекомендацию", u "get_recommendation") ];
                    [ (u "👀 Посмотреть профиль", u "view_profile") ];
                    [ (u "🏠 Главное меню", u "main_menu") ] ])
            markdown)
   else
     api (send_message profile_save_failed_text (Some create_main_menu) None)) ;;~
  clear_state.

(** [cmd_start] *)
Definition welcome_text (username : str) : str :=
  u "
🎓 Добро пожаловать в консультант по магистерским программам ИТМО по ИИ!

Привет, " ++ username ++ u "! Я помогу тебе выбрать подходящую программу магистратуры и спланировать обучение.

🔍 **Доступные программы:**
• " ++ dq ++ u "Искусственный интеллект" ++ dq ++ u " - техническая программа
• " ++ dq ++ u "Управление ИИ-продуктами/AI Product" ++ dq ++ u " - продуктовая программа

💡 **Что я умею:**
✅ Отвечать на вопросы о программах
✅ Сравнивать программы по критериям
✅ Давать персональные рекомендации
✅ Помогать с планированием поступления
✅ Рекомендовать выборные дисциплины

Выбери действие из меню ниже:
".

Definition setup_hint : str :=
  nl ++ u "🆕 *Рекомендую сначала настроить профиль для персональных рекомендаций*".

Definition cmd_start `{Platform} (upd : Update) : H unit :=
  let username := display_name upd in
  existing_profile <~ in_store (get_user_profile (from_id upd)) ;;
  let text :=
    match existing_profile with
    | Some _ => welcome_text username
    | None => welcome_text username ++ setup_hint
    end in
  api (send_message text (Some create_main_menu) markdown).

(** [show_main_menu] and [user_profile_menu] *)
Definition show_main_menu : H unit :=
  api (edit_message_text
         (u "🏠 **Главное меню**" ++ nl ++ nl ++ u "Выберите действие:")
         (Some create_main_menu) markdown) ;;~
  api answer_callback_query.

Definition user_profile_menu : H unit :=
  api (edit_message_text
         (u "👤 **Управление профилем**" ++ nl ++ nl
          ++ u "Профиль помогает получать персональные рекомендации по программам и планированию обучения.")
         (Some create_profile_menu) markdown) ;;~
  api answer_callback_query.

(** [', '.join(v) if v else 'не указаны'] *)
Definition joined_or_unset (v : pyval) : res str :=
  if py_truthy v then py_join (u ", ") v else Ret (u "не указаны").

(** [s[:10] if s else 'N/A'] *)
Definition date_or_na (s : str) : str :=
  match s with
  | [] => u "N/A"
  | _ => firstn 10 s
  end.

(** The [profile_text] of [view_profile]. *)
Definition profile_text (p : UserProfile) : res str :=
  res_bind (joined_or_unset (interests p)) (fun s_interests =>
  res_bind (joined_or_unset (technical_skills p)) (fun s_skills =>
  res_bind (joined_or_unset (career_goals p)) (fun s_goals =>
  Ret (u "
👤 **Мой профиль**

🏷️ **Имя:** " ++ username p ++ u "
📚 **Интересы:** " ++ s_interests ++ u "
💻 **Технические навыки:** " ++ s_skills ++ u "
🎯 **Карьерные цели:** " ++ s_goals ++ u "
📖 **Предпочитаемая программа:** " ++ str_or (preferred_program p) (u "не выбрана") ++ u "

📅 **Создан:** " ++ date_or_na (profile_created_at p) ++ u "
🔄 **Обновлен:** " ++ date_or_na (profile_updated_at p) ++ u "
")))).

Definition profile_missing_text : str :=
  u "👤 **Мой профиль**" ++ nl ++ nl
  ++ u "❌ Профиль не заполнен." ++ nl ++ nl
  ++ u "Заполните профиль для получения персональных рекомендаций.".

(** [view_profile] *)
Definition view_profile `{Platform} (upd : Update) : H unit :=
  user_profile <~ in_store (get_user_profile (from_id upd)) ;;
  match user_profile with
  | None =>
      api (edit_message_text profile_missing_text (Some create_profile_menu)
             markdown) ;;~
      api answer_callback_query
  | Some p =>
      text <~ h_lift (profile_text p) ;;
      api (edit_message_text text (Some create_profile_menu) markdown) ;;~
      api answer_callback_query
  end.

(** [show_help]; [cmd_help] calls it with a callback query built around
    the incoming message. *)
Definition help_text : str :=
  u "
ℹ️ **Справка**

🤖 **О боте:**
Я помогаю абитуриентам выбрать между двумя магистерскими программами ИТМО в области ИИ и спланировать обучение.

📚 **Доступные программы:**
• " ++ dq ++ u "Искусственный интеллект" ++ dq ++ u " - техническая программа
• " ++ dq ++ u "Управление ИИ-продуктами/AI Product" ++ dq ++ u " - продуктовая программа

🔧 **Возможности:**
• Ответы на вопросы о программах
• Сравнение программ по критериям
• Персональные рекомендации на основе профиля
• Гид по поступлению
• Рекомендации по выборным дисциплинам

⚠️ **Важно:**
Я отвечаю только на вопросы, связанные с этими двумя программами магистратуры ИТМО.

📞 **Команды:**
/start - перезапустить бота
/help - показать справку

👤 **Профиль:**
Заполните профиль для получения персональных рекомендаций!
".

Definition show_help : H unit :=
  api (edit_message_text help_text
         (Some [ [ (u "👤 Настроить профиль", u "setup_profile") ];
                 [ (u "🏠 Главное меню", u "main_menu") ] ])
         markdown) ;;~
  api answer_callback_query.

(** The updates a user can send and the handler each is routed to.  A
    handler registered with a state filter is listed with the state it needs;
    which of several matching handlers the dispatcher picks is left open. *)
Inductive Routed : Type :=
| to_cmd_start (upd : Update)
| to_show_main_menu
| to_ask_question_mode
| to_process_question (upd : Update)
| to_compare_programs
| to_get_recommendation (upd : Update)
| to_admission_guide
| to_user_profile_menu
| to_view_profile (upd : Update)
| to_setup_profile
| to_process_background (upd : Update)
| to_process_interests (upd : Update)
| to_process_skills (upd : Update)
| to_process_goals (upd : Update)
| to_show_help
| to_handle_other_messages (upd : Update).

(** The state filter of the handler. *)
Definition state_filter (r : Routed) : option FsmState :=
  match r with
  | to_process_question _ => Some waiting_for_question
  | to_process_background _ => Some waiting_for_background
  | to_process_interests _ => Some waiting_for_interests
  | to_process_skills _ => Some waiting_for_skills
  | to_process_goals _ => Some waiting_for_goals
  | _ => None
  end.

Definition run_handler `{Platform} (r : Routed) : H unit :=
  match r with
  | to_cmd_start upd => cmd_start upd
  | to_show_main_menu => show_main_menu
  | to_ask_question_mode => ask_question_mode
  | to_process_question upd => process_question upd
  | to_compare_programs => compare_programs_handler
  | to_get_recommendation upd => get_recommendation upd
  | to_admission_guide => admission_guide_handler
  | to_user_profile_menu => user_profile_menu
  | to_view_profile upd => view_profile upd
  | to_setup_profile => setup_profile
  | to_process_background upd => process_background upd
  | to_process_interests upd => process_interests upd
  | to_process_skills upd => process_skills upd
  | to_process_goals upd => process_goals upd
  | to_show_help => show_help
  | to_handle_other_messages upd => handle_other_messages upd
  end.

(** One update handled: a handler whose state filter, if it has one, is
    the current state runs to its end or to an exception; what it had changed
    by then stays changed. *)
Inductive chat_step `{Platform} : Chat -> Chat -> Prop :=
| handled (r : Routed) (c : Chat) :
    (forall s, state_filter r = Some s -> fsm_state c = s)
    -> chat_step c (snd (run_handler r c)).

Inductive reachable `{Platform} (c0 : Chat) : Chat -> Prop :=
| reach_start : reachable c0 c0
| reach_step (c c' : Chat) :
    reachable c0 c -> chat_step c c' -> reachable c0 c'.

(** A chat that has just begun: nothing in the FSM context, nothing sent. *)
Definition new_chat (w : World) (faults : list bool) : Chat :=
  {| store := w; fsm_state := no_state; fsm_data := [];
     api_calls := []; telegram_faults := faults |}.

(** The data the wizard has collected by the time it is in a state. *)
Definition has_key (d : list (str * pyval)) (key : str) : Prop :=
  exists v, dict_lookup d key = Some v.

Definition wizard_data_ready (c : Chat) : Prop :=
  match fsm_state c with
  | waiting_for_interests => has_key (fsm_data c) (u "background")
  | waiting_for_skills =>
      has_key (fsm_data c) (u "background")
      /\ has_key (fsm_data c) (u "interests")
  | waiting_for_goals =>
      has_key (fsm_data c) (u "background")
      /\ has_key (fsm_data c) (u "interests")
      /\ has_key (fsm_data c) (u "skills")
  | _ => True
  end.

(** Updates of the test user. *)
Definition text_update (text : str) : Update :=
  {| from_id := 12345; from_username := Some (u "test_user");
     from_first_name := u "Test"; update_text := Some text |}.

Definition photo_update : Update :=
  {| from_id := 12345; from_username := Some (u "test_user");
     from_first_name := u "Test"; update_text := None |}.

(** No call to the Bot API fails in the rest of the run. *)
Definition telegram_ok (c : Chat) : Prop :=
  forall b, In b (telegram_faults c) -> b = false.

(** The profile the wizard saves for the four answers [b], [i], [s], [g]
    of a user, at the time [now_iso]. *)
Definition answered_profile (upd : Update) (b i s g now_iso : str)
  : UserProfile :=
  {| user_id := from_id upd;
     username := display_name upd;
     background := PDict [ (u "description", PStr b) ];
     interests := PList (map PStr (stripped_items i));
     technical_skills := PList (map PStr (stripped_items s));
     career_goals := PList (map PStr (nonempty_stripped_items g));
     preferred_program := None;
     profile_created_at := now_iso;
     profile_updated_at := now_iso |}.

(** The chat after the four wizard steps, one per answer. *)
Definition after_wizard `{Platform} (ub ui us ug : Update) (c : Chat) : Chat :=
  let c1 := snd (process_background ub c) in
  let c2 := snd (process_interests ui c1) in
  let c3 := snd (process_skills us c2) in
  snd (process_goals ug c3).

(** What the handlers of the chat layer may do to the profiles: nothing to
    the rows of other users. *)
Definition others_profiles (uid : Z) (w : World) : list ProfileRow :=
  filter (fun r => negb (u_user_id r =? uid)%Z) (user_profiles_table w).

(** The replies of [process_question] and [handle_other_messages] when
    their [try] block raised. *)
Definition question_failed_reply : ApiCall :=
  send_message
    (u "Извините, произошла ошибка при обработке вашего вопроса. Попробуйте еще раз.")
    (Some create_main_menu) None.

Definition message_failed_reply : ApiCall :=
  send_message
    (u "Произошла ошибка при обработке сообщения. Попробуйте использовать меню.")
    (Some create_main_menu) None.

Definition typing : ApiCall := send_chat_action (u "typing").

(** The reply that carries the assistant's answer. *)
Definition answer_reply (answer : str) : ApiCall :=
  send_message answer (Some question_keyboard) markdown.

(** A handler run from a chat where [P] holds ends in a chat where [Q]
    holds of its result, or, if it ends with an exception, where [E]
    holds. *)
Definition triple {A} (P : Chat -> Prop) (m : H A) (Q : A -> Chat -> Prop)
  (E : Chat -> Prop) : Prop :=
  forall c, P c ->
    match m c with
    | (Done a, c') => Q a c'
    | (Failed _, c') => E c'
    end.

(** What a handler may have done to the store of [c0] by the time the
    chat is [c]: nothing to the tables; or rows for [uid] added to the
    conversation log; or the profile of [uid] written. *)
Definition tables_kept (c0 c : Chat) : Prop :=
  same_tables (store c0) (store c).

Definition logs_for (uid : Z) (c0 c : Chat) : Prop :=
  programs_table (store c) = programs_table (store c0)
  /\ user_profiles_table (store c) = user_profiles_table (store c0)
  /\ exists added,
       conversations_table (store c) = conversations_table (store c0) ++ added
       /\ Forall (fun row => c_user_id row = uid) added.

Definition writes_profile_of (uid : Z) (c0 c : Chat) : Prop :=
  programs_table (store c) = programs_table (store c0)
  /\ conversations_table (store c) = conversations_table (store c0)
  /\ others_profiles uid (store c) = others_profiles uid (store c0).

Definition store_effect (r : Routed) : Chat -> Chat -> Prop :=
  match r with
  | to_process_question upd | to_handle_other_messages upd =>
      logs_for (from_id upd)
  | to_process_goals upd => writes_profile_of (from_id upd)
  | _ => tables_kept
  end.

(** The FSM context is as it was in [c0]. *)
Definition fsm_kept (c0 c : Chat) : Prop :=
  fsm_state c = fsm_state c0 /\ fsm_data c = fsm_data c0.

(** [m] keeps [P], however it ends. *)
Definition preserves {A} (P : Chat -> Prop) (m : H A) : Prop :=
  triple P m (fun _ => P) P.

(** Properties of a chat that look only at its store, or only at its FSM
    context. *)
Definition on_store (S : World -> Prop) (c : Chat) : Prop := S (store c).

Definition on_fsm (F : FsmState -> list (str * pyval) -> Prop) (c : Chat)
  : Prop := F (fsm_state c) (fsm_data c).

(** [wizard_data_ready] as a property of the state and the data. *)
Definition data_ready (s : FsmState) (d : list (str * pyval)) : Prop :=
  match s with
  | waiting_for_interests => has_key d (u "background")
  | waiting_for_skills =>
      has_key d (u "background") /\ has_key d (u "interests")
  | waiting_for_goals =>
      has_key d (u "background") /\ has_key d (u "interests")
      /\ has_key d (u "skills")
  | _ => True
  end.

(** What the answers kept in the FSM context look like: the background is
    a text or [None], the interests and the skills are lists of strings. *)
Definition data_typed (d : list (str * pyval)) : Prop :=
  (forall v, dict_lookup d (u "background") = Some v
             -> v = PNone \/ exists text, v = PStr text)
  /\ (forall v, dict_lookup d (u "interests") = Some v
                -> exists items, v = PList (map PStr items))
  /\ (forall v, dict_lookup d (u "skills") = Some v
                -> exists items, v = PList (map PStr items)).

Definition wizard_data_typed (c : Chat) : Prop := data_typed (fsm_data c).

Definition wizard_invariant (s : FsmState) (d : list (str * pyval)) : Prop :=
  data_ready s d /\ data_typed d.

(** How [view_profile] shows a list of strings. *)
Definition shown_list (items : list str) : str :=
  match items with
  | [] => u "не указаны"
  | _ => str_join (u ", ") items
  end.

(** The two calls with which [view_profile] shows [text]. *)
Definition profile_shown (text : str) : list ApiCall :=
  [ edit_message_text text (Some create_profile_menu) markdown;
    answer_callback_query ].

(* ================================================================== *)
(** ** Site parser: [parsers/itmo_parser.py]

    Fetching a page and taking it apart with BeautifulSoup is outside the
    program, and so are the clock and [time.sleep].  What the parser takes
    from outside is gathered in [Outside]; the run itself is kept in
    [Crawl]: the store, how often the clock was read, and the addresses
    requested so far.  The [print] calls of the parser are left out. *)

Record Extracted := {
  e_program_name : str;                 (* _extract_program_name *)
  e_basic_info : list (str * str);      (* _extract_basic_info *)
  e_description : str;
  e_directions : pyval;
  e_career_prospects : pyval;
  e_partners : pyval;
  e_team : pyval;
  e_admission_ways : pyval;
  e_faq : pyval;
  e_exam_dates : pyval
}.

(** What [time.sleep] raises when it does not sleep. *)
Inductive sleep_error : Type := ValueError | OverflowError.

Record Outside := {
  (* what the ten [_extract_*] methods return for the page at an address,
     [None] when the request or an extraction raises *)
  page : str -> option Extracted;
  (* the n-th [datetime.now().isoformat()] of the run, counting from 0 *)
  time_at : nat -> str;
  (* [time.sleep(secs)]: [None] when it returns *)
  time_sleep : Z -> option sleep_error;
  (* [settings.request_delay] *)
  request_delay : Z
}.

Record Crawl := {
  db : World;
  clock_reads : nat;
  fetched : list str
}.

Inductive crawl_exn : Type :=
| store_raised (e : exn)
| sleep_raised (e : sleep_error).

Inductive crawled (A : Type) : Type :=
| Crawled (a : A)
| Crashed (e : crawl_exn).
Arguments Crawled {A} a.
Arguments Crashed {A} e.

Definition C (A : Type) : Type := Crawl -> crawled A * Crawl.

Definition c_ret {A} (a : A) : C A := fun c => (Crawled a, c).

Definition c_bind {A B} (m : C A) (k : A -> C B) : C B :=
  fun c =>
    match m c with
    | (Crawled a, c') => k a c'
    | (Crashed e, c') => (Crashed e, c')
    end.

(** [self.session.get(url)] followed by the extraction. *)
Definition fetch_page (env : Outside) (url : str) : C (option Extracted) :=
  fun c =>
    (Crawled (page env url),
     {| db := db c; clock_reads := clock_reads c;
        fetched := fetched c ++ [url] |}).

Definition datetime_now (env : Outside) : C str :=
  fun c =>
    (Crawled (time_at env (clock_reads c)),
     {| db := db c; clock_reads := S (clock_reads c);
        fetched := fetched c |}).

Definition sleep (env : Outside) (secs : Z) : C unit :=
  fun c =>
    match time_sleep env secs with
    | None => (Crawled tt, c)
    | Some e => (Crashed (sleep_raised e), c)
    end.

(** A method of [self.db], run from the parser. *)
Definition in_db {A} (m : M A) : C A :=
  fun c =>
    match m (db c) with
    | (Ret a, w) =>
        (Crawled a,
         {| db := w; clock_reads := clock_reads c; fetched := fetched c |})
    | (Raise e, w) =>
        (Crashed (store_raised e),
         {| db := w; clock_reads := clock_reads c; fetched := fetched c |})
    end.

(** [basic_info.get(key, default)] *)
Fixpoint info_get (info : list (str * str)) (key default : str) : str :=
  match info with
  | [] => default
  | (k, v) :: info' => if str_eqb k key then v else info_get info' key default
  end.

(** The dict that [parse_program_page] returns: fourteen fixed keys. *)
Record ProgramData := {
  d_name : str;
  d_url : str;
  d_institute : str;
  d_duration : str;
  d_language : str;
  d_cost : str;
  d_description : str;
  d_directions : pyval;
  d_career_prospects : pyval;
  d_partners : pyval;
  d_team : pyval;
  d_admission_ways : pyval;
  d_faq : pyval;
  d_exam_dates : pyval
}.

(** The dict built from what was extracted. *)
Definition data_of (url : str) (e : Extracted) : ProgramData :=
  {| d_name := e_program_name e;
     d_url := url;
     d_institute := info_get (e_basic_info e) (u "institute") [];
     d_duration := info_get (e_basic_info e) (u "duration") [];
     d_language := info_get (e_basic_info e) (u "language") [];
     d_cost := info_get (e_basic_info e) (u "cost") [];
     d_description := e_description e;
     d_directions := e_directions e;
     d_career_prospects := e_career_prospects e;
     d_partners := e_partners e;
     d_team := e_team e;
     d_admission_ways := e_admission_ways e;
     d_faq := e_faq e;
     d_exam_dates := e_exam_dates e |}.

Definition parse_program_page (env : Outside) (url : str)
  : C (option ProgramData) :=
  c_bind (fetch_page env url) (fun extracted =>
  c_ret (match extracted with
         | Some e => Some (data_of url e)
         | None => None                     (* except Exception: return None *)
         end)).

(** The [Program(...)] built from the dict, with [now] for both dates. *)
Definition program_of_data (program_data : ProgramData) (now_iso : str)
  : Program :=
  {| name := d_name program_data;
     url := d_url program_data;
     institute := d_institute program_data;
     duration := d_duration program_data;
     language := d_language program_data;
     cost := d_cost program_data;
     description := d_description program_data;
     directions := d_directions program_data;
     career_prospects := d_career_prospects program_data;
     partners := d_partners program_data;
     team := d_team program_data;
     admission_ways := d_admission_ways program_data;
     faq := d_faq program_data;
     exam_dates := d_exam_dates program_data;
     created_at := now_iso;
     updated_at := now_iso |}.

Definition url_ai : str := u "https://abit.itmo.ru/program/master/ai".
Definition url_ai_product : str :=
  u "https://abit.itmo.ru/program/master/ai_product".

(** The body of the loop of [parse_and_save_programs], for one URL. *)
Definition parse_and_save_one `{Platform} (env : Outside) (url : str)
  : C unit :=
  c_bind (parse_program_page env url) (fun program_data =>
  c_bind (match program_data with
          | Some d =>
              c_bind (datetime_now env) (fun now_iso =>
              c_bind (in_db (save_program (program_of_data d now_iso)))
                     (fun success => c_ret tt))
          | None => c_ret tt
          end) (fun _ =>
  sleep env (request_delay env))).

Fixpoint for_urls (body : str -> C unit) (urls : list str) : C unit :=
  match urls with
  | [] => c_ret tt
  | url :: rest => c_bind (body url) (fun _ => for_urls body rest)
  end.

Definition parse_and_save_programs `{Platform} (env : Outside) : C unit :=
  for_urls (parse_and_save_one env) [url_ai; url_ai_product].

(** The parser started on the store [w]. *)
Definition new_crawl (w : World) : Crawl :=
  {| db := w; clock_reads := 0; fetched := [] |}.

(** What [parse_program_page] returns for an address. *)
Definition page_data (env : Outside) (url : str) : option ProgramData :=
  match page env url with
  | Some e => Some (data_of url e)
  | None => None
  end.

(** How many clock readings precede that for the second page. *)
Definition reads_before_second (env : Outside) : nat :=
  match page_data env url_ai with
  | Some _ => 1
  | None => 0
  end.

(** A site whose two pages have no [h1]: both programs get the empty
    name.  The clock moves on between the pages, and [time.sleep] refuses a
    negative delay. *)
Definition bare_page : Extracted :=
  {| e_program_name := [];
     e_basic_info := [ (u "language", u "русский") ];
     e_description := [];
     e_directions := PList [];
     e_career_prospects := PList [];
     e_partners := PList [];
     e_team := PList [];
     e_admission_ways := PList [];
     e_faq := PList [];
     e_exam_dates := PList [] |}.

Definition bare_site (delay : Z) : Outside :=
  {| page := fun _ => Some bare_page;
     time_at := fun n => match n with
                         | O => u "2025-01-01T12:00:00"
                         | _ => u "2025-01-01T12:00:03"
                         end;
     time_sleep := fun secs => if (secs <? 0)%Z then Some ValueError else None;
     request_delay := delay |}.

(** [trimmed] is [text] without the whitespace at its two ends: what is
    cut off is whitespace, and [trimmed] neither begins nor ends with
    whitespace. *)
Definition trimming (text trimmed : str) : Prop :=
  (exists pre post,
      text = pre ++ trimmed ++ post
      /\ Forall (fun c => isspace c = true) pre
      /\ Forall (fun c => isspace c = true) post)
  /\ match trimmed with [] => True | c :: _ => isspace c = false end
  /\ match rev trimmed with [] => True | c :: _ => isspace c = false end.

(** A language model that fails on the requests of [get_response] (those
    with [max_tokens] 1500) and answers every other request. *)
Definition picky_create (history : list ChatRequest) (request : ChatRequest)
  : ModelOutcome :=
  if (req_max_tokens request =? 1500)%Z then ApiRaises
  else ApiResponse [Some Reference.mock_answer].

(** A language model whose answer depends on the request and comes with
    whitespace around it. *)
Definition padded_answer (request : ChatRequest) : str :=
  nl ++ u "  Ответ (" ++ str_of_int (req_max_tokens request)
  ++ u " токенов)  " ++ nl.

Definition padded_create (history : list ChatRequest) (request : ChatRequest)
  : ModelOutcome :=
  ApiResponse [Some (padded_answer request)].

(* ================================================================== *)
(** * Properties *)

(** ** Strings *)

Lemma str_eqb_eq (a b : str) : str_eqb a b = true <-> a = b.
Proof.
  revert b; induction a as [|x a IH]; intros [|y b]; simpl;
    try (split; [discriminate | discriminate]); try tauto.
  unfold char_eqb. rewrite andb_true_iff, N.eqb_eq, IH.
  split; [intros [-> ->]; reflexivity | intros E; inversion E; auto].
Qed.

Lemma str_eqb_refl (a : str) : str_eqb a a = true.
Proof. apply str_eqb_eq; reflexivity. Qed.

Lemma not_extended {A} (l : list A) (x : A) : l <> l ++ [x].
Proof.
  intros E. apply (f_equal (@List.length A)) in E.
  rewrite length_app in E. simpl in E. lia.
Qed.

Lemma lstrip_splits (s : str) :
  exists spaces, s = spaces ++ lstrip s
                 /\ Forall (fun c => isspace c = true) spaces.
Proof.
  induction s as [|c s IH]; simpl.
  - exists []. split; [reflexivity | constructor].
  - destruct (isspace c) eqn:E.
    + destruct IH as (sp & Hs & Hsp). exists (c :: sp). split.
      * simpl. rewrite <- Hs. reflexivity.
      * constructor; assumption.
    + exists []. split; [reflexivity | constructor].
Qed.

Lemma lstrip_head (s : str) :
  match lstrip s with
  | [] => True
  | c :: _ => isspace c = false
  end.
Proof.
  induction s as [|c s IH]; simpl; [exact I|].
  destruct (isspace c) eqn:E; [exact IH | exact E].
Qed.

Lemma lstrip_fixed (s : str) :
  match s with [] => True | c :: _ => isspace c = false end
  -> lstrip s = s.
Proof. destruct s as [|c s]; simpl; [reflexivity | intros ->; reflexivity]. Qed.

Lemma str_strip_idempotent (s : str) : str_strip (str_strip s) = str_strip s.
Proof.
  unfold str_strip.
  set (a := lstrip s). set (b := lstrip (rev a)).
  assert (lstrip (rev b) = rev b) as ->.
  { apply lstrip_fixed.
    destruct (lstrip_splits (rev a)) as (sp & Hsplit & _). fold b in Hsplit.
    apply (f_equal (@rev char)) in Hsplit.
    rewrite rev_involutive, rev_app_distr in Hsplit.
    pose proof (lstrip_head s) as Ha. fold a in Ha.
    destruct (rev b) as [|c r]; [exact I|].
    rewrite Hsplit in Ha. exact Ha. }
  rewrite rev_involutive.
  rewrite (lstrip_fixed b); [reflexivity|]. apply lstrip_head.
Qed.

Lemma lstrip_incl (s : str) (c : char) : In c (lstrip s) -> In c s.
Proof.
  induction s as [|d s IH]; simpl; [tauto|].
  destruct (isspace d); simpl; tauto.
Qed.

Lemma str_strip_incl (s : str) (c : char) : In c (str_strip s) -> In c s.
Proof.
  unfold str_strip. intros Hin. apply in_rev in Hin.
  apply lstrip_incl in Hin. apply in_rev in Hin.
  apply lstrip_incl in Hin. exact Hin.
Qed.

Lemma str_strip_trimming (text : str) : trimming text (str_strip text).
Proof.
  unfold trimming, str_strip.
  destruct (lstrip_splits text) as (sp1 & H1 & Hsp1).
  destruct (lstrip_splits (rev (lstrip text))) as (sp2 & H2 & Hsp2).
  set (a := lstrip text) in *. set (b := lstrip (rev a)) in *.
  assert (a = rev b ++ rev sp2) as Ha.
  { apply (f_equal (@rev char)) in H2.
    rewrite rev_involutive, rev_app_distr in H2. exact H2. }
  split; [|split].
  - exists sp1, (rev sp2). split; [rewrite <- Ha; exact H1|].
    split; [exact Hsp1 | apply Forall_rev; exact Hsp2].
  - pose proof (lstrip_head text) as Hhead. fold a in Hhead.
    destruct (rev b) as [|c r]; [exact I|].
    rewrite Ha in Hhead. exact Hhead.
  - rewrite rev_involutive. exact (lstrip_head (rev a)).
Qed.

Lemma str_startswith_spec (p s : str) :
  str_startswith p s = true <-> exists post, s = p ++ post.
Proof.
  revert s; induction p as [|c p IH]; intros s; simpl.
  - split; [exists s; reflexivity | reflexivity].
  - destruct s as [|d s].
    + split; [discriminate | intros [post E]; discriminate E].
    + unfold char_eqb. rewrite andb_true_iff, N.eqb_eq, IH. split.
      * intros [-> [post ->]]. exists post; reflexivity.
      * intros [post E]. inversion E; subst. split; [reflexivity | eauto].
Qed.

Lemma str_in_spec (sub s : str) : str_in sub s = true <-> occurs_in sub s.
Proof.
  unfold occurs_in. induction s as [|d s IH].
  - simpl. rewrite orb_false_r, str_startswith_spec. split.
    + intros [post E]. exists [], post. exact E.
    + intros [pre [post E]]. destruct pre as [|x pre]; [|discriminate E].
      exists post. exact E.
  - change (str_in sub (d :: s))
      with (str_startswith sub (d :: s) || str_in sub s).
    rewrite orb_true_iff, str_startswith_spec, IH. split.
    + intros [[post E] | [pre [post E]]].
      * exists [], post. exact E.
      * exists (d :: pre), post. rewrite E. reflexivity.
    + intros [pre [post E]]. destruct pre as [|x pre].
      * left. exists post. exact E.
      * right. inversion E; subst. exists pre, post. reflexivity.
Qed.

Lemma occurs_in_head (sub rest : str) : occurs_in sub (sub ++ rest).
Proof. exists [], rest. reflexivity. Qed.

Lemma occurs_in_app_r (sub x y : str) :
  occurs_in sub y -> occurs_in sub (x ++ y).
Proof.
  intros [pre [post ->]]. exists (x ++ pre), post.
  rewrite <- app_assoc. reflexivity.
Qed.

(** ** The relevance classifier *)

Lemma any_keyword_in_spec (keywords : list str) (text : str) :
  any_keyword_in keywords text = true
  <-> exists keyword, In keyword keywords /\ occurs_in keyword text.
Proof.
  induction keywords as [|k ks IH]; simpl.
  - split; [discriminate | intros [k [[] _]]].
  - destruct (str_in k text) eqn:E.
    + split; [intros _ | reflexivity].
      exists k. split; [left; reflexivity | apply str_in_spec; exact E].
    + rewrite IH. split.
      * intros [k' [Hin Hocc]]. exists k'. split; [right|]; assumption.
      * intros [k' [[<- | Hin] Hocc]].
        -- apply str_in_spec in Hocc. congruence.
        -- exists k'. split; assumption.
Qed.

Lemma any_keyword_in_none (keywords : list str) (text : str) :
  (forall keyword, In keyword keywords -> ~ occurs_in keyword text)
  -> any_keyword_in keywords text = false.
Proof.
  intros Hnone. destruct (any_keyword_in keywords text) eqn:E; [|reflexivity].
  apply any_keyword_in_spec in E. destruct E as [k [Hin Hocc]].
  exfalso. exact (Hnone k Hin Hocc).
Qed.

Lemma any_keyword_in_false (keywords : list str) (text : str) :
  any_keyword_in keywords text = false
  -> forall keyword, In keyword keywords -> ~ occurs_in keyword text.
Proof.
  intros E k Hin Hocc.
  assert (any_keyword_in keywords text = true) as E'
    by (apply any_keyword_in_spec; exists k; split; assumption).
  congruence.
Qed.

(** C2. A question whose lower-cased text contains an exclusion keyword is
    classified as not relevant, whatever else the text contains (inclusion
    keywords included). *)
Theorem exclusion_takes_priority `{Platform} (question keyword : str) :
  In keyword irrelevant_keywords
  -> occurs_in keyword (str_lower question)
  -> is_relevant_question question = false.
Proof.
  intros Hin Hocc. unfold is_relevant_question.
  assert (any_keyword_in irrelevant_keywords (str_lower question) = true) as ->
    by (apply any_keyword_in_spec; exists keyword; split; assumption).
  reflexivity.
Qed.

(** C3. When neither an exclusion nor an inclusion keyword occurs in the
    lower-cased text, the answer is decided by the number of whitespace
    separated tokens: not relevant for at most 3 tokens (3 included),
    relevant for more than 3. *)
Theorem length_fallback `{Platform} (question : str) :
  (forall keyword, In keyword irrelevant_keywords
                   -> ~ occurs_in keyword (str_lower question))
  -> (forall keyword, In keyword relevant_keywords
                      -> ~ occurs_in keyword (str_lower question))
  -> let tokens := List.length (str_split (str_lower question)) in
     (tokens <= 3 -> is_relevant_question question = false)
     /\ (3 < tokens -> is_relevant_question question = true).
Proof.
  intros Hex Hinc tokens. unfold is_relevant_question.
  rewrite (any_keyword_in_none _ _ Hex), (any_keyword_in_none _ _ Hinc).
  fold tokens. split; intros Hlen.
  - destruct (tokens <=? 2) eqn:E2; [reflexivity|].
    destruct (3 <? tokens) eqn:E3; [|reflexivity].
    apply Nat.ltb_lt in E3. lia.
  - destruct (tokens <=? 2) eqn:E2.
    + apply Nat.leb_le in E2. lia.
    + destruct (3 <? tokens) eqn:E3; [reflexivity|].
      apply Nat.ltb_ge in E3. lia.
Qed.

Lemma exclusion_takes_priority_witness :
  let question := u "Какая погода в ИТМО?" in
  In (u "погода") irrelevant_keywords
  /\ occurs_in (u "погода") (Reference.lower question)
  /\ occurs_in (u "итмо") (Reference.lower question)
  /\ In (u "итмо") relevant_keywords
  /\ @is_relevant_question Reference.mock_platform question = false.
Proof.
  intros question.
  assert (In (u "погода") irrelevant_keywords) as Hin
    by (left; reflexivity).
  assert (occurs_in (u "погода") (Reference.lower question)) as Hocc
    by (apply str_in_spec; vm_compute; reflexivity).
  refine (conj Hin (conj Hocc (conj _ (conj _ _)))).
  - apply str_in_spec; vm_compute; reflexivity.
  - left; reflexivity.
  - exact (@exclusion_takes_priority Reference.mock_platform question
             (u "погода") Hin Hocc).
Defined.

Lemma length_fallback_witness :
  let short := u "раз два три" in
  let long := u "Расскажите подробнее о возможностях данного направления" in
  (List.length (str_split (Reference.lower short)) = 3
   /\ @is_relevant_question Reference.mock_platform short = false)
  /\ (List.length (str_split (Reference.lower long)) = 6
      /\ @is_relevant_question Reference.mock_platform long = true).
Proof.
  intros short long. split.
  - split; [vm_compute; reflexivity|].
    refine (proj1 (@length_fallback Reference.mock_platform short _ _) _).
    + apply any_keyword_in_false; vm_compute; reflexivity.
    + apply any_keyword_in_false; vm_compute; reflexivity.
    + vm_compute. lia.
  - split; [vm_compute; reflexivity|].
    refine (proj2 (@length_fallback Reference.mock_platform long _ _) _).
    + apply any_keyword_in_false; vm_compute; reflexivity.
    + apply any_keyword_in_false; vm_compute; reflexivity.
    + vm_compute. lia.
Defined.

(** ** The record store absorbs its own failures *)

Lemma same_store_refl (w : World) : same_store w w.
Proof. repeat split. Qed.

Lemma same_store_trans (w1 w2 w3 : World) :
  same_store w1 w2 -> same_store w2 w3 -> same_store w1 w3.
Proof.
  unfold same_store. intros (A1 & A2 & A3 & A4 & A5 & A6 & A7)
                            (B1 & B2 & B3 & B4 & B5 & B6 & B7).
  repeat split; congruence.
Qed.

Lemma sqlite_connect_frame (w : World) (r : res unit) (w' : World) :
  sqlite_connect w = (r, w') -> one_connect w w'.
Proof.
  unfold sqlite_connect. destruct (sqlite_faults w) as [|[|] rest] eqn:F;
    intros E; inversion E; subst; repeat split; simpl; rewrite ?F;
    reflexivity.
Qed.

Lemma get_user_profile_absorbs `{Platform} (uid : Z) (w : World) :
  exists user_profile w',
    get_user_profile uid w = (Ret user_profile, w') /\ one_connect w w'.
Proof.
  unfold get_user_profile, try_except, bind, lift, ret.
  destruct (sqlite_connect w) as [[[]|e] w1] eqn:E;
    apply sqlite_connect_frame in E.
  - destruct (filter _ (user_profiles_table w1)) as [|row rows].
    + eauto.
    + destruct (profile_of_row row); eauto.
  - eauto.
Qed.

Lemma get_all_programs_absorbs `{Platform} (w : World) :
  exists programs w',
    get_all_programs w = (Ret programs, w') /\ one_connect w w'.
Proof.
  unfold get_all_programs.
  destruct (sqlite_connect w) as [[[]|e] w1] eqn:E;
    apply sqlite_connect_frame in E; eauto.
Qed.

Lemma get_programs_context_frame `{Platform} (w : World) :
  exists r w', get_programs_context w = (r, w') /\ one_connect w w'.
Proof.
  unfold get_programs_context, bind, lift.
  destruct (get_all_programs_absorbs w) as (programs & w1 & -> & Hs).
  eauto.
Qed.

Lemma save_conversation_returns (uid : Z) (message response timestamp : str)
  (w : World) :
  exists ok w', save_conversation uid message response timestamp w
                = (Ret ok, w').
Proof.
  unfold save_conversation, try_except, bind, ret, insert_conversation.
  destruct (sqlite_connect w) as [[[]|e] w1]; eauto.
Qed.

(** What one [save_conversation] leaves in the log: the new entry at the
    end when SQLite accepts the write, nothing otherwise. *)
Lemma save_conversation_log (uid : Z) (message response timestamp : str)
  (w : World) :
  let w' := snd (save_conversation uid message response timestamp w) in
  (hd false (sqlite_faults w) = false
   -> conversations_table w'
      = conversations_table w
          ++ [ {| c_id := (conversations_seq w + 1)%Z; c_user_id := uid;
                  c_message := message; c_response := response;
                  c_timestamp := timestamp |} ])
  /\ (hd false (sqlite_faults w) = true
      -> conversations_table w' = conversations_table w).
Proof.
  unfold save_conversation, try_except, bind, ret, insert_conversation,
    sqlite_connect.
  destruct (sqlite_faults w) as [|[|] rest]; simpl; split;
    intros E; try discriminate E; reflexivity.
Qed.

Lemma sqlite_connect_fails (w : World) :
  hd false (sqlite_faults w) = true
  -> exists w', sqlite_connect w = (Raise SqliteError, w')
                /\ one_connect w w'.
Proof.
  intros Hfault. unfold sqlite_connect.
  destruct (sqlite_faults w) as [|[|] rest] eqn:F; try discriminate Hfault.
  eexists. split; [reflexivity|]. repeat split. simpl. rewrite F. reflexivity.
Qed.

Lemma save_conversation_effects (uid : Z) (message response timestamp : str)
  (w : World) :
  let w' := snd (save_conversation uid message response timestamp w) in
  programs_table w' = programs_table w
  /\ programs_seq w' = programs_seq w
  /\ user_profiles_table w' = user_profiles_table w
  /\ model_calls w' = model_calls w
  /\ (conversations_table w' = conversations_table w
      \/ conversations_table w'
         = conversations_table w
             ++ [conversation_row (conversations_seq w + 1) uid message
                   response timestamp]).
Proof.
  unfold save_conversation, try_except, bind, ret, insert_conversation.
  destruct (sqlite_connect w) as [[[]|e] w1] eqn:E;
    apply sqlite_connect_frame in E;
    destruct E as [(T1 & T2 & T3 & T4 & T5 & T6 & _) _]; simpl;
    repeat split; auto.
  right. rewrite T4, T5. reflexivity.
Qed.

(** ** The response pipeline *)

(** C1. A question classified as not relevant is answered with the fixed
    redirect message, which names both programs; nothing else happens: the
    world after the call is the world before it, so no request went to the
    language model and no table of the store changed. *)
Theorem out_of_scope_redirect `{Platform} (question : str) (uid : Z)
  (w : World) :
  is_relevant_question question = false
  -> get_response question uid w = (Ret redirect_message, w)
     /\ occurs_in program_name_ai redirect_message
     /\ occurs_in program_name_ai_product redirect_message.
Proof.
  intros Hrel. split; [|split].
  - unfold get_response, get_response_body, try_except. rewrite Hrel.
    reflexivity.
  - apply str_in_spec. vm_compute. reflexivity.
  - apply str_in_spec. vm_compute. reflexivity.
Qed.

Lemma out_of_scope_redirect_witness :
  let question := u "Какая сегодня погода?" in
  let w := snd (@save_program Reference.mock_platform
                  Reference.sample_program
                  (Reference.empty_world (u "2025-01-01T12:00:00"))) in
  @is_relevant_question Reference.mock_platform question = false
  /\ @get_response Reference.mock_platform question 12345 w
     = (Ret redirect_message, w).
Proof.
  intros question w.
  assert (@is_relevant_question Reference.mock_platform question = false)
    as Hrel by (vm_compute; reflexivity).
  split; [exact Hrel|].
  exact (proj1 (@out_of_scope_redirect Reference.mock_platform
                  question 12345 w Hrel)).
Defined.

(** What the body of [get_response] does on a relevant question, step by
    step: [w1] is the world after the profile lookup, [w2] after the programs
    were read. *)
Lemma get_response_relevant_run `{Platform} (question : str) (uid : Z)
  (w : World) :
  exists user_profile w1 context w2,
    get_user_profile uid w = (Ret user_profile, w1)
    /\ one_connect w w1
    /\ get_programs_context w1 = (context, w2)
    /\ one_connect w1 w2
    /\ get_response_relevant question uid w
       = match format_profile_context user_profile with
         | Raise e => (Raise e, w1)
         | Ret profile_context =>
             match context with
             | Raise e => (Raise e, w2)
             | Ret programs_context =>
                 let request :=
                   ask_request programs_context profile_context question in
                 match openai_create (model_calls w2) request with
                 | ApiRaises => (Raise OpenAIError, sent w2 request)
                 | ApiResponse choices =>
                     match first_content_stripped choices with
                     | Raise e => (Raise e, sent w2 request)
                     | Ret ai_response =>
                         (Ret ai_response,
                          snd (save_conversation uid question ai_response
                                 (clock w2) (sent w2 request)))
                     end
                 end
             end
         end.
Proof.
  destruct (get_user_profile_absorbs uid w) as (up & w1 & E1 & F1).
  destruct (get_programs_context_frame w1) as (context & w2 & E2 & F2).
  exists up, w1, context, w2. repeat (split; [assumption|]).
  unfold get_response_relevant, bind. rewrite E1. unfold lift at 1.
  destruct (format_profile_context up) as [profile_context|e]; [|reflexivity].
  rewrite E2. destruct context as [programs_context|e]; [|reflexivity].
  unfold chat_completions_create. cbv zeta.
  set (request := ask_request programs_context profile_context question).
  fold (sent w2 request).
  destruct (openai_create (model_calls w2) request) as [|choices];
    [reflexivity|].
  unfold lift. destruct (first_content_stripped choices) as [ai|e];
    [|reflexivity].
  unfold now.
  destruct (save_conversation_returns uid question ai (clock (sent w2 request))
              (sent w2 request)) as (ok & w4 & E4).
  change (clock (sent w2 request)) with (clock w2) in *.
  rewrite E4. reflexivity.
Qed.

Lemma two_connects (w w1 w2 : World) :
  one_connect w w1 -> one_connect w1 w2
  -> same_store w w2 /\ sqlite_faults w2 = tl (tl (sqlite_faults w)).
Proof.
  intros [S1 F1] [S2 F2]. split.
  - exact (same_store_trans w w1 w2 S1 S2).
  - rewrite F2, F1. reflexivity.
Qed.

Lemma str_eqb_neq (a b : str) : str_eqb a b = false -> a <> b.
Proof.
  intros E ->. rewrite str_eqb_refl in E. discriminate E.
Qed.

(** The whole of [get_response] on a relevant question: the profile is
    looked up (world [w1]), the programs are read and rendered (world [w2]),
    and every exception of the body ends in the apology. *)
Lemma get_response_outcome `{Platform} (question : str) (uid : Z)
  (w : World) :
  is_relevant_question question = true
  -> exists user_profile w1 context w2,
       get_user_profile uid w = (Ret user_profile, w1)
       /\ one_connect w w1
       /\ get_programs_context w1 = (context, w2)
       /\ one_connect w1 w2
       /\ get_response question uid w
          = match format_profile_context user_profile with
            | Raise e => (Ret apology_message, w1)
            | Ret profile_context =>
                match context with
                | Raise e => (Ret apology_message, w2)
                | Ret programs_context =>
                    let request :=
                      ask_request programs_context profile_context question in
                    match openai_create (model_calls w) request with
                    | ApiRaises => (Ret apology_message, sent w2 request)
                    | ApiResponse choices =>
                        match first_content_stripped choices with
                        | Raise e => (Ret apology_message, sent w2 request)
                        | Ret ai_response =>
                            (Ret ai_response,
                             snd (save_conversation uid question ai_response
                                    (clock w) (sent w2 request)))
                        end
                    end
                end
            end.
Proof.
  intros Hrel.
  destruct (get_response_relevant_run question uid w)
    as (up & w1 & context & w2 & E1 & F1 & E2 & F2 & Hrun).
  exists up, w1, context, w2. repeat (split; [assumption|]).
  destruct (two_connects w w1 w2 F1 F2)
    as [(_ & _ & _ & _ & _ & C2 & K2) _].
  unfold get_response, get_response_body, try_except.
  rewrite Hrel. cbn [negb]. rewrite Hrun.
  destruct (format_profile_context up) as [profile_context|e];
    [|reflexivity].
  destruct context as [programs_context|e]; [|reflexivity].
  cbv zeta. rewrite C2, K2.
  destruct (openai_create (model_calls w) _) as [|choices]; [reflexivity|].
  destruct (first_content_stripped choices); reflexivity.
Qed.

(** C4. On a relevant question, at most one request goes to the language
    model, whatever happens; and when the call made with the request that
    was sent raises, the answer is the fixed apology and the conversation
    log is as it was: there is no second attempt and nothing is logged. *)
Theorem model_failure_apology `{Platform} (question : str) (uid : Z)
  (w : World) :
  is_relevant_question question = true
  -> let run := get_response question uid w in
     (model_calls (snd run) = model_calls w
      \/ exists request, model_calls (snd run) = model_calls w ++ [request])
     /\ forall request,
          model_calls (snd run) = model_calls w ++ [request]
          -> openai_create (model_calls w) request = ApiRaises
          -> fst run = Ret apology_message
             /\ conversations_table (snd run) = conversations_table w
             /\ conversations_seq (snd run) = conversations_seq w.
Proof.
  intros Hrel.
  destruct (get_response_outcome question uid w Hrel)
    as (up & w1 & context & w2 & E1 & F1 & E2 & F2 & Hrun).
  destruct (two_connects w w1 w2 F1 F2)
    as [(_ & _ & _ & T2 & S2 & C2 & _) _].
  destruct F1 as [(_ & _ & _ & T1 & S1 & C1 & _) _].
  cbv zeta. rewrite Hrun. clear Hrun.
  destruct (format_profile_context up) as [profile_context|e].
  2:{ cbn [fst snd]. split; [left; exact C1|].
      intros request Hsent. rewrite C1 in Hsent.
      destruct (not_extended _ _ Hsent). }
  destruct context as [programs_context|e].
  2:{ cbn [fst snd]. split; [left; exact C2|].
      intros request Hsent. rewrite C2 in Hsent.
      destruct (not_extended _ _ Hsent). }
  cbv zeta.
  set (request0 := ask_request programs_context profile_context question).
  assert (model_calls (sent w2 request0) = model_calls w ++ [request0])
    as Hsent0 by (unfold sent; simpl; rewrite C2; reflexivity).
  destruct (openai_create (model_calls w) request0) as [|choices] eqn:Hout.
  - cbn [fst snd]. split; [right; exists request0; exact Hsent0|].
    intros request _ _. unfold sent; simpl. auto.
  - assert (forall request,
               model_calls w ++ [request0] = model_calls w ++ [request]
               -> openai_create (model_calls w) request <> ApiRaises)
      as Habs.
    { intros request Hsent Hfail. apply app_inv_head in Hsent.
      injection Hsent as <-. rewrite Hout in Hfail. discriminate Hfail. }
    destruct (first_content_stripped choices) as [ai|e]; cbn [fst snd].
    + destruct (save_conversation_effects uid question ai (clock w)
                  (sent w2 request0)) as (_ & _ & _ & SM & _).
      cbv zeta in SM. rewrite SM, Hsent0.
      split; [right; exists request0; reflexivity|].
      intros request Hsent Hfail. destruct (Habs request Hsent Hfail).
    + rewrite Hsent0.
      split; [right; exists request0; reflexivity|].
      intros request Hsent Hfail. destruct (Habs request Hsent Hfail).
Qed.

Lemma model_failure_apology_witness :
  let P := Reference.platform picky_create in
  let question := u "Какие программы доступны?" in
  let w := Reference.empty_world (u "2025-01-01T12:00:00") in
  let run := @get_response P question 12345 w in
  @is_relevant_question P question = true
  /\ (exists request,
        model_calls (snd run) = model_calls w ++ [request]
        /\ @openai_create P (model_calls w) request = ApiRaises)
  /\ @openai_create P (model_calls w)
       (@chat_request P (u "Сравни программы") 2000 (5 # 10)%Q)
     = ApiResponse [Some Reference.mock_answer]
  /\ fst run = Ret apology_message
  /\ conversations_table (snd run) = conversations_table w.
Proof.
  intros P question w run.
  assert (@is_relevant_question P question = true) as Hrel
    by (vm_compute; reflexivity).
  set (request := hd {| req_model := []; req_messages := [];
                        req_max_tokens := 0; req_temperature := 0%Q |}
                     (model_calls (snd run))).
  assert (model_calls (snd run) = model_calls w ++ [request]) as Hsent
    by (vm_compute; reflexivity).
  assert (@openai_create P (model_calls w) request = ApiRaises) as Hfail
    by (vm_compute; reflexivity).
  destruct (proj2 (@model_failure_apology P question 12345 w Hrel)
              request Hsent Hfail) as (Hanswer & Hlog & _).
  refine (conj Hrel (conj _ (conj _ (conj Hanswer Hlog)))).
  - exists request. exact (conj Hsent Hfail).
  - vm_compute. reflexivity.
Defined.

(** C5. On a relevant question, when the call made with the request that
    was sent returns text, [get_response] returns that text with the
    whitespace at its two ends cut off, and performs one
    [save_conversation], with the question as it was asked and the trimmed
    text: the log gains exactly that entry (the log is left as it was only
    if SQLite rejects this very write). *)
Theorem success_logs_once `{Platform} (question : str) (uid : Z)
  (w : World) :
  is_relevant_question question = true
  -> let run := get_response question uid w in
     forall request text others,
       model_calls (snd run) = model_calls w ++ [request]
       -> openai_create (model_calls w) request
          = ApiResponse (Some text :: others)
       -> fst run = Ret (str_strip text)
          /\ trimming text (str_strip text)
          /\ (exists w2,
                same_store w w2
                /\ sqlite_faults w2 = tl (tl (sqlite_faults w))
                /\ snd run
                   = snd (save_conversation uid question (str_strip text)
                            (clock w) (sent w2 request)))
          /\ (nth 2 (sqlite_faults w) false = false
              -> conversations_table (snd run)
                 = conversations_table w
                     ++ [ {| c_id := (conversations_seq w + 1)%Z;
                             c_user_id := uid;
                             c_message := question;
                             c_response := str_strip text;
                             c_timestamp := clock w |} ])
          /\ (nth 2 (sqlite_faults w) false = true
              -> conversations_table (snd run) = conversations_table w).
Proof.
  intros Hrel.
  destruct (get_response_outcome question uid w Hrel)
    as (up & w1 & context & w2 & E1 & F1 & E2 & F2 & Hrun).
  destruct (two_connects w w1 w2 F1 F2) as [S2 Hfaults].
  pose proof S2 as (_ & _ & _ & T2 & Q2 & C2 & K2).
  destruct F1 as [(_ & _ & _ & _ & _ & C1 & _) _].
  cbv zeta. rewrite Hrun. clear Hrun.
  intros request text others Hsent Hok.
  destruct (format_profile_context up) as [profile_context|e].
  2:{ cbn [snd] in Hsent. rewrite C1 in Hsent.
      destruct (not_extended _ _ Hsent). }
  destruct context as [programs_context|e].
  2:{ cbn [snd] in Hsent. rewrite C2 in Hsent.
      destruct (not_extended _ _ Hsent). }
  cbv zeta in Hsent |- *.
  set (request0 := ask_request programs_context profile_context question)
    in *.
  assert (model_calls (sent w2 request0) = model_calls w ++ [request0])
    as Hsent0 by (unfold sent; simpl; rewrite C2; reflexivity).
  assert (request0 = request) as Hsame.
  { destruct (openai_create (model_calls w) request0) as [|choices];
      [|destruct (first_content_stripped choices) as [ai|e]];
      cbn [snd] in Hsent.
    - rewrite Hsent0 in Hsent. apply app_inv_head in Hsent.
      injection Hsent as ->. reflexivity.
    - destruct (save_conversation_effects uid question ai (clock w)
                  (sent w2 request0)) as (_ & _ & _ & SM & _).
      cbv zeta in SM. rewrite SM, Hsent0 in Hsent.
      apply app_inv_head in Hsent. injection Hsent as ->. reflexivity.
    - rewrite Hsent0 in Hsent. apply app_inv_head in Hsent.
      injection Hsent as ->. reflexivity. }
  clearbody request0. subst request0. rewrite Hok.
  cbn [first_content_stripped fst snd].
  split; [reflexivity|]. split; [apply str_strip_trimming|]. split.
  - exists w2. split; [exact S2 | split; [exact Hfaults | reflexivity]].
  - pose proof (save_conversation_log uid question (str_strip text) (clock w)
                  (sent w2 request)) as Hlog.
    cbv zeta in Hlog.
    change (sqlite_faults (sent w2 request)) with (sqlite_faults w2) in Hlog.
    change (conversations_table (sent w2 request))
      with (conversations_table w2) in Hlog.
    change (conversations_seq (sent w2 request))
      with (conversations_seq w2) in Hlog.
    rewrite Hfaults, T2, Q2 in Hlog.
    assert (hd false (tl (tl (sqlite_faults w)))
            = nth 2 (sqlite_faults w) false) as Hnth
      by (destruct (sqlite_faults w) as [|a [|b [|c l]]]; reflexivity).
    rewrite Hnth in Hlog. exact Hlog.
Qed.

Lemma success_logs_once_witness :
  let P := Reference.platform padded_create in
  let question := u "Чем отличаются программы?" in
  let w := snd (@save_program P Reference.sample_program
                  (Reference.empty_world (u "2025-01-01T12:00:00"))) in
  let run := @get_response P question 12345 w in
  let text := nl ++ u "  Ответ (1500 токенов)  " ++ nl in
  @is_relevant_question P question = true
  /\ (exists request,
        model_calls (snd run) = model_calls w ++ [request]
        /\ @openai_create P (model_calls w) request
           = ApiResponse [Some text])
  /\ @openai_create P (model_calls w)
       (@chat_request P (u "Сравни программы") 2000 (5 # 10)%Q)
     <> ApiResponse [Some text]
  /\ fst run = Ret (u "Ответ (1500 токенов)")
  /\ trimming text (u "Ответ (1500 токенов)")
  /\ conversations_table (snd run)
     = [ {| c_id := 1; c_user_id := 12345; c_message := question;
            c_response := u "Ответ (1500 токенов)";
            c_timestamp := u "2025-01-01T12:00:00" |} ].
Proof.
  intros P question w run text.
  assert (@is_relevant_question P question = true) as Hrel
    by (vm_compute; reflexivity).
  set (request := hd {| req_model := []; req_messages := [];
                        req_max_tokens := 0; req_temperature := 0%Q |}
                     (model_calls (snd run))).
  assert (model_calls (snd run) = model_calls w ++ [request]) as Hsent
    by (vm_compute; reflexivity).
  assert (@openai_create P (model_calls w) request = ApiResponse [Some text])
    as Hok by (vm_compute; reflexivity).
  assert (str_strip text = u "Ответ (1500 токенов)") as Htrim
    by (vm_compute; reflexivity).
  destruct (@success_logs_once P question 12345 w Hrel request text []
              Hsent Hok) as (Hanswer & Htrimming & _ & Hlog & _).
  rewrite Htrim in Hanswer, Htrimming.
  refine (conj Hrel (conj _ (conj _ (conj Hanswer (conj Htrimming _))))).
  - exists request. exact (conj Hsent Hok).
  - vm_compute. discriminate.
  - pose proof (Hlog eq_refl) as Hrow. rewrite Htrim in Hrow.
    etransitivity; [exact Hrow|]. vm_compute. reflexivity.
Defined.

(** ** Totality of the four public operations *)

Lemma try_except_absorbs {A} (body : M A) (fallback : A) (w : World) :
  exists a w',
    try_except body (fun _ => ret fallback) w = (Ret a, w')
    /\ (forall e, fst (body w) = Raise e -> a = fallback)
    /\ (forall b, fst (body w) = Ret b -> a = b).
Proof.
  unfold try_except, ret. destruct (body w) as [[b|e] w1]; simpl.
  - exists b, w1. repeat split; congruence.
  - exists fallback, w1. repeat split; congruence.
Qed.

(** An operation that is one [try] around [body] with a handler returning
    [fallback]. *)
Ltac absorbed body fallback w :=
  let s := fresh "s" in
  let w' := fresh "w'" in
  let E := fresh "E" in
  let Hraise := fresh "Hraise" in
  destruct (try_except_absorbs body fallback w) as (s & w' & E & Hraise & _);
  exists s, w'; split; assumption.

(** C6. Each of the four public operations returns a string on every
    input and in every world and never raises; whenever its body raises, what
    it returns is the fallback string of that operation, and the four
    fallback strings differ from one another. *)
Theorem public_operations_total `{Platform} :
  (forall question uid w, exists s w',
      get_response question uid w = (Ret s, w')
      /\ (forall e, fst (get_response_body question uid w) = Raise e
                    -> s = apology_message))
  /\ (forall user_profile w, exists s w',
         generate_program_recommendation user_profile w = (Ret s, w')
         /\ (forall e, fst (recommendation_body user_profile w) = Raise e
                       -> s = recommendation_fallback))
  /\ (forall w, exists s w',
         compare_programs w = (Ret s, w')
         /\ (forall e, fst (comparison_body w) = Raise e
                       -> s = comparison_fallback))
  /\ (forall w, exists s w',
         generate_admission_guide w = (Ret s, w')
         /\ (forall e, fst (admission_guide_body w) = Raise e
                       -> s = admission_guide_fallback))
  /\ NoDup [ apology_message; recommendation_fallback;
             comparison_fallback; admission_guide_fallback ].
Proof.
  repeat apply conj.
  - intros question uid w.
    absorbed (get_response_body question uid) apology_message w.
  - intros user_profile w.
    absorbed (recommendation_body user_profile) recommendation_fallback w.
  - intros w. absorbed comparison_body comparison_fallback w.
  - intros w. absorbed admission_guide_body admission_guide_fallback w.
  - repeat constructor; simpl; intuition;
      match goal with
      | E : ?a = ?b |- _ =>
          revert E; apply str_eqb_neq; vm_compute; reflexivity
      end.
Qed.

(** With a language model that raises on every call, each operation
    returns its own fallback. *)
Lemma public_operations_total_witness :
  let P := Reference.failing_platform in
  let w := Reference.empty_world (u "2025-01-01T12:00:00") in
  fst (@get_response P (u "Какие программы доступны?") 12345 w)
  = Ret apology_message
  /\ fst (@generate_program_recommendation P Reference.sample_user_profile w)
     = Ret recommendation_fallback
  /\ fst (@compare_programs P w) = Ret comparison_fallback
  /\ fst (@generate_admission_guide P w) = Ret admission_guide_fallback.
Proof.
  intros P w.
  destruct (@public_operations_total P)
    as (Hask & Hrecommend & Hcompare & Hguide & _).
  repeat apply conj.
  - destruct (Hask (u "Какие программы доступны?") 12345%Z w)
      as (s & w' & E & Hraise).
    rewrite E, (Hraise OpenAIError); [reflexivity|].
    vm_compute. reflexivity.
  - destruct (Hrecommend Reference.sample_user_profile w)
      as (s & w' & E & Hraise).
    rewrite E, (Hraise OpenAIError); [reflexivity|].
    vm_compute. reflexivity.
  - destruct (Hcompare w) as (s & w' & E & Hraise).
    rewrite E, (Hraise OpenAIError); [reflexivity|].
    vm_compute. reflexivity.
  - destruct (Hguide w) as (s & w' & E & Hraise).
    rewrite E, (Hraise OpenAIError); [reflexivity|].
    vm_compute. reflexivity.
Defined.

(** ** Which failures reach the apology *)

(** C10 (as amended). On a relevant question every exception raised in
    the pipeline of [get_response] ends in the same apology string, whatever
    raised it: rendering the profile or the programs context (then no request
    is sent), the call to the language model, a response without choices or
    without text.  A failed read of the record store is not among them:
    [get_user_profile] and [get_all_programs] never raise; a failed profile
    lookup gives no profile, hence the empty profile context, and a failed
    listing gives no programs, hence the empty programs context; the pipeline
    goes on with these, and when both contexts render it sends its one
    request and returns the model's trimmed text if the model answers that
    request with text. *)
Theorem pipeline_failures_give_apology `{Platform} (question : str) (uid : Z)
  (w : World) :
  is_relevant_question question = true
  -> (forall w0, exists programs w', get_all_programs w0 = (Ret programs, w'))
     /\ format_profile_context None = Ret []
     /\ exists user_profile w1 context w2,
          get_user_profile uid w = (Ret user_profile, w1)
          /\ get_programs_context w1 = (context, w2)
          /\ (hd false (sqlite_faults w) = true -> user_profile = None)
          /\ (hd false (tl (sqlite_faults w)) = true -> context = Ret [])
          /\ let run := get_response question uid w in
             match format_profile_context user_profile, context with
             | Ret profile_context, Ret programs_context =>
                 let request :=
                   ask_request programs_context profile_context question in
                 model_calls (snd run) = model_calls w ++ [request]
                 /\ match openai_create (model_calls w) request with
                    | ApiResponse (Some text :: _) =>
                        fst run = Ret (str_strip text)
                    | ApiResponse (None :: _) => fst run = Ret apology_message
                    | ApiResponse [] => fst run = Ret apology_message
                    | ApiRaises => fst run = Ret apology_message
                    end
             | _, _ =>
                 fst run = Ret apology_message
                 /\ model_calls (snd run) = model_calls w
             end.
Proof.
  intros Hrel. split.
  { intros w0. destruct (get_all_programs_absorbs w0) as (ps & w3 & E & _).
    eauto. }
  split; [reflexivity|].
  destruct (get_response_outcome question uid w Hrel)
    as (up & w1 & context & w2 & E1 & F1 & E2 & F2 & Hrun).
  exists up, w1, context, w2.
  split; [exact E1|]. split; [exact E2|].
  destruct (two_connects w w1 w2 F1 F2)
    as [(_ & _ & _ & _ & _ & C2 & _) _].
  pose proof F1 as [(_ & _ & _ & _ & _ & C1 & _) Hfaults1].
  split; [|split].
  - intros Hfault.
    destruct (sqlite_connect_fails w Hfault) as (w' & E & _).
    unfold get_user_profile, try_except, bind, ret in E1.
    rewrite E in E1. congruence.
  - intros Hfault. rewrite <- Hfaults1 in Hfault.
    destruct (sqlite_connect_fails w1 Hfault) as (w' & E & _).
    unfold get_programs_context, bind, get_all_programs in E2.
    rewrite E in E2. unfold lift in E2. cbn [for_each] in E2.
    exact (eq_sym (f_equal fst E2)).
  - cbv zeta. rewrite Hrun. clear Hrun.
    destruct (format_profile_context up) as [profile_context|e];
      [|cbn [fst snd]; auto].
    destruct context as [programs_context|e]; [|cbn [fst snd]; auto].
    cbv zeta.
    set (request := ask_request programs_context profile_context question).
    assert (model_calls (sent w2 request) = model_calls w ++ [request])
      as Hsent by (unfold sent; simpl; rewrite C2; reflexivity).
    destruct (openai_create (model_calls w) request)
      as [|[|[text|] rest]]; cbn [first_content_stripped fst snd];
      try (split; [exact Hsent | reflexivity]).
    destruct (save_conversation_effects uid question (str_strip text)
                (clock w) (sent w2 request)) as (_ & _ & _ & SM & _).
    cbv zeta in SM. rewrite SM. split; [exact Hsent | reflexivity].
Qed.

(** Four runs: the model raises; the model answers without text; the
    profile lookup fails and a stored program does not render (apology, and
    nothing is sent); both reads fail and the model answers (its answer comes
    back). *)
Lemma pipeline_failures_give_apology_witness :
  let question := u "Какие программы доступны?" in
  let w := Reference.empty_world (u "2025-01-01T12:00:00") in
  let w_ill := with_sqlite_faults
                 (snd (@save_program Reference.mock_platform
                         ill_typed_program w)) [true] in
  let w_down := with_sqlite_faults
                  (snd (@save_program Reference.mock_platform
                          Reference.sample_program w)) [true; true] in
  @is_relevant_question Reference.mock_platform question = true
  /\ fst (@get_response Reference.failing_platform question 12345 w)
     = Ret apology_message
  /\ fst (@get_response
            (Reference.platform (fun _ _ => ApiResponse [None]))
            question 12345 w)
     = Ret apology_message
  /\ (fst (@get_response Reference.mock_platform question 12345 w_ill)
      = Ret apology_message
      /\ model_calls
           (snd (@get_response Reference.mock_platform question 12345 w_ill))
         = [])
  /\ (fst (@get_response Reference.mock_platform question 12345 w_down)
      = Ret (str_strip Reference.mock_answer)
      /\ model_calls
           (snd (@get_response Reference.mock_platform question 12345 w_down))
         = [@ask_request Reference.mock_platform [] [] question]).
Proof.
  intros question w w_ill w_down.
  assert (@is_relevant_question Reference.mock_platform question = true)
    as Hrel by (vm_compute; reflexivity).
  refine (conj Hrel (conj _ (conj _ (conj _ _)))).
  - destruct (@pipeline_failures_give_apology Reference.failing_platform
                question 12345 w Hrel)
      as (_ & _ & up & w1 & context & w2 & E1 & E2 & _ & _ & Hout).
    assert (@get_user_profile Reference.failing_platform 12345 w
            = (Ret None, w)) as C1 by (vm_compute; reflexivity).
    assert (up = None /\ w1 = w) as [-> ->] by (split; congruence).
    assert (@get_programs_context Reference.failing_platform w
            = (Ret [], w)) as C2 by (vm_compute; reflexivity).
    assert (context = Ret []) as -> by congruence.
    exact (proj2 Hout).
  - destruct (@pipeline_failures_give_apology
                (Reference.platform (fun _ _ => ApiResponse [None]))
                question 12345 w Hrel)
      as (_ & _ & up & w1 & context & w2 & E1 & E2 & _ & _ & Hout).
    assert (@get_user_profile
              (Reference.platform (fun _ _ => ApiResponse [None])) 12345 w
            = (Ret None, w)) as C1 by (vm_compute; reflexivity).
    assert (up = None /\ w1 = w) as [-> ->] by (split; congruence).
    assert (@get_programs_context
              (Reference.platform (fun _ _ => ApiResponse [None])) w
            = (Ret [], w)) as C2 by (vm_compute; reflexivity).
    assert (context = Ret []) as -> by congruence.
    exact (proj2 Hout).
  - destruct (@pipeline_failures_give_apology Reference.mock_platform
                question 12345 w_ill Hrel)
      as (_ & _ & up & w1 & context & w2 & E1 & E2 & Hnone & _ & Hout).
    rewrite (Hnone eq_refl) in *.
    assert (w1 = with_sqlite_faults w_ill []) as ->.
    { assert (@get_user_profile Reference.mock_platform 12345 w_ill
              = (Ret None, with_sqlite_faults w_ill [])) as C1
        by (vm_compute; reflexivity).
      congruence. }
    assert (@get_programs_context Reference.mock_platform
              (with_sqlite_faults w_ill [])
            = (Raise TypeError, with_sqlite_faults w_ill [])) as C2
      by (vm_compute; reflexivity).
    assert (context = Raise TypeError) as -> by congruence.
    exact Hout.
  - destruct (@pipeline_failures_give_apology Reference.mock_platform
                question 12345 w_down Hrel)
      as (_ & _ & up & w1 & context & w2 & _ & _ & Hnone & Hempty & Hout).
    rewrite (Hnone eq_refl), (Hempty eq_refl) in Hout.
    destruct Hout as (Hsent & Hanswer).
    exact (conj Hanswer Hsent).
Defined.

(** With both reads of the store failing, the question is still sent to the
    model and the model's answer comes back, not the apology. *)
Lemma store_read_failure_is_absorbed :
  let question := u "Чем отличаются программы?" in
  let w := with_sqlite_faults
             (snd (@save_program Reference.mock_platform
                     Reference.sample_program
                     (Reference.empty_world (u "2025-01-01T12:00:00"))))
             [true; true] in
  @is_relevant_question Reference.mock_platform question = true
  /\ hd false (sqlite_faults w) = true
  /\ fst (@get_response Reference.mock_platform question 12345 w)
     = Ret Reference.mock_answer
  /\ ~ @store_failure_gives_apology Reference.mock_platform question 12345 w.
Proof.
  intros question w.
  assert (@is_relevant_question Reference.mock_platform question = true)
    as Hrel by (vm_compute; reflexivity).
  assert (fst (@get_response Reference.mock_platform question 12345 w)
          = Ret Reference.mock_answer) as Hrun by (vm_compute; reflexivity).
  refine (conj Hrel (conj eq_refl (conj Hrun _))).
  intros Hclaim. specialize (Hclaim Hrel eq_refl).
  assert (Reference.mock_answer = apology_message) as E by congruence.
  revert E. apply str_eqb_neq. vm_compute. reflexivity.
Qed.

(** ** The directions and FAQ sub-blocks of the programs context *)

Lemma dict_get_lookup (d : list (str * pyval)) (key : str) (default : pyval) :
  dict_get d key default
  = match dict_lookup d key with Some v => v | None => default end.
Proof.
  induction d as [|[k v] d IH]; simpl; [reflexivity|].
  destruct (str_eqb k key); [reflexivity | exact IH].
Qed.

Lemma py_str_get `{Platform} (d : list (str * pyval)) (key : str)
  (default : pyval) :
  py_str (dict_get d key default) = field_or d key (py_str default).
Proof.
  unfold field_or. rewrite dict_get_lookup.
  destruct (dict_lookup d key); reflexivity.
Qed.

Lemma format_direction_dict `{Platform} (result : str)
  (d : list (str * pyval)) :
  format_direction result (PDict d) = Ret (result ++ direction_line d).
Proof.
  unfold format_direction, direction_line. cbn [py_get res_bind].
  rewrite !py_str_get.
  change (py_str (PStr (u "N/A"))) with (u "N/A").
  change (py_str (PInt 0)) with (u "0").
  change (u ", Целевые: ") with (u ", " ++ u "Целевые: ").
  change (u ", Контракт: ") with (u ", " ++ u "Контракт: ").
  rewrite <- !app_assoc. reflexivity.
Qed.

Lemma format_qa_dict `{Platform} (result : str) (d : list (str * pyval)) :
  format_qa result (PDict d) = Ret (result ++ qa_block d).
Proof.
  unfold format_qa, qa_block. cbn [py_get res_bind].
  rewrite !py_str_get. change (py_str (PStr [])) with (@nil char).
  rewrite <- !app_assoc. reflexivity.
Qed.

Lemma for_each_dicts {S} (body : S -> pyval -> res S)
  (step : S -> list (str * pyval) -> S)
  (Hbody : forall s d, body s (PDict d) = Ret (step s d))
  (ds : list (list (str * pyval))) (s : S) :
  for_each (map PDict ds) body s = Ret (fold_left step ds s).
Proof.
  revert s; induction ds as [|d ds IH]; intros s; simpl; [reflexivity|].
  rewrite Hbody. simpl. apply IH.
Qed.

Lemma fold_left_append {A} (f : A -> str) (items : list A) (acc : str) :
  fold_left (fun s x => s ++ f x) items acc = acc ++ concat (map f items).
Proof.
  revert acc; induction items as [|x items IH]; intros acc; simpl.
  - rewrite app_nil_r. reflexivity.
  - rewrite IH, app_assoc. reflexivity.
Qed.

Lemma for_each_extends {A} (body : str -> A -> res str)
  (Hbody : forall acc x r, body acc x = Ret r -> exists tail, r = acc ++ tail)
  (items : list A) (acc r : str) :
  for_each items body acc = Ret r -> exists tail, r = acc ++ tail.
Proof.
  revert acc; induction items as [|x items IH]; intros acc; simpl.
  - intros E. inversion E. exists []. rewrite app_nil_r. reflexivity.
  - destruct (body acc x) as [r1|e] eqn:E1; simpl; [|discriminate].
    intros E. destruct (Hbody _ _ _ E1) as [t1 ->].
    destruct (IH _ E) as [t2 ->]. exists (t1 ++ t2).
    rewrite app_assoc. reflexivity.
Qed.

Lemma format_direction_extends `{Platform} (acc : str) (x : pyval) (r : str) :
  format_direction acc x = Ret r -> exists tail, r = acc ++ u "- " ++ tail.
Proof.
  destruct x as [| | | | |d]; try discriminate.
  rewrite format_direction_dict. intros E. inversion E.
  unfold direction_line. eexists. reflexivity.
Qed.

Lemma format_qa_extends `{Platform} (acc : str) (x : pyval) (r : str) :
  format_qa acc x = Ret r -> exists tail, r = acc ++ u "Q: " ++ tail.
Proof.
  destruct x as [| | | | |d]; try discriminate.
  rewrite format_qa_dict. intros E. inversion E.
  unfold qa_block. eexists. reflexivity.
Qed.

(** A loop over a non-empty list, when it returns, returns text that
    begins with what its first pass wrote. *)
Lemma for_each_begins {A} (body : str -> A -> res str) (mark : str)
  (Hbody : forall acc x r,
      body acc x = Ret r -> exists tail, r = acc ++ mark ++ tail)
  (x : A) (items : list A) (r : str) :
  for_each (x :: items) body [] = Ret r -> exists tail, r = mark ++ tail.
Proof.
  simpl. destruct (body [] x) as [r1|e] eqn:E1; simpl; [|discriminate].
  intros E. destruct (Hbody _ _ _ E1) as [t1 ->].
  apply for_each_extends in E.
  - destruct E as [t2 ->]. exists (t1 ++ t2). simpl.
    rewrite <- app_assoc. reflexivity.
  - intros acc y r' E'. destruct (Hbody _ _ _ E') as [t ->]. eauto.
Qed.

Lemma format_directions_nonempty `{Platform} (x : pyval) (l : list pyval)
  (r : str) :
  _format_directions (PList (x :: l)) = Ret r
  -> exists tail, r = u "- " ++ tail.
Proof.
  unfold _format_directions. cbn [py_truthy negb py_iter res_bind].
  apply for_each_begins. exact format_direction_extends.
Qed.

Lemma format_faq_nonempty `{Platform} (x : pyval) (l : list pyval)
  (r : str) :
  _format_faq (PList (x :: l)) = Ret r -> exists tail, r = u "Q: " ++ tail.
Proof.
  unfold _format_faq. cbn [py_truthy negb py_slice_to py_iter res_bind].
  change (firstn 5 (x :: l)) with (x :: firstn 4 l).
  apply for_each_begins. exact format_qa_extends.
Qed.

Lemma format_faq_dicts `{Platform} (ds : list (list (str * pyval))) :
  ds <> []
  -> _format_faq (PList (map PDict ds))
     = Ret (concat (map qa_block (firstn 5 ds))).
Proof.
  intros Hne. unfold _format_faq.
  destruct ds as [|d ds]; [contradiction|].
  cbn [map py_truthy negb py_slice_to py_iter res_bind].
  change (PDict d :: map PDict ds) with (map PDict (d :: ds)).
  rewrite firstn_map.
  rewrite (for_each_dicts format_qa (fun s d => s ++ qa_block d)
             format_qa_dict).
  rewrite fold_left_append. reflexivity.
Qed.

Lemma Ret_inj {A} (a b : A) : Ret a = Ret b -> a = b.
Proof. intros E. injection E as E. exact E. Qed.

Lemma format_program_embeds `{Platform} (context : str) (program : Program)
  (out : str) :
  format_program context program = Ret out
  -> exists s_directions s_faq,
       _format_directions (directions program) = Ret s_directions
       /\ _format_faq (faq program) = Ret s_faq
       /\ occurs_in s_directions out
       /\ occurs_in s_faq out.
Proof.
  unfold format_program.
  destruct (_format_directions (directions program)) as [sd|]; [|discriminate].
  destruct (py_join _ (career_prospects program)); [|discriminate].
  destruct (py_join _ (partners program)); [|discriminate].
  destruct (py_join _ (admission_ways program)); [|discriminate].
  destruct (py_join _ (exam_dates program)); [|discriminate].
  destruct (_format_faq (faq program)) as [sf|]; [|discriminate].
  cbn [res_bind]. intros E. apply Ret_inj in E. subst out.
  exists sd, sf. split; [reflexivity|]. split; [reflexivity|]. split.
  - do 16 apply occurs_in_app_r. apply occurs_in_head.
  - do 26 apply occurs_in_app_r. apply occurs_in_head.
Qed.

(** C8. In the rendered context of a program, the directions sub-block is
    the "not found" sentinel exactly when the list of directions is empty,
    and is never the empty string; the FAQ sub-block is the FAQ sentinel
    exactly when the FAQ list is empty; for a non-empty FAQ the sub-block is
    the Q/A pairs of the first five entries, in order, and entries after the
    fifth never matter. *)
Theorem context_sentinels `{Platform} :
  (forall l, _format_directions (PList l) = Ret directions_not_found
             <-> l = [])
  /\ (forall l, _format_directions (PList l) <> Ret [])
  /\ (forall l, _format_faq (PList l) = Ret faq_not_found <-> l = [])
  /\ (forall ds, ds <> []
                 -> _format_faq (PList (map PDict ds))
                    = Ret (concat (map qa_block (firstn 5 ds))))
  /\ (forall l, _format_faq (PList l) = _format_faq (PList (firstn 5 l)))
  /\ (forall context program out,
         format_program context program = Ret out
         -> exists s_directions s_faq,
              _format_directions (directions program) = Ret s_directions
              /\ _format_faq (faq program) = Ret s_faq
              /\ occurs_in s_directions out
              /\ occurs_in s_faq out).
Proof.
  split; [|split; [|split; [|split; [|split]]]].
  - intros [|x l]; split; try reflexivity; try discriminate.
    intros E. apply format_directions_nonempty in E. destruct E as [tail E].
    apply (f_equal (hd 0%N)) in E. vm_compute in E. discriminate E.
  - intros [|x l] E.
    + vm_compute in E. discriminate E.
    + apply format_directions_nonempty in E. destruct E as [tail E].
      discriminate E.
  - intros [|x l]; split; try reflexivity; try discriminate.
    intros E. apply format_faq_nonempty in E. destruct E as [tail E].
    apply (f_equal (hd 0%N)) in E. vm_compute in E. discriminate E.
  - exact format_faq_dicts.
  - intros [|x l]; [reflexivity|].
    unfold _format_faq. cbn [py_truthy negb py_slice_to res_bind].
    change (firstn 5 (x :: l)) with (x :: firstn 4 l).
    cbn [py_truthy negb py_slice_to res_bind].
    change (firstn 5 (x :: firstn 4 l)) with (x :: firstn 4 (firstn 4 l)).
    rewrite firstn_firstn. reflexivity.
  - exact format_program_embeds.
Qed.

(** Of six FAQ entries the first five are rendered. *)
Lemma context_sentinels_witness :
  six_faq <> []
  /\ @_format_faq Reference.mock_platform (PList (map PDict six_faq))
     = Ret (u "Q: Q1
A: A1

Q: Q2
A: A2

Q: Q3
A: A3

Q: Q4
A: A4

Q: Q5
A: A5

").
Proof.
  assert (six_faq <> []) as Hne by discriminate.
  split; [exact Hne|].
  destruct (@context_sentinels Reference.mock_platform)
    as (_ & _ & _ & Hfive & _).
  rewrite (Hfive six_faq Hne). vm_compute. reflexivity.
Defined.

Lemma field_or_absent `{Platform} (d : list (str * pyval)) (key : str)
  (placeholder : str) :
  (forall k v, In (k, v) d -> k <> key)
  -> field_or d key placeholder = placeholder.
Proof.
  intros Habsent. unfold field_or.
  induction d as [|[k v] d IH]; simpl; [reflexivity|].
  destruct (str_eqb k key) eqn:E.
  - apply str_eqb_eq in E. exfalso.
    exact (Habsent k v (or_introl eq_refl) E).
  - apply IH. intros k' v' Hin. exact (Habsent k' v' (or_intror Hin)).
Qed.

Lemma field_or_present `{Platform} (d : list (str * pyval)) (key : str)
  (placeholder : str) (v : pyval) :
  dict_lookup d key = Some v -> field_or d key placeholder = py_str v.
Proof. unfold field_or. intros ->. reflexivity. Qed.

Lemma occurs_in_concat (x : str) (l : list str) :
  In x l -> occurs_in x (concat l).
Proof.
  induction l as [|y l IH]; simpl; [contradiction|].
  intros [-> | Hin].
  - apply occurs_in_head.
  - apply occurs_in_app_r. exact (IH Hin).
Qed.

(** C9. What [_format_directions] renders.  For a non-empty list of
    directions, the directions sub-block is, direction by direction and in
    order, the line with the name and the parenthesized code followed by the
    line with the budget, target and contract places.  The placeholder "N/A"
    of [direction.get('code', 'N/A')] stands in for the code only when the
    direction has no such key; a code that is present shows as it is stored,
    so the empty code that [_extract_directions] writes when the page shows
    none is rendered as empty parentheses and not with the placeholder. *)
Theorem directions_rendering `{Platform} (ds : list (list (str * pyval))) :
  ds <> []
  -> _format_directions (PList (map PDict ds))
     = Ret (concat (map direction_line ds))
     /\ (forall d, In d ds
                   -> occurs_in (direction_line d)
                                (concat (map direction_line ds)))
     /\ (forall d, In d ds
                   -> (forall k v, In (k, v) d -> k <> u "code")
                   -> field_or d (u "code") (u "N/A") = u "N/A")
     /\ (forall d code, In d ds
                        -> dict_lookup d (u "code") = Some (PStr code)
                        -> field_or d (u "code") (u "N/A") = code).
Proof.
  intros Hne. split; [|split; [|split]].
  - unfold _format_directions. destruct ds as [|d ds]; [contradiction|].
    cbn [map py_truthy negb py_iter res_bind].
    change (PDict d :: map PDict ds) with (map PDict (d :: ds)).
    rewrite (for_each_dicts format_direction
               (fun s d => s ++ direction_line d) format_direction_dict).
    rewrite fold_left_append. reflexivity.
  - intros d Hin. apply occurs_in_concat. apply in_map. exact Hin.
  - intros d _ Habsent. apply field_or_absent. exact Habsent.
  - intros d code _ Hcode. rewrite (field_or_present _ _ _ _ Hcode).
    reflexivity.
Qed.

Lemma directions_rendering_witness :
  sample_directions <> []
  /\ @_format_directions Reference.mock_platform
       (PList (map PDict sample_directions))
     = Ret (u "- Информатика и вычислительная техника (09.04.01)
  Бюджет: 51, Целевые: 4, Контракт: 55
- Инноватика ()
  Бюджет: 0, Целевые: 0, Контракт: 0
- Инфокоммуникационные технологии (N/A)
  Бюджет: 0, Целевые: 0, Контракт: 0
").
Proof.
  assert (sample_directions <> []) as Hne by discriminate.
  split; [exact Hne|].
  rewrite (proj1 (@directions_rendering Reference.mock_platform
                    sample_directions Hne)).
  vm_compute. reflexivity.
Defined.

(** A direction as the scraper leaves it when the page shows no code: the
    code is the empty string, and the line shows empty parentheses, not the
    placeholder. *)
Lemma empty_code_renders_empty_parentheses :
  let d := [ (u "name", PStr (u "Инноватика"));
             (u "code", PStr []);
             (u "budget_places", PInt 0);
             (u "target_places", PInt 0);
             (u "contract_places", PInt 0) ] in
  @_format_directions Reference.mock_platform (PList [PDict d])
  = Ret (u "- Инноватика ()
  Бюджет: 0, Целевые: 0, Контракт: 0
")
  /\ ~ @placeholder_for_empty_code Reference.mock_platform [d].
Proof.
  intros d.
  assert (@_format_directions Reference.mock_platform (PList [PDict d])
          = Ret (u "- Инноватика ()
  Бюджет: 0, Целевые: 0, Контракт: 0
")) as Hrun by (vm_compute; reflexivity).
  split; [exact Hrun|].
  intros Hclaim.
  specialize (Hclaim _ d Hrun (or_introl eq_refl)).
  apply str_in_spec in Hclaim. vm_compute in Hclaim. discriminate Hclaim.
Qed.

(** ** Saving and reading back a program *)

Lemma sqlite_connect_ok (w : World) :
  no_faults w
  -> exists w', sqlite_connect w = (Ret tt, w')
                /\ one_connect w w' /\ no_faults w'.
Proof.
  intros Hnf. unfold sqlite_connect.
  destruct (sqlite_faults w) as [|b rest] eqn:F.
  - exists w. repeat split; auto. rewrite F. reflexivity.
  - assert (b = false) as -> by (apply Hnf; rewrite F; left; reflexivity).
    exists (with_sqlite_faults w rest). split; [reflexivity|]. split.
    + repeat split. simpl. rewrite F. reflexivity.
    + intros b Hin. apply Hnf. rewrite F. right. exact Hin.
Qed.

Lemma program_of_row_saved `{Platform} (id : Z) (p : Program) :
  json_roundtrips p -> program_of_row (program_row id p) = Ret p.
Proof.
  intros (E1 & E2 & E3 & E4 & E5 & E6 & E7).
  unfold program_of_row, loads. cbn [program_row p_directions
    p_career_prospects p_partners p_team p_admission_ways p_faq p_exam_dates
    p_name p_url p_institute p_duration p_language p_cost p_description
    p_created_at p_updated_at].
  rewrite E1, E2, E3, E4, E5, E6, E7. cbn [res_bind].
  destruct p; reflexivity.
Qed.

Lemma program_of_row_name `{Platform} (row : ProgramRow) (p : Program) :
  program_of_row row = Ret p -> name p = p_name row.
Proof.
  unfold program_of_row.
  destruct (loads (p_directions row)); [|discriminate].
  destruct (loads (p_career_prospects row)); [|discriminate].
  destruct (loads (p_partners row)); [|discriminate].
  destruct (loads (p_team row)); [|discriminate].
  destruct (loads (p_admission_ways row)); [|discriminate].
  destruct (loads (p_faq row)); [|discriminate].
  destruct (loads (p_exam_dates row)); [|discriminate].
  cbn [res_bind]. intros E. apply Ret_inj in E. subst p. reflexivity.
Qed.

(** The table after [save_program] in a run without failures. *)
Lemma save_program_ok `{Platform} (p : Program) (w : World) :
  no_faults w
  -> exists w',
       save_program p w = (Ret true, w')
       /\ no_faults w'
       /\ programs_table w'
          = filter (fun r => negb (str_eqb (p_name r) (name p)))
                   (programs_table w)
            ++ [program_row (programs_seq w + 1) p].
Proof.
  intros Hnf. destruct (sqlite_connect_ok w Hnf) as (w1 & E & F & Hnf1).
  destruct F as [(T & S & _) Hf].
  unfold save_program, try_except, bind, ret, insert_or_replace_program.
  rewrite E. eexists. split; [reflexivity|]. split.
  - exact Hnf1.
  - simpl. rewrite T, S. reflexivity.
Qed.

Lemma get_program_ok `{Platform} (n : str) (w : World) (row : ProgramRow)
  (rows : list ProgramRow) (p : Program) :
  no_faults w
  -> filter (fun r => str_eqb (p_name r) n) (programs_table w) = row :: rows
  -> program_of_row row = Ret p
  -> fst (get_program n w) = Ret (Some p).
Proof.
  intros Hnf Hsel Hdec.
  destruct (sqlite_connect_ok w Hnf) as (w1 & E & F & _).
  destruct F as [(T & _) _].
  unfold get_program, try_except, bind, ret, lift, select_programs_where_name.
  rewrite E, T, Hsel, Hdec. reflexivity.
Qed.

Lemma filter_name_last (n : str) (rows : list ProgramRow) (row : ProgramRow) :
  p_name row = n
  -> filter (fun r => str_eqb (p_name r) n)
            (filter (fun r => negb (str_eqb (p_name r) n)) rows ++ [row])
     = [row].
Proof.
  intros Hn. rewrite filter_app. simpl. rewrite Hn, str_eqb_refl.
  induction rows as [|r rows IH]; simpl; [reflexivity|].
  destruct (str_eqb (p_name r) n) eqn:E; simpl; [exact IH|].
  rewrite E. exact IH.
Qed.

(** Reading all rows when each of them decodes. *)
Lemma append_programs_decodable `{Platform} (rows : list ProgramRow)
  (acc : list Program) :
  Forall decodable rows
  -> exists ps,
       append_programs rows acc = acc ++ ps
       /\ Forall2 (fun row p => program_of_row row = Ret p) rows ps.
Proof.
  intros Hall. revert acc.
  induction Hall as [|row rows [p Hp] Hall IH]; intros acc; simpl.
  - exists []. rewrite app_nil_r. split; [reflexivity | constructor].
  - rewrite Hp. destruct (IH (acc ++ [p])) as (ps & E & Hps).
    exists (p :: ps). rewrite E, <- app_assoc. split; [reflexivity|].
    constructor; assumption.
Qed.

Lemma decoded_other_names `{Platform} (n : str) (rows : list ProgramRow)
  (ps : list Program) :
  Forall2 (fun row p => program_of_row row = Ret p)
          (filter (fun r => negb (str_eqb (p_name r) n)) rows) ps
  -> filter (fun p => str_eqb (name p) n) ps = [].
Proof.
  remember (filter (fun r => negb (str_eqb (p_name r) n)) rows) as kept
    eqn:Hkept.
  assert (Forall (fun r => str_eqb (p_name r) n = false) kept) as Hnames.
  { subst kept. apply Forall_forall. intros r Hin.
    apply filter_In in Hin. destruct Hin as [_ Hneg].
    apply negb_true_iff in Hneg. exact Hneg. }
  clear Hkept. intros Hdec.
  induction Hdec as [|row p kept ps Hp Hdec IH]; [reflexivity|].
  inversion Hnames as [|? ? Hrow Hrest]; subst. simpl.
  rewrite (program_of_row_name row p Hp), Hrow. exact (IH Hrest).
Qed.

Lemma save_program_once `{Platform} (w : World) (p : Program) :
  no_faults w
  -> json_roundtrips p
  -> let w' := snd (save_program p w) in
     fst (save_program p w) = Ret true
     /\ no_faults w'
     /\ fst (get_program (name p) w') = Ret (Some p)
     /\ (Forall decodable (programs_table w)
         -> Forall decodable (programs_table w')
            /\ exists ps,
                 fst (get_all_programs w') = Ret ps
                 /\ filter (fun q => str_eqb (name q) (name p)) ps = [p]).
Proof.
  intros Hnf Hjson.
  destruct (save_program_ok p w Hnf) as (w' & E & Hnf' & Htable).
  rewrite E. cbn [fst snd].
  pose proof (program_of_row_saved (programs_seq w + 1) p Hjson) as Hrow.
  split; [reflexivity|]. split; [exact Hnf'|]. split.
  - apply (get_program_ok (name p) w'
             (program_row (programs_seq w + 1) p) [] p Hnf'); [|exact Hrow].
    rewrite Htable. apply filter_name_last. reflexivity.
  - intros Hall.
    assert (Forall decodable (programs_table w')) as Hall'.
    { rewrite Htable. apply Forall_app. split.
      - apply Forall_forall. intros r Hin. apply filter_In in Hin.
        destruct Hin as [Hin _].
        exact (proj1 (Forall_forall _ _) Hall r Hin).
      - constructor; [exists p; exact Hrow | constructor]. }
    split; [exact Hall'|].
    destruct (sqlite_connect_ok w' Hnf') as (w1 & E1 & [(T & _) _] & _).
    unfold get_all_programs. rewrite E1, T. cbn [fst].
    destruct (append_programs_decodable (programs_table w') [] Hall')
      as (ps & Eps & Hps).
    exists ps. split; [rewrite Eps; reflexivity|].
    rewrite Htable in Hps. apply Forall2_app_inv_l in Hps.
    destruct Hps as (ps1 & ps2 & H1 & H2 & ->).
    inversion H2 as [|? q ? ? Hq Hnil]; subst. inversion Hnil; subst.
    rewrite Hrow in Hq. apply Ret_inj in Hq. subst q.
    rewrite filter_app, (decoded_other_names (name p) _ ps1 H1).
    simpl. rewrite str_eqb_refl. reflexivity.
Qed.

(** C7. In a run without SQLite failures, and for a program whose
    structured fields survive [json.dumps] followed by [json.loads]:
    [save_program] succeeds and [get_program] with the same name then returns
    a record equal to the saved one in every field; whatever the store held
    under that name before is replaced, so [get_all_programs] (when the other
    rows of the table decode) yields exactly one record with that name, the
    saved one; and saving a second record under the same name replaces the
    first in the same way. *)
Theorem save_program_roundtrip `{Platform} (w : World) (p : Program) :
  no_faults w
  -> json_roundtrips p
  -> let w' := snd (save_program p w) in
     fst (save_program p w) = Ret true
     /\ fst (get_program (name p) w') = Ret (Some p)
     /\ (Forall decodable (programs_table w)
         -> exists ps,
              fst (get_all_programs w') = Ret ps
              /\ filter (fun q => str_eqb (name q) (name p)) ps = [p])
     /\ (forall p2,
            json_roundtrips p2
            -> name p2 = name p
            -> let w2 := snd (save_program p2 w') in
               fst (save_program p2 w') = Ret true
               /\ fst (get_program (name p) w2) = Ret (Some p2)
               /\ (Forall decodable (programs_table w)
                   -> exists ps,
                        fst (get_all_programs w2) = Ret ps
                        /\ filter (fun q => str_eqb (name q) (name p)) ps
                           = [p2])).
Proof.
  intros Hnf Hjson w'.
  destruct (save_program_once w p Hnf Hjson)
    as (Hsaved & Hnf' & Hget & Hrest).
  split; [exact Hsaved|]. split; [exact Hget|]. split.
  { intros Hall. exact (proj2 (Hrest Hall)). }
  intros p2 Hjson2 Hname w2.
  destruct (save_program_once w' p2 Hnf' Hjson2)
    as (Hsaved2 & _ & Hget2 & Hrest2).
  rewrite Hname in Hget2, Hrest2.
  split; [exact Hsaved2|]. split; [exact Hget2|].
  intros Hall. exact (proj2 (Hrest2 (proj1 (Hrest Hall)))).
Qed.

Lemma save_program_roundtrip_witness :
  let P := Reference.mock_platform in
  let w := Reference.empty_world (u "2025-01-01T12:00:00") in
  let p := Reference.sample_program in
  let p2 := updated_sample_program in
  let w' := snd (@save_program P p w) in
  let w2 := snd (@save_program P p2 w') in
  no_faults w
  /\ @json_roundtrips P p
  /\ @json_roundtrips P p2
  /\ name p2 = name p
  /\ fst (@get_program P (name p) w') = Ret (Some p)
  /\ fst (@get_program P (name p) w2) = Ret (Some p2)
  /\ exists ps,
       fst (@get_all_programs P w2) = Ret ps
       /\ filter (fun q => str_eqb (name q) (name p)) ps = [p2].
Proof.
  intros P w p p2 w' w2.
  assert (no_faults w) as Hnf by (intros b []).
  assert (@json_roundtrips P p) as Hjson
    by (repeat apply conj; vm_compute; reflexivity).
  assert (@json_roundtrips P p2) as Hjson2
    by (repeat apply conj; vm_compute; reflexivity).
  assert (name p2 = name p) as Hname by reflexivity.
  destruct (@save_program_roundtrip P w p Hnf Hjson)
    as (_ & Hget & _ & Hagain).
  destruct (Hagain p2 Hjson2 Hname) as (_ & Hget2 & Hall2).
  exact (conj Hnf (conj Hjson (conj Hjson2 (conj Hname
           (conj Hget (conj Hget2 (Hall2 (Forall_nil _)))))))).
Defined.

(** ** Runs of the test suite on the reference platform

    The cases of [tests/unit/test_ai_assistant.py], with the language model
    and the database of its fixtures. *)

Example test_is_relevant_question_relevant :
  map (@is_relevant_question Reference.mock_platform)
      [ u "Чем отличаются программы ИТМО по ИИ?";
        u "Какие требования для поступления на магистратуру?";
        u "Сколько стоит обучение по искусственному интеллекту?";
        u "Какие карьерные перспективы после программы ML?";
        u "Как подать документы в магистратуру ИТМО?" ]
  = [true; true; true; true; true].
Proof. vm_compute. reflexivity. Qed.

Example test_is_relevant_question_irrelevant :
  map (@is_relevant_question Reference.mock_platform)
      [ u "Какая сегодня погода?"; u "Кто выиграл в футболе?";
        u "Как приготовить борщ?"; u "Какой фильм посмотреть?";
        u "Где купить автомобиль?" ]
  = [false; false; false; false; false].
Proof. vm_compute. reflexivity. Qed.

Example test_is_relevant_question_borderline :
  map (@is_relevant_question Reference.mock_platform)
      [ u "Да"; u "Нет нет";
        u "Расскажите подробнее о возможностях данного направления";
        u "Чем отличаются программы?" ]
  = [false; false; true; true].
Proof. vm_compute. reflexivity. Qed.

Example test_format_directions :
  @_format_directions Reference.mock_platform
    (directions Reference.sample_program)
  = Ret (u "- Информатика и вычислительная техника (09.04.01)
  Бюджет: 51, Целевые: 4, Контракт: 55
").
Proof. vm_compute. reflexivity. Qed.

Example test_format_empty :
  @_format_directions Reference.mock_platform (PList [])
  = Ret (u "Информация о направлениях не найдена")
  /\ @_format_faq Reference.mock_platform (PList [])
     = Ret (u "FAQ не найден").
Proof. split; vm_compute; reflexivity. Qed.

Example test_get_programs_context_empty_db :
  fst (@get_programs_context Reference.mock_platform
         (Reference.empty_world (u "2025-01-01T12:00:00")))
  = Ret [].
Proof. vm_compute. reflexivity. Qed.

Example test_get_response_with_user_profile :
  let P := Reference.mock_platform in
  let w0 := Reference.empty_world (u "2025-01-01T12:00:00") in
  let w1 := snd (@save_program P Reference.sample_program w0) in
  let w2 := snd (@save_user_profile P Reference.sample_user_profile w1) in
  let run := @get_response P (u "Какая программа мне подойдет?") 12345 w2 in
  fst run = Ret Reference.mock_answer
  /\ match model_calls (snd run) with
     | [request] =>
         match req_messages request with
         | [_; user_message] =>
             str_in (u "ПРОФИЛЬ ПОЛЬЗОВАТЕЛЯ:") (content user_message)
             && str_in (u "машинное обучение") (content user_message)
             && str_in (u "Python") (content user_message)
             && str_in (u "ПРОГРАММА: Искусственный интеллект")
                       (content user_message)
         | _ => false
         end
     | _ => false
     end = true.
Proof. split; vm_compute; reflexivity. Qed.

(* ================================================================== *)
(** * Further properties of the classifier, the store and the assistant *)

(** ** [is_relevant_question], all cases *)

(** X1. The classifier answers "relevant" exactly when no exclusion
    keyword occurs in the lower-cased question and either an inclusion
    keyword occurs in it or it has more than three whitespace-separated
    tokens. *)
Theorem relevance_characterised `{Platform} (question : str) :
  is_relevant_question question = true
  <-> (forall keyword, In keyword irrelevant_keywords
                       -> ~ occurs_in keyword (str_lower question))
      /\ ((exists keyword, In keyword relevant_keywords
                           /\ occurs_in keyword (str_lower question))
          \/ 3 < List.length (str_split (str_lower question))).
Proof.
  unfold is_relevant_question.
  destruct (any_keyword_in irrelevant_keywords (str_lower question)) eqn:Eex.
  - split; [discriminate|]. intros [Hnone _].
    apply any_keyword_in_spec in Eex. destruct Eex as (k & Hin & Hocc).
    exfalso. exact (Hnone k Hin Hocc).
  - pose proof (any_keyword_in_false _ _ Eex) as Hnone.
    destruct (any_keyword_in relevant_keywords (str_lower question)) eqn:Einc.
    + split; [|reflexivity]. intros _. split; [exact Hnone|].
      left. apply any_keyword_in_spec. exact Einc.
    + pose proof (any_keyword_in_false _ _ Einc) as Hnoinc.
      destruct (List.length (str_split (str_lower question)) <=? 2) eqn:E2.
      * apply Nat.leb_le in E2. split; [discriminate|].
        intros [_ [(k & Hin & Hocc) | Hlen]].
        -- exfalso. exact (Hnoinc k Hin Hocc).
        -- lia.
      * destruct (3 <? List.length (str_split (str_lower question))) eqn:E3.
        -- apply Nat.ltb_lt in E3. split; [|reflexivity].
           intros _. split; [exact Hnone | right; exact E3].
        -- apply Nat.ltb_ge in E3. split; [discriminate|].
           intros [_ [(k & Hin & Hocc) | Hlen]].
           ++ exfalso. exact (Hnoinc k Hin Hocc).
           ++ lia.
Qed.

(** ** The record store: failures, lookups, listing *)

(** X2. No method of the record store raises, whatever the world.  When
    its SQLite block fails, a write returns [False], a lookup returns [None],
    the listing returns the empty list, and every table is left as it
    was. *)
Theorem database_absorbs_failures `{Platform} (w : World) :
  ((forall p, exists ok w', save_program p w = (Ret ok, w'))
   /\ (forall n, exists r w', get_program n w = (Ret r, w'))
   /\ (exists ps w', get_all_programs w = (Ret ps, w'))
   /\ (forall p, exists ok w', save_user_profile p w = (Ret ok, w'))
   /\ (forall uid, exists r w', get_user_profile uid w = (Ret r, w'))
   /\ (forall uid m r t, exists ok w',
          save_conversation uid m r t w = (Ret ok, w')))
  /\ (hd false (sqlite_faults w) = true
      -> exists w',
           one_connect w w'
           /\ (forall p, save_program p w = (Ret false, w'))
           /\ (forall n, get_program n w = (Ret None, w'))
           /\ get_all_programs w = (Ret [], w')
           /\ (forall p, save_user_profile p w = (Ret false, w'))
           /\ (forall uid, get_user_profile uid w = (Ret None, w'))
           /\ (forall uid m r t,
                  save_conversation uid m r t w = (Ret false, w'))).
Proof.
  split.
  - repeat apply conj.
    + intros p. unfold save_program, try_except, bind, ret,
        insert_or_replace_program.
      destruct (sqlite_connect w) as [[[]|e] w1]; eauto.
    + intros n. unfold get_program, try_except, bind, ret, lift,
        select_programs_where_name.
      destruct (sqlite_connect w) as [[[]|e] w1]; [|eauto].
      destruct (filter _ (programs_table w1)) as [|row rows]; [eauto|].
      destruct (program_of_row row); eauto.
    + destruct (get_all_programs_absorbs w) as (ps & w' & E & _). eauto.
    + intros p. unfold save_user_profile, try_except, bind, ret,
        insert_or_replace_profile.
      destruct (sqlite_connect w) as [[[]|e] w1]; eauto.
    + intros uid. destruct (get_user_profile_absorbs uid w)
        as (r & w' & E & _). eauto.
    + intros uid m r t. apply save_conversation_returns.
  - intros Hfault. destruct (sqlite_connect_fails w Hfault) as (w' & E & F).
    exists w'. split; [exact F|].
    unfold save_program, get_program, get_all_programs, save_user_profile,
      get_user_profile, save_conversation, try_except, bind, ret.
    rewrite E. repeat split.
Qed.

Lemma database_absorbs_failures_witness :
  let P := Reference.mock_platform in
  let w := with_sqlite_faults
             (snd (@save_program P Reference.sample_program
                     (Reference.empty_world (u "2025-01-01T12:00:00"))))
             [true] in
  hd false (sqlite_faults w) = true
  /\ fst (@get_program P (name Reference.sample_program) w) = Ret None
  /\ fst (@get_all_programs P w) = Ret []
  /\ fst (@save_program P updated_sample_program w) = Ret false
  /\ programs_table (snd (@save_program P updated_sample_program w))
     = programs_table w.
Proof.
  intros P w.
  assert (hd false (sqlite_faults w) = true) as Hfault by reflexivity.
  destruct (proj2 (@database_absorbs_failures P w) Hfault)
    as (w' & [(T & _) _] & Hsave & Hget & Hall & _).
  rewrite Hget, Hall, (Hsave updated_sample_program).
  exact (conj Hfault (conj eq_refl (conj eq_refl (conj eq_refl T)))).
Defined.

Lemma filter_In_first {A} (f : A -> bool) (l : list A) (x : A) (rest : list A) :
  filter f l = x :: rest -> In x l /\ f x = true.
Proof.
  intros E. apply filter_In. rewrite E. left. reflexivity.
Qed.

(** X3. [get_program] answers only from the table and only under the
    name asked for: a program it returns was decoded from a stored row with
    that name and carries that name; when no row has the name, it returns
    [None]. *)
Theorem get_program_sound `{Platform} (n : str) (w : World) :
  (forall p, fst (get_program n w) = Ret (Some p)
             -> name p = n
                /\ exists row, In row (programs_table w)
                               /\ p_name row = n
                               /\ program_of_row row = Ret p)
  /\ ((forall row, In row (programs_table w) -> p_name row <> n)
      -> fst (get_program n w) = Ret None).
Proof.
  unfold get_program, try_except, bind, ret, lift, select_programs_where_name.
  destruct (sqlite_connect w) as [[[]|e] w1] eqn:E.
  - apply sqlite_connect_frame in E. destruct E as [(T & _) _]. rewrite T.
    destruct (filter (fun r => str_eqb (p_name r) n) (programs_table w))
      as [|row rows] eqn:Hsel.
    + split; [intros p Hp; discriminate Hp | reflexivity].
    + apply filter_In_first in Hsel. destruct Hsel as [Hin Hname].
      apply str_eqb_eq in Hname. split.
      * destruct (program_of_row row) as [q|e] eqn:Hdec; simpl;
          intros p Hp; [|discriminate Hp].
        apply Ret_inj in Hp. injection Hp as <-.
        split; [rewrite (program_of_row_name row q Hdec); exact Hname|].
        exists row. repeat split; assumption.
      * intros Habsent. exfalso. exact (Habsent row Hin Hname).
  - split; [intros p Hp; discriminate Hp | reflexivity].
Qed.

Lemma get_program_sound_witness :
  let P := Reference.mock_platform in
  let w := snd (@save_program P Reference.sample_program
                  (Reference.empty_world (u "2025-01-01T12:00:00"))) in
  (forall row, In row (programs_table w)
               -> p_name row <> u "Non-existent Program")
  /\ fst (@get_program P (u "Non-existent Program") w) = Ret None.
Proof.
  intros P w.
  assert (forall row, In row (programs_table w)
                      -> p_name row <> u "Non-existent Program") as Habsent.
  { intros row [<- | []]. apply str_eqb_neq. vm_compute. reflexivity. }
  split; [exact Habsent|].
  exact (proj2 (@get_program_sound P (u "Non-existent Program") w) Habsent).
Defined.

Lemma filter_other_name (n m : str) (rows : list ProgramRow)
  (row : ProgramRow) :
  p_name row = m -> n <> m
  -> filter (fun r => str_eqb (p_name r) n)
            (filter (fun r => negb (str_eqb (p_name r) m)) rows ++ [row])
     = filter (fun r => str_eqb (p_name r) n) rows.
Proof.
  intros Hrow Hneq. rewrite filter_app. simpl.
  assert (str_eqb (p_name row) n = false) as ->.
  { destruct (str_eqb (p_name row) n) eqn:E; [|reflexivity].
    apply str_eqb_eq in E. congruence. }
  rewrite app_nil_r.
  induction rows as [|r rows IH]; simpl; [reflexivity|].
  destruct (str_eqb (p_name r) m) eqn:Em; simpl.
  - apply str_eqb_eq in Em.
    assert (str_eqb (p_name r) n = false) as ->.
    { destruct (str_eqb (p_name r) n) eqn:E; [|reflexivity].
      apply str_eqb_eq in E. congruence. }
    exact IH.
  - destruct (str_eqb (p_name r) n); [rewrite IH|]; auto.
Qed.

Lemma get_program_depends_on_selection `{Platform} (n : str) (w1 w2 : World) :
  no_faults w1 -> no_faults w2
  -> filter (fun r => str_eqb (p_name r) n) (programs_table w1)
     = filter (fun r => str_eqb (p_name r) n) (programs_table w2)
  -> fst (get_program n w1) = fst (get_program n w2).
Proof.
  intros Hnf1 Hnf2 Hsel.
  destruct (sqlite_connect_ok w1 Hnf1) as (w1' & E1 & [(T1 & _) _] & _).
  destruct (sqlite_connect_ok w2 Hnf2) as (w2' & E2 & [(T2 & _) _] & _).
  unfold get_program, try_except, bind, ret, lift, select_programs_where_name.
  rewrite E1, E2, T1, T2, Hsel.
  destruct (filter _ (programs_table w2)) as [|row rows]; [reflexivity|].
  destruct (program_of_row row); reflexivity.
Qed.

(** X4. Saving a program touches nothing but the rows of its own name:
    in a run without SQLite failures, looking up any other name gives the
    same answer after the save as before it; and in every run the profiles
    and the conversation log are left as they were. *)
Theorem save_program_frame `{Platform} (p : Program) (w : World) :
  let w' := snd (save_program p w) in
  user_profiles_table w' = user_profiles_table w
  /\ conversations_table w' = conversations_table w
  /\ model_calls w' = model_calls w
  /\ (no_faults w
      -> forall n, n <> name p
                   -> fst (get_program n w') = fst (get_program n w)).
Proof.
  assert (user_profiles_table (snd (save_program p w)) = user_profiles_table w
          /\ conversations_table (snd (save_program p w))
             = conversations_table w
          /\ model_calls (snd (save_program p w)) = model_calls w) as Hframe.
  { unfold save_program, try_except, bind, ret, insert_or_replace_program.
    destruct (sqlite_connect w) as [[[]|e] w1] eqn:E;
      apply sqlite_connect_frame in E;
      destruct E as [(_ & _ & U & C & _ & MC & _) _]; simpl; auto. }
  destruct Hframe as (HU & HC & HM).
  cbv zeta. split; [exact HU|]. split; [exact HC|]. split; [exact HM|].
  intros Hnf n Hneq.
  destruct (save_program_ok p w Hnf) as (w' & E & Hnf' & Htable).
  rewrite E. cbn [snd].
  apply get_program_depends_on_selection; try assumption.
  rewrite Htable. apply filter_other_name; [reflexivity | exact Hneq].
Qed.

Lemma save_program_frame_witness :
  let P := Reference.mock_platform in
  let w := snd (@save_program P Reference.sample_program
                  (Reference.empty_world (u "2025-01-01T12:00:00"))) in
  let w' := snd (@save_program P second_program w) in
  no_faults w
  /\ name Reference.sample_program <> name second_program
  /\ fst (@get_program P (name Reference.sample_program) w')
     = Ret (Some Reference.sample_program).
Proof.
  intros P w w'.
  assert (no_faults w) as Hnf by (intros b []).
  assert (name Reference.sample_program <> name second_program) as Hneq
    by (apply str_eqb_neq; vm_compute; reflexivity).
  refine (conj Hnf (conj Hneq _)).
  destruct (@save_program_frame P second_program w) as (_ & _ & _ & Hother).
  subst w'. rewrite (Hother Hnf _ Hneq). vm_compute. reflexivity.
Defined.

Lemma append_programs_prefix `{Platform} (good : list ProgramRow)
  (ps : list Program) (tail : list ProgramRow) (acc : list Program) :
  decodes_to good ps
  -> append_programs (good ++ tail) acc = append_programs tail (acc ++ ps).
Proof.
  intros Hdec. revert acc.
  induction Hdec as [|row p good ps Hp Hdec IH]; intros acc; simpl.
  - rewrite app_nil_r. reflexivity.
  - rewrite Hp, IH, <- app_assoc. reflexivity.
Qed.

(** X5. [get_all_programs] lists the programs in table order and stops at
    the first row it cannot decode: it returns the programs of the rows
    before that row (all of them when every row decodes), without raising;
    the rows after it are not listed. *)
Theorem get_all_programs_stops_at_bad_row `{Platform} (w : World)
  (good : list ProgramRow) (ps : list Program) (tail : list ProgramRow) :
  hd false (sqlite_faults w) = false
  -> programs_table w = good ++ tail
  -> decodes_to good ps
  -> (tail = []
      \/ exists bad rest e, tail = bad :: rest
                            /\ program_of_row bad = Raise e)
  -> fst (get_all_programs w) = Ret ps.
Proof.
  intros Hok Htable Hdec Htail.
  unfold get_all_programs.
  destruct (sqlite_connect w) as [[[]|e] w1] eqn:E.
  - apply sqlite_connect_frame in E. destruct E as [(T & _) _].
    rewrite T, Htable. cbn [fst]. f_equal.
    rewrite (append_programs_prefix good ps tail [] Hdec). simpl.
    destruct Htail as [-> | (bad & rest & e & -> & Hbad)]; simpl.
    + reflexivity.
    + rewrite Hbad. reflexivity.
  - exfalso. unfold sqlite_connect in E.
    destruct (sqlite_faults w) as [|[|] rest]; simpl in Hok;
      try discriminate Hok; discriminate E.
Qed.

Lemma get_all_programs_stops_at_bad_row_witness :
  let P := Reference.mock_platform in
  let w0 := Reference.empty_world (u "2025-01-01T12:00:00") in
  let w := with_programs w0
             [ @program_row P 1 Reference.sample_program; corrupt_row;
               @program_row P 2 second_program ] 99 in
  hd false (sqlite_faults w) = false
  /\ @program_of_row P corrupt_row = Raise JSONDecodeError
  /\ fst (@get_all_programs P w) = Ret [Reference.sample_program].
Proof.
  intros P w0 w.
  assert (@program_of_row P corrupt_row = Raise JSONDecodeError) as Hbad
    by (vm_compute; reflexivity).
  refine (conj eq_refl (conj Hbad _)).
  apply (@get_all_programs_stops_at_bad_row P w
           [@program_row P 1 Reference.sample_program]
           [Reference.sample_program]
           [corrupt_row; @program_row P 2 second_program]).
  - reflexivity.
  - reflexivity.
  - constructor; [vm_compute; reflexivity | constructor].
  - right. exists corrupt_row, [@program_row P 2 second_program],
      JSONDecodeError. split; [reflexivity | exact Hbad].
Defined.

(** ** The record store: user profiles and the conversation log *)

Lemma loads_or_survives `{Platform} (v default : pyval) :
  survives_json v -> loads_or (json_dumps v) default = Ret v.
Proof.
  intros [Hne Hload]. unfold loads_or, loads.
  destruct (json_dumps v) as [|c text]; [contradiction|].
  rewrite Hload. reflexivity.
Qed.

Lemma profile_of_row_saved `{Platform} (p : UserProfile) :
  profile_json_roundtrips p -> profile_of_row (profile_row p) = Ret p.
Proof.
  intros (E1 & E2 & E3 & E4). unfold profile_of_row.
  cbn [profile_row u_user_id u_username u_background u_interests
       u_technical_skills u_career_goals u_preferred_program u_created_at
       u_updated_at].
  rewrite (loads_or_survives _ _ E1), (loads_or_survives _ _ E2),
    (loads_or_survives _ _ E3), (loads_or_survives _ _ E4).
  cbn [res_bind]. destruct p; reflexivity.
Qed.

Lemma save_user_profile_ok `{Platform} (p : UserProfile) (w : World) :
  no_faults w
  -> exists w',
       save_user_profile p w = (Ret true, w')
       /\ no_faults w'
       /\ user_profiles_table w'
          = filter (fun r => negb (u_user_id r =? user_id p)%Z)
                   (user_profiles_table w)
            ++ [profile_row p].
Proof.
  intros Hnf. destruct (sqlite_connect_ok w Hnf) as (w1 & E & F & Hnf1).
  destruct F as [(_ & _ & T & _) _].
  unfold save_user_profile, try_except, bind, ret, insert_or_replace_profile.
  rewrite E. eexists. split; [reflexivity|]. split; [exact Hnf1|].
  simpl. rewrite T. reflexivity.
Qed.

Lemma get_user_profile_selection `{Platform} (uid : Z) (w1 w2 : World) :
  no_faults w1 -> no_faults w2
  -> filter (fun r => (u_user_id r =? uid)%Z) (user_profiles_table w1)
     = filter (fun r => (u_user_id r =? uid)%Z) (user_profiles_table w2)
  -> fst (get_user_profile uid w1) = fst (get_user_profile uid w2).
Proof.
  intros Hnf1 Hnf2 Hsel.
  destruct (sqlite_connect_ok w1 Hnf1) as (w1' & E1 & [(_ & _ & T1 & _) _] & _).
  destruct (sqlite_connect_ok w2 Hnf2) as (w2' & E2 & [(_ & _ & T2 & _) _] & _).
  unfold get_user_profile, try_except, bind, ret, lift.
  rewrite E1, E2, T1, T2, Hsel.
  destruct (filter _ (user_profiles_table w2)) as [|row rows]; [reflexivity|].
  destruct (profile_of_row row); reflexivity.
Qed.

Lemma get_user_profile_ok `{Platform} (uid : Z) (w : World)
  (row : ProfileRow) (rows : list ProfileRow) (p : UserProfile) :
  no_faults w
  -> filter (fun r => (u_user_id r =? uid)%Z) (user_profiles_table w)
     = row :: rows
  -> profile_of_row row = Ret p
  -> fst (get_user_profile uid w) = Ret (Some p).
Proof.
  intros Hnf Hsel Hdec.
  destruct (sqlite_connect_ok w Hnf) as (w1 & E & [(_ & _ & T & _) _] & _).
  unfold get_user_profile, try_except, bind, ret, lift.
  rewrite E, T, Hsel, Hdec. reflexivity.
Qed.

Lemma filter_uid_last (uid : Z) (rows : list ProfileRow) (row : ProfileRow) :
  u_user_id row = uid
  -> filter (fun r => (u_user_id r =? uid)%Z)
            (filter (fun r => negb (u_user_id r =? uid)%Z) rows ++ [row])
     = [row].
Proof.
  intros Hrow. rewrite filter_app. simpl. rewrite Hrow, Z.eqb_refl.
  induction rows as [|r rows IH]; simpl; [reflexivity|].
  destruct (u_user_id r =? uid)%Z eqn:E; simpl; [exact IH|].
  rewrite E. exact IH.
Qed.

Lemma filter_other_uid (uid other : Z) (rows : list ProfileRow)
  (row : ProfileRow) :
  u_user_id row = other -> uid <> other
  -> filter (fun r => (u_user_id r =? uid)%Z)
            (filter (fun r => negb (u_user_id r =? other)%Z) rows ++ [row])
     = filter (fun r => (u_user_id r =? uid)%Z) rows.
Proof.
  intros Hrow Hneq. rewrite filter_app. simpl.
  assert ((u_user_id row =? uid)%Z = false) as ->
    by (apply Z.eqb_neq; congruence).
  rewrite app_nil_r.
  induction rows as [|r rows IH]; simpl; [reflexivity|].
  destruct (u_user_id r =? other)%Z eqn:Eo; simpl.
  - apply Z.eqb_eq in Eo.
    assert ((u_user_id r =? uid)%Z = false) as ->
      by (apply Z.eqb_neq; congruence).
    exact IH.
  - destruct (u_user_id r =? uid)%Z; [rewrite IH|]; auto.
Qed.

Lemma save_user_profile_once `{Platform} (w : World) (p : UserProfile) :
  no_faults w
  -> profile_json_roundtrips p
  -> let w' := snd (save_user_profile p w) in
     fst (save_user_profile p w) = Ret true
     /\ no_faults w'
     /\ fst (get_user_profile (user_id p) w') = Ret (Some p)
     /\ (forall uid, uid <> user_id p
                     -> fst (get_user_profile uid w')
                        = fst (get_user_profile uid w)).
Proof.
  intros Hnf Hjson.
  destruct (save_user_profile_ok p w Hnf) as (w' & E & Hnf' & Htable).
  rewrite E. cbn [fst snd].
  split; [reflexivity|]. split; [exact Hnf'|]. split.
  - apply (get_user_profile_ok (user_id p) w' (profile_row p) [] p Hnf').
    + rewrite Htable. apply filter_uid_last. reflexivity.
    + exact (profile_of_row_saved p Hjson).
  - intros uid Hneq. apply get_user_profile_selection; try assumption.
    rewrite Htable. apply filter_other_uid; [reflexivity | exact Hneq].
Qed.

(** X6. In a run without SQLite failures, and for a profile whose
    structured fields survive [json.dumps] followed by [json.loads]:
    [save_user_profile] succeeds and [get_user_profile] with the same user
    id then returns a record equal to the saved one in every field; the
    lookup of every other user id answers as before; and a second save under
    the same user id replaces the whole record, [created_at] included. *)
Theorem save_user_profile_roundtrip `{Platform} (w : World) (p : UserProfile) :
  no_faults w
  -> profile_json_roundtrips p
  -> let w' := snd (save_user_profile p w) in
     fst (save_user_profile p w) = Ret true
     /\ fst (get_user_profile (user_id p) w') = Ret (Some p)
     /\ (forall uid, uid <> user_id p
                     -> fst (get_user_profile uid w')
                        = fst (get_user_profile uid w))
     /\ (forall p2,
            profile_json_roundtrips p2
            -> user_id p2 = user_id p
            -> let w2 := snd (save_user_profile p2 w') in
               fst (get_user_profile (user_id p) w2) = Ret (Some p2)
               /\ List.length
                    (filter (fun r => (u_user_id r =? user_id p)%Z)
                            (user_profiles_table w2)) = 1).
Proof.
  intros Hnf Hjson w'.
  destruct (save_user_profile_once w p Hnf Hjson)
    as (Hsaved & Hnf' & Hget & Hother).
  split; [exact Hsaved|]. split; [exact Hget|]. split; [exact Hother|].
  intros p2 Hjson2 Hid w2.
  destruct (save_user_profile_once w' p2 Hnf' Hjson2) as (_ & _ & Hget2 & _).
  rewrite Hid in Hget2. split; [exact Hget2|].
  destruct (save_user_profile_ok p2 w' Hnf') as (w2' & E & _ & Htable).
  subst w2. rewrite E. cbn [snd]. rewrite Htable, <- Hid, filter_uid_last;
    reflexivity.
Qed.

Lemma save_user_profile_roundtrip_witness :
  let P := Reference.mock_platform in
  let w := snd (@save_user_profile P other_user_profile
                  (Reference.empty_world (u "2025-01-01T12:00:00"))) in
  let p := Reference.sample_user_profile in
  let w' := snd (@save_user_profile P p w) in
  let w2 := snd (@save_user_profile P updated_user_profile w') in
  no_faults w
  /\ @profile_json_roundtrips P p
  /\ @profile_json_roundtrips P updated_user_profile
  /\ fst (@get_user_profile P 12345 w') = Ret (Some p)
  /\ fst (@get_user_profile P 777 w') = Ret (Some other_user_profile)
  /\ fst (@get_user_profile P 12345 w2) = Ret (Some updated_user_profile).
Proof.
  intros P w p w' w2.
  assert (no_faults w) as Hnf by (intros b []).
  assert (@profile_json_roundtrips P p) as Hjson
    by (repeat apply conj; try (vm_compute; reflexivity);
        vm_compute; discriminate).
  assert (@profile_json_roundtrips P updated_user_profile) as Hjson2
    by (repeat apply conj; try (vm_compute; reflexivity);
        vm_compute; discriminate).
  destruct (@save_user_profile_roundtrip P w p Hnf Hjson)
    as (_ & Hget & Hother & Hagain).
  assert ((777 <> user_id p)%Z) as Hneq by discriminate.
  pose proof (Hother 777%Z Hneq) as H777.
  destruct (Hagain updated_user_profile Hjson2 eq_refl) as (Hget2 & _).
  refine (conj Hnf (conj Hjson (conj Hjson2 (conj Hget (conj _ Hget2))))).
  subst w'. rewrite H777. vm_compute. reflexivity.
Defined.

Lemma save_conversation_ok (uid : Z) (message response timestamp : str)
  (w : World) :
  no_faults w
  -> exists w',
       save_conversation uid message response timestamp w = (Ret true, w')
       /\ no_faults w'
       /\ conversations_table w'
          = conversations_table w
              ++ [conversation_row (conversations_seq w + 1) uid message
                    response timestamp]
       /\ conversations_seq w' = (conversations_seq w + 1)%Z.
Proof.
  intros Hnf. destruct (sqlite_connect_ok w Hnf) as (w1 & E & F & Hnf1).
  destruct F as [(_ & _ & _ & T & S & _) _].
  unfold save_conversation, try_except, bind, ret, insert_conversation.
  rewrite E. eexists. split; [reflexivity|]. split; [exact Hnf1|].
  simpl. rewrite T, S. split; reflexivity.
Qed.

(** X7. The conversation log is append-only and keeps duplicates:
    [save_conversation] never touches the programs or the profiles; it either
    returns [True] and adds its entry at the end of the log, after all
    earlier entries, or returns [False] and leaves the log as it was; saving
    the same exchange twice leaves two entries. *)
Theorem save_conversation_appends (uid : Z) (message response timestamp : str)
  (w : World) :
  let run := save_conversation uid message response timestamp w in
  programs_table (snd run) = programs_table w
  /\ user_profiles_table (snd run) = user_profiles_table w
  /\ (fst run = Ret true
      /\ conversations_table (snd run)
         = conversations_table w
             ++ [conversation_row (conversations_seq w + 1) uid message
                   response timestamp]
      \/ fst run = Ret false
         /\ conversations_table (snd run) = conversations_table w)
  /\ (no_faults w
      -> conversations_table
           (snd (save_conversation uid message response timestamp (snd run)))
         = conversations_table w
             ++ [ conversation_row (conversations_seq w + 1) uid message
                    response timestamp;
                  conversation_row (conversations_seq w + 2) uid message
                    response timestamp ]).
Proof.
  cbv zeta. split; [|split; [|split]].
  - unfold save_conversation, try_except, bind, ret, insert_conversation.
    destruct (sqlite_connect w) as [[[]|e] w1] eqn:E;
      apply sqlite_connect_frame in E; destruct E as [(T & _) _]; exact T.
  - unfold save_conversation, try_except, bind, ret, insert_conversation.
    destruct (sqlite_connect w) as [[[]|e] w1] eqn:E;
      apply sqlite_connect_frame in E;
      destruct E as [(_ & _ & T & _) _]; exact T.
  - unfold save_conversation, try_except, bind, ret, insert_conversation.
    destruct (sqlite_connect w) as [[[]|e] w1] eqn:E;
      apply sqlite_connect_frame in E;
      destruct E as [(_ & _ & _ & T & S & _) _]; simpl.
    + left. rewrite T, S. split; reflexivity.
    + right. split; [reflexivity | exact T].
  - intros Hnf.
    destruct (save_conversation_ok uid message response timestamp w Hnf)
      as (w1 & E1 & Hnf1 & T1 & S1).
    rewrite E1. cbn [snd].
    destruct (save_conversation_ok uid message response timestamp w1 Hnf1)
      as (w2 & E2 & _ & T2 & _).
    rewrite E2. cbn [snd]. rewrite T2, T1, S1, <- app_assoc.
    replace (conversations_seq w + 1 + 1)%Z with (conversations_seq w + 2)%Z
      by lia.
    reflexivity.
Qed.

Lemma save_conversation_appends_witness :
  let w := Reference.empty_world (u "2025-01-01T12:00:00") in
  let w1 := snd (save_conversation 12345 (u "Q") (u "A") (u "T1") w) in
  let w2 := snd (save_conversation 12345 (u "Q") (u "A") (u "T1") w1) in
  no_faults w
  /\ conversations_table w2
     = [ conversation_row 1 12345 (u "Q") (u "A") (u "T1");
         conversation_row 2 12345 (u "Q") (u "A") (u "T1") ].
Proof.
  intros w w1 w2.
  assert (no_faults w) as Hnf by (intros b []).
  split; [exact Hnf|].
  destruct (save_conversation_appends 12345 (u "Q") (u "A") (u "T1") w)
    as (_ & _ & _ & Htwice).
  exact (Htwice Hnf).
Defined.

(** ** The assistant: what a call may change *)

Lemma get_response_changes `{Platform} (question : str) (uid : Z)
  (w : World) :
  let run := get_response question uid w in
  programs_table (snd run) = programs_table w
  /\ user_profiles_table (snd run) = user_profiles_table w
  /\ at_most_one_request w (snd run)
  /\ (conversations_table (snd run) = conversations_table w
      \/ exists id answer,
           conversations_table (snd run)
           = conversations_table w
               ++ [conversation_row id uid question answer (clock w)]
           /\ fst run = Ret answer
           /\ model_calls (snd run) <> model_calls w).
Proof.
  cbv zeta. unfold get_response, get_response_body, try_except, ret.
  destruct (is_relevant_question question); cbn [negb].
  2:{ unfold at_most_one_request. cbn [fst snd]. auto. }
  destruct (get_response_relevant_run question uid w)
    as (up & w1 & context & w2 & E1 & F1 & E2 & F2 & Hrun).
  destruct (two_connects w w1 w2 F1 F2)
    as [(P2 & _ & U2 & T2 & Q2 & C2 & K2) _].
  destruct F1 as [(P1 & _ & U1 & T1 & _ & C1 & _) _].
  rewrite Hrun. unfold at_most_one_request.
  destruct (format_profile_context up) as [profile_context|e];
    [|cbn [fst snd]; auto].
  destruct context as [programs_context|e]; [|cbn [fst snd]; auto].
  cbv zeta.
  set (request := ask_request programs_context profile_context question).
  assert (model_calls (sent w2 request) = model_calls w ++ [request]) as Hsent
    by (unfold sent; simpl; rewrite C2; reflexivity).
  destruct (openai_create (model_calls w2) request) as [|choices].
  { cbn [fst snd]. unfold sent at 1 2 4; simpl.
    repeat split; auto. right. exists request. exact Hsent. }
  destruct (first_content_stripped choices) as [answer|e].
  2:{ cbn [fst snd]. unfold sent at 1 2 4; simpl.
      repeat split; auto. right. exists request. exact Hsent. }
  cbn [fst snd].
  destruct (save_conversation_effects uid question answer (clock w2)
              (sent w2 request)) as (SP & _ & SU & SM & SC).
  cbv zeta in SP, SU, SM, SC.
  rewrite SP, SU, SM.
  split; [exact P2|]. split; [exact U2|]. split.
  { right. exists request. exact Hsent. }
  destruct SC as [SC | SC]; rewrite SC.
  - left. exact T2.
  - right. exists (conversations_seq w2 + 1)%Z, answer.
    change (conversations_table (sent w2 request))
      with (conversations_table w2).
    rewrite T2, K2. split; [reflexivity|]. split; [reflexivity|].
    rewrite Hsent. intros Habs.
    apply (f_equal (@List.length ChatRequest)) in Habs.
    rewrite length_app in Habs. simpl in Habs. lia.
Qed.

(** X8. On every question and in every world, [get_response] leaves the
    programs and the profiles as they were, sends at most one request to the
    language model, and adds at most one entry to the conversation log, after
    the earlier ones; an entry is added only after a request was sent, and it
    records this user, this question and exactly the text that is
    returned. *)
Theorem get_response_effects `{Platform} (question : str) (uid : Z)
  (w : World) :
  let run := get_response question uid w in
  programs_table (snd run) = programs_table w
  /\ user_profiles_table (snd run) = user_profiles_table w
  /\ at_most_one_request w (snd run)
  /\ (conversations_table (snd run) = conversations_table w
      \/ exists id answer,
           conversations_table (snd run)
           = conversations_table w
               ++ [conversation_row id uid question answer (clock w)]
           /\ fst run = Ret answer
           /\ model_calls (snd run) <> model_calls w).
Proof. exact (get_response_changes question uid w). Qed.

(** ** The three report generators *)

Lemma report_body_run `{Platform} (make_prompt : str -> res str)
  (max_tokens : Z) (temperature : Q) (w : World) :
  exists context w1,
    get_programs_context w = (context, w1)
    /\ one_connect w w1
    /\ report_body make_prompt max_tokens temperature w
       = match context with
         | Raise e => (Raise e, w1)
         | Ret programs_context =>
             match make_prompt programs_context with
             | Raise e => (Raise e, w1)
             | Ret prompt =>
                 let request := chat_request prompt max_tokens temperature in
                 match openai_create (model_calls w1) request with
                 | ApiRaises => (Raise OpenAIError, sent w1 request)
                 | ApiResponse choices =>
                     (first_content_stripped choices, sent w1 request)
                 end
             end
         end.
Proof.
  destruct (get_programs_context_frame w) as (context & w1 & E & F).
  exists context, w1. split; [exact E|]. split; [exact F|].
  unfold report_body, bind. rewrite E.
  destruct context as [programs_context|e]; [|reflexivity].
  unfold lift at 1.
  destruct (make_prompt programs_context) as [prompt|e]; [|reflexivity].
  unfold chat_completions_create. cbv zeta.
  fold (sent w1 (chat_request prompt max_tokens temperature)).
  destruct (openai_create (model_calls w1) _) as [|choices]; reflexivity.
Qed.

Lemma report_shapes `{Platform} :
  (forall user_profile,
      recommendation_body user_profile
      = report_body (fun c => recommendation_prompt c user_profile)
                    2000 (6 # 10)%Q)
  /\ (forall w, comparison_body w
                = report_body (fun c => Ret (comparison_prompt c))
                              2000 (5 # 10)%Q w)
  /\ (forall w, admission_guide_body w
                = report_body (fun c => Ret (admission_guide_prompt c))
                              2000 (5 # 10)%Q w).
Proof. repeat split. Qed.

(** What a report built on [report_body] does, with its fallback. *)
Lemma report_effects `{Platform} (make_prompt : str -> res str)
  (max_tokens : Z) (temperature : Q) (fallback : str) (w : World) :
  let run := try_except (report_body make_prompt max_tokens temperature)
                        (fun _ => ret fallback) w in
  same_tables w (snd run)
  /\ (model_calls (snd run) = model_calls w
      /\ fst run = Ret fallback
      \/ exists prompt,
           model_calls (snd run)
           = model_calls w ++ [chat_request prompt max_tokens temperature]
           /\ match openai_create (model_calls w)
                      (chat_request prompt max_tokens temperature) with
              | ApiResponse (Some text :: _) => fst run = Ret (str_strip text)
              | _ => fst run = Ret fallback
              end).
Proof.
  cbv zeta. unfold try_except, ret.
  destruct (report_body_run make_prompt max_tokens temperature w)
    as (context & w1 & E & [(T1 & T2 & T3 & T4 & T5 & C1 & _) _] & Hrun).
  rewrite Hrun.
  destruct context as [programs_context|e].
  2:{ cbn [fst snd]. split; [repeat split; assumption | left; auto]. }
  destruct (make_prompt programs_context) as [prompt|e].
  2:{ cbn [fst snd]. split; [repeat split; assumption | left; auto]. }
  cbv zeta. rewrite C1.
  assert (same_tables w (sent w1 (chat_request prompt max_tokens temperature)))
    as Hsame by (unfold sent; repeat split; simpl; assumption).
  assert (model_calls (sent w1 (chat_request prompt max_tokens temperature))
          = model_calls w ++ [chat_request prompt max_tokens temperature])
    as Hsent by (unfold sent; simpl; rewrite C1; reflexivity).
  destruct (openai_create (model_calls w)
              (chat_request prompt max_tokens temperature))
    as [|[|[text|] rest]] eqn:Hout; cbn [first_content_stripped fst snd];
    (split; [exact Hsame|]); right; exists prompt; rewrite Hout;
    (split; [exact Hsent | reflexivity]).
Qed.

(** X9. The three report generators never write to the store (programs,
    profiles and the conversation log are as before, so a report is never
    logged) and send at most one request, with [max_tokens] 2000 and their
    own temperature; when that request is answered with text they return the
    stripped text, and in every other case their own fallback. *)
Theorem reports_effects `{Platform} (w : World) :
  (forall user_profile,
      let run := generate_program_recommendation user_profile w in
      same_tables w (snd run)
      /\ (model_calls (snd run) = model_calls w
          /\ fst run = Ret recommendation_fallback
          \/ exists prompt,
               let request := chat_request prompt 2000 (6 # 10)%Q in
               model_calls (snd run) = model_calls w ++ [request]
               /\ match openai_create (model_calls w) request with
                  | ApiResponse (Some text :: _) =>
                      fst run = Ret (str_strip text)
                  | _ => fst run = Ret recommendation_fallback
                  end))
  /\ (let run := compare_programs w in
      same_tables w (snd run)
      /\ (model_calls (snd run) = model_calls w
          /\ fst run = Ret comparison_fallback
          \/ exists prompt,
               let request := chat_request prompt 2000 (5 # 10)%Q in
               model_calls (snd run) = model_calls w ++ [request]
               /\ match openai_create (model_calls w) request with
                  | ApiResponse (Some text :: _) =>
                      fst run = Ret (str_strip text)
                  | _ => fst run = Ret comparison_fallback
                  end))
  /\ (let run := generate_admission_guide w in
      same_tables w (snd run)
      /\ (model_calls (snd run) = model_calls w
          /\ fst run = Ret admission_guide_fallback
          \/ exists prompt,
               let request := chat_request prompt 2000 (5 # 10)%Q in
               model_calls (snd run) = model_calls w ++ [request]
               /\ match openai_create (model_calls w) request with
                  | ApiResponse (Some text :: _) =>
                      fst run = Ret (str_strip text)
                  | _ => fst run = Ret admission_guide_fallback
                  end)).
Proof.
  destruct report_shapes as (Hrec & Hcmp & Hguide).
  split; [|split].
  - intros user_profile.
    unfold generate_program_recommendation. rewrite Hrec.
    apply report_effects.
  - exact (report_effects (fun c => Ret (comparison_prompt c)) 2000
             (5 # 10)%Q comparison_fallback w).
  - exact (report_effects (fun c => Ret (admission_guide_prompt c)) 2000
             (5 # 10)%Q admission_guide_fallback w).
Qed.

(** ** Rendering: when it raises and what it contains *)

Lemma expect_strs_ok (ss acc : list str) :
  for_each (map PStr ss) expect_str acc = Ret (acc ++ ss).
Proof.
  revert acc; induction ss as [|s ss IH]; intros acc; simpl.
  - rewrite app_nil_r. reflexivity.
  - rewrite IH, <- app_assoc. reflexivity.
Qed.

Lemma expect_strs_inv (items : list pyval) (acc r : list str) :
  for_each items expect_str acc = Ret r
  -> exists ss, items = map PStr ss /\ r = acc ++ ss.
Proof.
  revert acc; induction items as [|x items IH]; intros acc; simpl.
  - intros E. apply Ret_inj in E. exists []. rewrite app_nil_r. auto.
  - destruct x as [| | |s| |]; simpl; try discriminate.
    intros E. destruct (IH _ E) as (ss & -> & ->).
    exists (s :: ss). rewrite <- app_assoc. auto.
Qed.

Lemma py_join_strs (sep : str) (ss : list str) :
  py_join sep (PList (map PStr ss)) = Ret (str_join sep ss).
Proof.
  unfold py_join. cbn [py_iter res_bind]. rewrite expect_strs_ok.
  reflexivity.
Qed.

Lemma for_each_dicts_inv {S} (body : S -> pyval -> res S)
  (Hbody : forall s x r, body s x = Ret r -> exists d, x = PDict d)
  (items : list pyval) (s r : S) :
  for_each items body s = Ret r -> exists ds, items = map PDict ds.
Proof.
  revert s; induction items as [|x items IH]; intros s; simpl.
  - intros _. exists []. reflexivity.
  - destruct (body s x) as [s1|e] eqn:E1; simpl; [|discriminate].
    intros E. destruct (Hbody _ _ _ E1) as [d ->].
    destruct (IH _ E) as [ds ->]. exists (d :: ds). reflexivity.
Qed.

Lemma format_direction_needs_dict `{Platform} (s : str) (x : pyval) (r : str) :
  format_direction s x = Ret r -> exists d, x = PDict d.
Proof. destruct x; try discriminate. eauto. Qed.

Lemma format_qa_needs_dict `{Platform} (s : str) (x : pyval) (r : str) :
  format_qa s x = Ret r -> exists d, x = PDict d.
Proof. destruct x; try discriminate. eauto. Qed.

Lemma for_each_dicts_text `{Platform} (body : str -> pyval -> res str)
  (line : list (str * pyval) -> str)
  (Hbody : forall s d, body s (PDict d) = Ret (s ++ line d))
  (ds : list (list (str * pyval))) :
  for_each (map PDict ds) body [] = Ret (concat (map line ds)).
Proof.
  rewrite (for_each_dicts body (fun s d => s ++ line d) Hbody).
  rewrite fold_left_append. reflexivity.
Qed.

(** X10. On list values the two sub-block renderers and the joins fail
    only on ill-typed entries: [_format_directions] returns exactly when
    every entry is a dict, [_format_faq] exactly when each of the first five
    entries is (an ill-typed sixth entry goes unnoticed), and a join exactly
    when every item is a string; an empty list never makes any of them
    raise. *)
Theorem rendering_fails_only_on_ill_typed_entries `{Platform}
  (l : list pyval) :
  ((exists s, _format_directions (PList l) = Ret s)
   <-> exists ds, l = map PDict ds)
  /\ ((exists s, _format_faq (PList l) = Ret s)
      <-> exists ds, firstn 5 l = map PDict ds)
  /\ (forall sep, (exists s, py_join sep (PList l) = Ret s)
                  <-> exists ss, l = map PStr ss).
Proof.
  split; [|split].
  - split.
    + intros [s E]. destruct l as [|x l]; [exists []; reflexivity|].
      unfold _format_directions in E.
      cbn [py_truthy negb py_iter res_bind] in E.
      exact (for_each_dicts_inv format_direction format_direction_needs_dict
               _ _ _ E).
    + intros [ds ->]. destruct ds as [|d ds].
      * eexists. reflexivity.
      * unfold _format_directions.
        cbn [map py_truthy negb py_iter res_bind].
        change (PDict d :: map PDict ds) with (map PDict (d :: ds)).
        rewrite (for_each_dicts_text format_direction direction_line
                   format_direction_dict). eauto.
  - split.
    + intros [s E]. destruct l as [|x l]; [exists []; reflexivity|].
      unfold _format_faq in E.
      cbn [py_truthy negb py_slice_to py_iter res_bind] in E.
      exact (for_each_dicts_inv format_qa format_qa_needs_dict _ _ _ E).
    + intros [ds Hds]. destruct l as [|x l].
      * eexists. reflexivity.
      * unfold _format_faq.
        cbn [py_truthy negb py_slice_to py_iter res_bind].
        rewrite Hds.
        rewrite (for_each_dicts_text format_qa qa_block format_qa_dict).
        eauto.
  - intros sep. split.
    + intros [s E]. unfold py_join in E. cbn [py_iter res_bind] in E.
      destruct (for_each l expect_str []) as [parts|e] eqn:Hparts;
        [|discriminate E].
      destruct (expect_strs_inv _ _ _ Hparts) as (ss & -> & _). eauto.
    + intros [ss ->]. rewrite py_join_strs. eauto.
Qed.

Lemma occurs_in_trans (a b c : str) :
  occurs_in a b -> occurs_in b c -> occurs_in a c.
Proof.
  intros (p1 & q1 & ->) (p2 & q2 & ->).
  exists (p2 ++ p1), (q1 ++ q2). rewrite <- !app_assoc. reflexivity.
Qed.

Lemma occurs_in_join (sep s : str) (ss : list str) :
  In s ss -> occurs_in s (str_join sep ss).
Proof.
  induction ss as [|x ss IH]; [contradiction|].
  intros Hin. destruct ss as [|y ss].
  - destruct Hin as [-> | []]. exists [], []. simpl.
    rewrite app_nil_r. reflexivity.
  - change (str_join sep (x :: y :: ss))
      with (x ++ sep ++ str_join sep (y :: ss)).
    destruct Hin as [-> | Hin].
    + apply occurs_in_head.
    + do 2 apply occurs_in_app_r. exact (IH Hin).
Qed.

(** The parts of one program block. *)
Lemma format_program_parts `{Platform} (context : str) (program : Program)
  (out : str) :
  format_program context program = Ret out
  -> exists s_directions s_career s_partners s_admission s_exam_dates s_faq,
       _format_directions (directions program) = Ret s_directions
       /\ py_join (u ", ") (career_prospects program) = Ret s_career
       /\ py_join (u ", ") (partners program) = Ret s_partners
       /\ py_join (u ", ") (admission_ways program) = Ret s_admission
       /\ py_join (u ", ") (exam_dates program) = Ret s_exam_dates
       /\ _format_faq (faq program) = Ret s_faq
       /\ Forall (fun part => occurs_in part out)
            [ name program; url program; institute program;
              duration program; language program; cost program;
              description program; s_directions; s_career; s_partners;
              s_admission; s_exam_dates; s_faq ]
       /\ exists block, out = context ++ block
                        /\ format_program [] program = Ret block.
Proof.
  unfold format_program.
  destruct (_format_directions (directions program)) as [sd|]; [|discriminate].
  destruct (py_join _ (career_prospects program)) as [sc|]; [|discriminate].
  destruct (py_join _ (partners program)) as [sp|]; [|discriminate].
  destruct (py_join _ (admission_ways program)) as [sa|]; [|discriminate].
  destruct (py_join _ (exam_dates program)) as [se|]; [|discriminate].
  destruct (_format_faq (faq program)) as [sf|]; [|discriminate].
  cbn [res_bind]. intros E. apply Ret_inj in E. subst out.
  exists sd, sc, sp, sa, se, sf. repeat (split; [reflexivity|]). split.
  - repeat constructor.
    + do 2 apply occurs_in_app_r. apply occurs_in_head.
    + do 4 apply occurs_in_app_r. apply occurs_in_head.
    + do 6 apply occurs_in_app_r. apply occurs_in_head.
    + do 8 apply occurs_in_app_r. apply occurs_in_head.
    + do 10 apply occurs_in_app_r. apply occurs_in_head.
    + do 12 apply occurs_in_app_r. apply occurs_in_head.
    + do 14 apply occurs_in_app_r. apply occurs_in_head.
    + do 16 apply occurs_in_app_r. apply occurs_in_head.
    + do 18 apply occurs_in_app_r. apply occurs_in_head.
    + do 20 apply occurs_in_app_r. apply occurs_in_head.
    + do 22 apply occurs_in_app_r. apply occurs_in_head.
    + do 24 apply occurs_in_app_r. apply occurs_in_head.
    + do 26 apply occurs_in_app_r. apply occurs_in_head.
  - eexists. split; [reflexivity|]. rewrite app_nil_l. reflexivity.
Qed.

Lemma format_program_well_typed `{Platform} (p : Program) (t : ProgramLists) :
  has_lists p t
  -> exists block,
       format_program [] p = Ret block
       /\ Forall (fun part => occurs_in part block)
            ([ name p; url p; institute p; duration p; language p; cost p;
               description p ]
             ++ l_career_prospects t ++ l_partners t ++ l_admission_ways t
             ++ l_exam_dates t
             ++ map direction_line (l_directions t)
             ++ map qa_block (firstn 5 (l_faq t))).
Proof.
  intros (Hd & Hc & Hp & Ha & He & Hf).
  assert (exists sd, _format_directions (directions p) = Ret sd
                     /\ forall d, In d (l_directions t)
                                  -> occurs_in (direction_line d) sd)
    as (sd & Esd & Hsd).
  { rewrite Hd. destruct (l_directions t) as [|d ds] eqn:Hl.
    - eexists. split; [reflexivity | intros d []].
    - unfold _format_directions. cbn [map py_truthy negb py_iter res_bind].
      change (PDict d :: map PDict ds) with (map PDict (d :: ds)).
      rewrite (for_each_dicts_text format_direction direction_line
                 format_direction_dict).
      eexists. split; [reflexivity|]. intros d' Hin.
      apply occurs_in_concat. apply in_map. exact Hin. }
  assert (exists sf, _format_faq (faq p) = Ret sf
                     /\ forall d, In d (firstn 5 (l_faq t))
                                  -> occurs_in (qa_block d) sf)
    as (sf & Esf & Hsf).
  { rewrite Hf. destruct (l_faq t) as [|d ds] eqn:Hl.
    - eexists. split; [reflexivity | intros d []].
    - rewrite (format_faq_dicts (d :: ds)) by discriminate.
      eexists. split; [reflexivity|]. intros d' Hin.
      apply occurs_in_concat. apply in_map. exact Hin. }
  unfold format_program.
  rewrite Esd, Hc, Hp, Ha, He, Esf, !py_join_strs. cbn [res_bind].
  eexists. split; [reflexivity|].
  rewrite app_nil_l.
  apply Forall_app. split.
  { repeat constructor.
    - do 1 apply occurs_in_app_r. apply occurs_in_head.
    - do 3 apply occurs_in_app_r. apply occurs_in_head.
    - do 5 apply occurs_in_app_r. apply occurs_in_head.
    - do 7 apply occurs_in_app_r. apply occurs_in_head.
    - do 9 apply occurs_in_app_r. apply occurs_in_head.
    - do 11 apply occurs_in_app_r. apply occurs_in_head.
    - do 13 apply occurs_in_app_r. apply occurs_in_head. }
  apply Forall_app. split.
  { apply Forall_forall. intros s Hin. do 17 apply occurs_in_app_r.
    apply (occurs_in_trans _ (str_join (u ", ") (l_career_prospects t)));
      [apply occurs_in_join; exact Hin | apply occurs_in_head]. }
  apply Forall_app. split.
  { apply Forall_forall. intros s Hin. do 19 apply occurs_in_app_r.
    apply (occurs_in_trans _ (str_join (u ", ") (l_partners t)));
      [apply occurs_in_join; exact Hin | apply occurs_in_head]. }
  apply Forall_app. split.
  { apply Forall_forall. intros s Hin. do 21 apply occurs_in_app_r.
    apply (occurs_in_trans _ (str_join (u ", ") (l_admission_ways t)));
      [apply occurs_in_join; exact Hin | apply occurs_in_head]. }
  apply Forall_app. split.
  { apply Forall_forall. intros s Hin. do 23 apply occurs_in_app_r.
    apply (occurs_in_trans _ (str_join (u ", ") (l_exam_dates t)));
      [apply occurs_in_join; exact Hin | apply occurs_in_head]. }
  apply Forall_app. split.
  { apply Forall_forall. intros s Hin. apply in_map_iff in Hin.
    destruct Hin as (d & <- & Hin). do 15 apply occurs_in_app_r.
    apply (occurs_in_trans _ sd); [exact (Hsd d Hin) | apply occurs_in_head]. }
  { apply Forall_forall. intros s Hin. apply in_map_iff in Hin.
    destruct Hin as (d & <- & Hin). do 25 apply occurs_in_app_r.
    apply (occurs_in_trans _ sf); [exact (Hsf d Hin) | apply occurs_in_head]. }
Qed.

Lemma format_program_after `{Platform} (context : str) (p : Program)
  (block : str) :
  format_program [] p = Ret block
  -> format_program context p = Ret (context ++ block).
Proof.
  unfold format_program.
  destruct (_format_directions (directions p)) as [sd|]; [|discriminate].
  destruct (py_join _ (career_prospects p)) as [sc|]; [|discriminate].
  destruct (py_join _ (partners p)) as [sp|]; [|discriminate].
  destruct (py_join _ (admission_ways p)) as [sa|]; [|discriminate].
  destruct (py_join _ (exam_dates p)) as [se|]; [|discriminate].
  destruct (_format_faq (faq p)) as [sf|]; [|discriminate].
  cbn [res_bind]. intros E. apply Ret_inj in E. subst block.
  rewrite app_nil_l. reflexivity.
Qed.

Lemma for_each_blocks `{Platform} (ps : list Program) (blocks : list str)
  (acc : str) :
  Forall2 (fun p block => format_program [] p = Ret block) ps blocks
  -> for_each ps format_program acc = Ret (acc ++ concat blocks).
Proof.
  intros Hall. revert acc.
  induction Hall as [|p block ps blocks Hp Hall IH]; intros acc; simpl.
  - rewrite app_nil_r. reflexivity.
  - rewrite (format_program_after acc p block Hp). simpl.
    rewrite IH, app_assoc. reflexivity.
Qed.

Lemma get_all_programs_decoded `{Platform} (w : World) (ps : list Program) :
  hd false (sqlite_faults w) = false
  -> decodes_to (programs_table w) ps
  -> exists w', get_all_programs w = (Ret ps, w') /\ one_connect w w'.
Proof.
  intros Hok Hdec. unfold get_all_programs.
  destruct (sqlite_connect w) as [[[]|e] w1] eqn:E.
  - pose proof (sqlite_connect_frame _ _ _ E) as F.
    destruct F as [(T & S) Fl]. exists w1. split.
    + rewrite T, <- (app_nil_r (programs_table w)).
      rewrite (append_programs_prefix _ ps [] [] Hdec). reflexivity.
    + split; [exact (conj T S) | exact Fl].
  - exfalso. unfold sqlite_connect in E.
    destruct (sqlite_faults w) as [|[|] rest]; simpl in Hok;
      try discriminate Hok; discriminate E.
Qed.

(** X11. When the store is read without failure and holds well-typed
    programs, [get_programs_context] does not raise: the context is the
    blocks of the programs one after the other, in table order (the empty
    string for an empty table), and the block of a program contains its name
    and other scalar fields, every item of its four joined lists, the lines
    of every direction and the Q/A pairs of its first five FAQ entries.
    When the read fails, the context is the empty string, as for an empty
    store. *)
Theorem programs_context_of_well_typed `{Platform} (w : World) :
  (hd false (sqlite_faults w) = true
   -> fst (get_programs_context w) = Ret [])
  /\ (forall ps,
         hd false (sqlite_faults w) = false
         -> decodes_to (programs_table w) ps
         -> Forall well_typed ps
         -> exists blocks,
              fst (get_programs_context w) = Ret (concat blocks)
              /\ Forall2
                   (fun p block =>
                      format_program [] p = Ret block
                      /\ exists t,
                           has_lists p t
                           /\ Forall (fun part => occurs_in part block)
                                     (block_parts p t))
                   ps blocks).
Proof.
  split.
  - intros Hfault. destruct (sqlite_connect_fails w Hfault) as (w' & E & _).
    unfold get_programs_context, bind, lift, get_all_programs.
    rewrite E. reflexivity.
  - intros ps Hok Hdec Htyped.
    destruct (get_all_programs_decoded w ps Hok Hdec) as (w' & E & _).
    assert (exists blocks,
               Forall2
                 (fun p block =>
                    format_program [] p = Ret block
                    /\ exists t,
                         has_lists p t
                         /\ Forall (fun part => occurs_in part block)
                                   (block_parts p t))
                 ps blocks) as [blocks Hblocks].
    { clear E Hdec. induction Htyped as [|p ps [t Ht] _ [blocks IH]].
      - exists []. constructor.
      - destruct (format_program_well_typed p t Ht) as (block & Eb & Hparts).
        exists (block :: blocks). constructor; [|exact IH].
        split; [exact Eb|]. exists t. split; [exact Ht | exact Hparts]. }
    exists blocks. split; [|exact Hblocks].
    unfold get_programs_context, bind, lift. rewrite E. cbn [fst].
    rewrite (for_each_blocks ps blocks []); [reflexivity|].
    clear -Hblocks. induction Hblocks as [|p b ps bs [Hp _] _ IH];
      constructor; assumption.
Qed.

Lemma programs_context_of_well_typed_witness :
  let P := Reference.mock_platform in
  let w := snd (@save_program P Reference.sample_program
                  (Reference.empty_world (u "2025-01-01T12:00:00"))) in
  hd false (sqlite_faults w) = false
  /\ @decodes_to P (programs_table w) [Reference.sample_program]
  /\ Forall well_typed [Reference.sample_program]
  /\ exists context,
       fst (@get_programs_context P w) = Ret context
       /\ occurs_in (u "ML Engineer") context
       /\ occurs_in (u "X5 Group") context
       /\ occurs_in (u "Информатика и вычислительная техника (09.04.01)")
                    context.
Proof.
  intros P w.
  assert (@decodes_to P (programs_table w) [Reference.sample_program]) as Hdec
    by (constructor; [vm_compute; reflexivity | constructor]).
  assert (has_lists Reference.sample_program sample_lists) as Hlists
    by (repeat split).
  assert (Forall well_typed [Reference.sample_program]) as Htyped
    by (constructor; [exists sample_lists; exact Hlists | constructor]).
  refine (conj eq_refl (conj Hdec (conj Htyped _))).
  destruct (proj2 (@programs_context_of_well_typed P w)
              [Reference.sample_program] eq_refl Hdec Htyped)
    as (blocks & Hctx & _).
  exists (concat blocks). split; [exact Hctx|].
  assert (concat blocks
          = match fst (@get_programs_context P w) with
            | Ret c => c
            | Raise _ => []
            end) as -> by (rewrite Hctx; reflexivity).
  split; [|split]; apply str_in_spec; vm_compute; reflexivity.
Defined.

(** X12. The profile context of [get_response]: no profile gives the
    empty string; a profile whose three lists hold strings always gives a
    block, also when the lists are empty, and the block contains every
    interest, skill and goal and either the preferred program or, when that
    is [None] or empty, the words "не указана". *)
Theorem profile_context_of_lists (p : UserProfile)
  (l_interests l_skills l_goals : list str) :
  interests p = PList (map PStr l_interests)
  -> technical_skills p = PList (map PStr l_skills)
  -> career_goals p = PList (map PStr l_goals)
  -> format_profile_context None = Ret []
     /\ exists text,
          format_profile_context (Some p) = Ret text
          /\ text <> []
          /\ occurs_in (u "ПРОФИЛЬ ПОЛЬЗОВАТЕЛЯ:") text
          /\ Forall (fun item => occurs_in item text)
                    (l_interests ++ l_skills ++ l_goals)
          /\ match preferred_program p with
             | Some (c :: s) => occurs_in (c :: s) text
             | _ => occurs_in (u "не указана") text
             end.
Proof.
  intros Hi Hs Hg. split; [reflexivity|].
  unfold format_profile_context. rewrite Hi, Hs, Hg, !py_join_strs.
  cbn [res_bind]. eexists. split; [reflexivity|]. split; [|split; [|split]].
  - intros E. apply (f_equal (@List.length char)) in E.
    rewrite length_app in E. vm_compute (List.length (u _)) in E.
    simpl in E. lia.
  - apply str_in_spec.
    change (u "
ПРОФИЛЬ ПОЛЬЗОВАТЕЛЯ:
Интересы: ") with (nl ++ u "ПРОФИЛЬ ПОЛЬЗОВАТЕЛЯ:" ++ nl ++ u "Интересы: ").
    apply str_in_spec. rewrite <- !app_assoc.
    apply occurs_in_app_r. apply occurs_in_head.
  - apply Forall_app. split; [|apply Forall_app; split];
      apply Forall_forall; intros s Hin.
    + do 1 apply occurs_in_app_r.
      apply (occurs_in_trans _ (str_join (u ", ") l_interests));
        [apply occurs_in_join; exact Hin | apply occurs_in_head].
    + do 3 apply occurs_in_app_r.
      apply (occurs_in_trans _ (str_join (u ", ") l_skills));
        [apply occurs_in_join; exact Hin | apply occurs_in_head].
    + do 5 apply occurs_in_app_r.
      apply (occurs_in_trans _ (str_join (u ", ") l_goals));
        [apply occurs_in_join; exact Hin | apply occurs_in_head].
  - destruct (preferred_program p) as [[|c s]|]; cbn [str_or];
      do 7 apply occurs_in_app_r; apply occurs_in_head.
Qed.

Lemma profile_context_of_lists_witness :
  interests updated_user_profile = PList (map PStr [u "NLP"])
  /\ technical_skills updated_user_profile = PList (map PStr [u "Python"])
  /\ career_goals updated_user_profile = PList (map PStr [])
  /\ exists text,
       format_profile_context (Some updated_user_profile) = Ret text
       /\ text <> []
       /\ occurs_in (u "NLP") text
       /\ occurs_in (u "не указана") text.
Proof.
  refine (conj eq_refl (conj eq_refl (conj eq_refl _))).
  destruct (profile_context_of_lists updated_user_profile
              [u "NLP"] [u "Python"] [] eq_refl eq_refl eq_refl)
    as (_ & text & E & Hne & _ & Hitems & Hpreferred).
  exists text. split; [exact E|]. split; [exact Hne|]. split.
  - inversion Hitems as [|? ? Hnlp _]. exact Hnlp.
  - exact Hpreferred.
Defined.

(** X13. Whatever [get_response] sends to the language model is the
    request for this very question: the question was classified relevant;
    the request names the configured model, [max_tokens] 1500 and
    temperature 0.7; it holds the system prompt and one user message, and the
    user message contains the question as asked, the rendered programs and
    the profile context of this user's profile. *)
Theorem ask_request_shape `{Platform} (question : str) (uid : Z) (w : World)
  (request : ChatRequest) :
  model_calls (snd (get_response question uid w)) = model_calls w ++ [request]
  -> is_relevant_question question = true
     /\ req_model request = openai_model
     /\ req_max_tokens request = 1500%Z
     /\ req_temperature request = (7 # 10)%Q
     /\ exists programs_context profile_context user_profile w1 w2,
          get_user_profile uid w = (Ret user_profile, w1)
          /\ format_profile_context user_profile = Ret profile_context
          /\ get_programs_context w1 = (Ret programs_context, w2)
          /\ req_messages request
             = [ {| role := u "system"; content := system_prompt |};
                 {| role := u "user";
                    content := ask_prompt programs_context profile_context
                                          question |} ]
          /\ occurs_in question
                       (ask_prompt programs_context profile_context question)
          /\ occurs_in programs_context
                       (ask_prompt programs_context profile_context question)
          /\ occurs_in profile_context
                       (ask_prompt programs_context profile_context question).
Proof.
  unfold get_response, get_response_body, try_except, ret.
  destruct (is_relevant_question question); cbn [negb].
  2:{ cbn [snd]. intros E. exfalso. exact (not_extended _ _ E). }
  destruct (get_response_relevant_run question uid w)
    as (up & w1 & context & w2 & E1 & F1 & E2 & F2 & Hrun).
  destruct (two_connects w w1 w2 F1 F2) as [(_ & _ & _ & _ & _ & C2 & _) _].
  destruct F1 as [(_ & _ & _ & _ & _ & C1 & _) _].
  rewrite Hrun.
  destruct (format_profile_context up) as [profile_context|e] eqn:Hfmt.
  2:{ cbn [snd]. rewrite C1. intros E. exfalso. exact (not_extended _ _ E). }
  destruct context as [programs_context|e].
  2:{ cbn [snd]. rewrite C2. intros E. exfalso. exact (not_extended _ _ E). }
  cbv zeta.
  set (sent_request := ask_request programs_context profile_context question).
  assert (model_calls (sent w2 sent_request) = model_calls w ++ [sent_request])
    as Hsent by (unfold sent; simpl; rewrite C2; reflexivity).
  intros Hcalls.
  assert (model_calls w ++ [sent_request] = model_calls w ++ [request]) as Heq.
  { rewrite <- Hcalls, <- Hsent.
    destruct (openai_create (model_calls w2) sent_request) as [|choices];
      [reflexivity|].
    destruct (first_content_stripped choices) as [answer|e]; [|reflexivity].
    cbn [snd].
    destruct (save_conversation_effects uid question answer (clock w2)
                (sent w2 sent_request)) as (_ & _ & _ & SM & _).
    symmetry. exact SM. }
  apply app_inv_head in Heq. injection Heq as <-.
  split; [reflexivity|]. split; [reflexivity|]. split; [reflexivity|].
  split; [reflexivity|].
  exists programs_context, profile_context, up, w1, w2.
  split; [exact E1|]. split; [exact Hfmt|]. split; [exact E2|].
  split; [reflexivity|]. unfold ask_prompt. split; [|split].
  - do 5 apply occurs_in_app_r. apply occurs_in_head.
  - do 1 apply occurs_in_app_r. apply occurs_in_head.
  - do 3 apply occurs_in_app_r. apply occurs_in_head.
Qed.

Lemma ask_request_shape_witness :
  let P := Reference.mock_platform in
  let w := snd (@save_program P Reference.sample_program
                  (Reference.empty_world (u "2025-01-01T12:00:00"))) in
  let question := u "Чем отличаются программы?" in
  exists request,
    model_calls (snd (@get_response P question 12345 w))
    = model_calls w ++ [request]
    /\ req_max_tokens request = 1500%Z
    /\ @is_relevant_question P question = true.
Proof.
  intros P w question.
  assert (exists request,
             model_calls (snd (@get_response P question 12345 w))
             = model_calls w ++ [request]) as [request Hsent].
  { eexists. vm_compute. reflexivity. }
  exists request. split; [exact Hsent|].
  destruct (@ask_request_shape P question 12345 w request Hsent)
    as (Hrel & _ & Htokens & _).
  split; [exact Htokens | exact Hrel].
Defined.

(** ** The keys of the store stay unique *)

Lemma NoDup_snoc {A} (l : list A) (x : A) :
  NoDup l -> ~ In x l -> NoDup (l ++ [x]).
Proof.
  induction l as [|a l IH]; simpl; intros Hnd Hnin.
  - constructor; [intros [] | constructor].
  - inversion Hnd as [|? ? Ha Hl]; subst. constructor.
    + rewrite in_app_iff. simpl. intros [Hin | [-> | []]]; auto.
    + apply IH; auto.
Qed.

Lemma NoDup_map_filter {A B} (f : A -> B) (g : A -> bool) (l : list A) :
  NoDup (map f l) -> NoDup (map f (filter g l)).
Proof.
  induction l as [|a l IH]; simpl; intros Hnd; [constructor|].
  inversion Hnd as [|? ? Ha Hl]; subst.
  destruct (g a); simpl; [|exact (IH Hl)].
  constructor; [|exact (IH Hl)].
  intros Hin. apply Ha. apply in_map_iff in Hin.
  destruct Hin as (b & Hb & Hin). apply filter_In in Hin.
  apply in_map_iff. exists b. tauto.
Qed.

Lemma replace_keeps_unique {A B} (f : A -> B) (differs : A -> bool)
  (l : list A) (x : A) :
  (forall r, differs r = true -> f r <> f x)
  -> NoDup (map f l)
  -> NoDup (map f (filter differs l ++ [x])).
Proof.
  intros Hdiff Hnd. rewrite map_app. simpl. apply NoDup_snoc.
  - apply NoDup_map_filter. exact Hnd.
  - intros Hin. apply in_map_iff in Hin. destruct Hin as (r & Hr & Hin).
    apply filter_In in Hin. destruct Hin as [_ Hd].
    exact (Hdiff r Hd Hr).
Qed.

Lemma save_program_tables `{Platform} (p : Program) (w : World) :
  let w' := snd (save_program p w) in
  user_profiles_table w' = user_profiles_table w
  /\ (programs_table w' = programs_table w
      \/ programs_table w'
         = filter (fun r => negb (str_eqb (p_name r) (name p)))
                  (programs_table w)
           ++ [program_row (programs_seq w + 1) p]).
Proof.
  unfold save_program, try_except, bind, ret, insert_or_replace_program.
  destruct (sqlite_connect w) as [[[]|e] w1] eqn:E;
    apply sqlite_connect_frame in E;
    destruct E as [(T & S & U & _) _]; simpl.
  - split; [exact U|]. right. rewrite T, S. reflexivity.
  - split; [exact U|]. left. exact T.
Qed.

Lemma save_user_profile_tables `{Platform} (p : UserProfile) (w : World) :
  let w' := snd (save_user_profile p w) in
  programs_table w' = programs_table w
  /\ conversations_table w' = conversations_table w
  /\ (user_profiles_table w' = user_profiles_table w
      \/ user_profiles_table w'
         = filter (fun r => negb (u_user_id r =? user_id p)%Z)
                  (user_profiles_table w)
           ++ [profile_row p]).
Proof.
  unfold save_user_profile, try_except, bind, ret, insert_or_replace_profile.
  destruct (sqlite_connect w) as [[[]|e] w1] eqn:E;
    apply sqlite_connect_frame in E;
    destruct E as [(T & _ & U & C & _) _]; simpl.
  - split; [exact T|]. split; [exact C|]. right. rewrite U. reflexivity.
  - split; [exact T|]. split; [exact C|]. left. exact U.
Qed.

(** X14. The store keeps its keys unique: if no two stored programs share
    a name and no two stored profiles a user id, this is still so after
    [save_program], [save_user_profile], [save_conversation] and
    [get_response], with any arguments and whether or not SQLite fails; so a
    name selects at most one program row and a user id at most one
    profile row. *)
Theorem keys_stay_unique `{Platform} (w : World) :
  keys_unique w
  -> (forall p, keys_unique (snd (save_program p w)))
     /\ (forall p, keys_unique (snd (save_user_profile p w)))
     /\ (forall uid m r t, keys_unique (snd (save_conversation uid m r t w)))
     /\ (forall question uid, keys_unique (snd (get_response question uid w)))
     /\ (forall n,
            List.length (filter (fun r => str_eqb (p_name r) n)
                                (programs_table w)) <= 1)
     /\ (forall uid,
            List.length (filter (fun r => (u_user_id r =? uid)%Z)
                                (user_profiles_table w)) <= 1).
Proof.
  intros [Hp Hu]. repeat apply conj.
  - intros p. destruct (save_program_tables p w) as (U & [T | T]);
      unfold keys_unique; rewrite U, T; split; try assumption.
    apply replace_keeps_unique; [|exact Hp].
    intros r Hd E. apply negb_true_iff in Hd.
    cbn [program_row p_name] in E. rewrite E, str_eqb_refl in Hd.
    discriminate Hd.
  - intros p. destruct (save_user_profile_tables p w) as (T & _ & [U | U]);
      unfold keys_unique; rewrite U, T; split; try assumption.
    apply (replace_keeps_unique u_user_id); [|exact Hu].
    intros r Hd E. apply negb_true_iff in Hd.
    cbn [profile_row u_user_id] in E. rewrite E, Z.eqb_refl in Hd.
    discriminate Hd.
  - intros uid m r t.
    destruct (save_conversation_effects uid m r t w) as (T & _ & U & _).
    unfold keys_unique. rewrite T, U. split; assumption.
  - intros question uid.
    destruct (get_response_changes question uid w) as (T & U & _).
    unfold keys_unique. rewrite T, U. split; assumption.
  - intros n. clear Hu. induction (programs_table w) as [|r rows IH];
      simpl; [lia|].
    simpl in Hp. inversion Hp as [|? ? Hr Hrows]; subst.
    destruct (str_eqb (p_name r) n) eqn:E; [|exact (IH Hrows)].
    apply str_eqb_eq in E. simpl.
    assert (filter (fun r0 => str_eqb (p_name r0) n) rows = []) as ->;
      [|simpl; lia].
    destruct (filter _ rows) as [|x xs] eqn:F; [reflexivity|]. exfalso.
    apply filter_In_first in F. destruct F as [Hin Hx].
    apply str_eqb_eq in Hx. apply Hr. rewrite E, <- Hx.
    apply in_map. exact Hin.
  - intros uid. clear Hp. induction (user_profiles_table w) as [|r rows IH];
      simpl; [lia|].
    simpl in Hu. inversion Hu as [|? ? Hr Hrows]; subst.
    destruct (u_user_id r =? uid)%Z eqn:E; [|exact (IH Hrows)].
    apply Z.eqb_eq in E. simpl.
    assert (filter (fun r0 => (u_user_id r0 =? uid)%Z) rows = []) as ->;
      [|simpl; lia].
    destruct (filter _ rows) as [|x xs] eqn:F; [reflexivity|]. exfalso.
    apply filter_In_first in F. destruct F as [Hin Hx].
    apply Z.eqb_eq in Hx. apply Hr. rewrite E, <- Hx.
    apply in_map. exact Hin.
Qed.

Lemma keys_stay_unique_witness :
  let P := Reference.mock_platform in
  let w := snd (@save_program P Reference.sample_program
                  (Reference.empty_world (u "2025-01-01T12:00:00"))) in
  keys_unique w
  /\ keys_unique (snd (@save_program P updated_sample_program w))
  /\ keys_unique (snd (@get_response P (u "Чем отличаются программы?")
                         12345 w)).
Proof.
  intros P w.
  assert (keys_unique w) as Hk.
  { split; simpl.
    - constructor; [intros [] | constructor].
    - constructor. }
  destruct (@keys_stay_unique P w Hk) as (Hsave & _ & _ & Hask & _).
  exact (conj Hk (conj (Hsave updated_sample_program)
                       (Hask (u "Чем отличаются программы?") 12345%Z))).
Defined.

(* ================================================================== *)
(** * Properties of the chat handlers *)

(** ** The comma-separated answers of the profile wizard *)

Lemma split_at_count (sep : char) (cur s : str) :
  List.length (split_at sep cur s)
  = S (List.length (filter (fun c => char_eqb c sep) s)).
Proof.
  revert cur; induction s as [|c s IH]; intros cur; simpl; [reflexivity|].
  destruct (char_eqb c sep); simpl; rewrite IH; reflexivity.
Qed.

Lemma split_at_no_sep (sep : char) (cur s : str) :
  ~ In sep cur
  -> Forall (fun piece => ~ In sep piece) (split_at sep cur s).
Proof.
  revert cur; induction s as [|c s IH]; intros cur Hcur; simpl.
  - constructor; [|constructor]. intros Hin. apply in_rev in Hin. auto.
  - destruct (char_eqb c sep) eqn:E.
    + constructor; [|apply IH; intros []].
      intros Hin. apply in_rev in Hin. auto.
    + apply IH. intros [-> | Hin]; [|auto].
      unfold char_eqb in E. rewrite N.eqb_refl in E. discriminate E.
Qed.

Lemma split_at_piece (sep : char) (cur x rest : str) :
  ~ In sep x
  -> split_at sep cur (x ++ sep :: rest)
     = (rev cur ++ x) :: split_at sep [] rest.
Proof.
  revert cur; induction x as [|c x IH]; intros cur Hx; simpl.
  - unfold char_eqb. rewrite N.eqb_refl, app_nil_r. reflexivity.
  - assert (char_eqb c sep = false) as ->.
    { unfold char_eqb. apply N.eqb_neq. intros ->. apply Hx. left.
      reflexivity. }
    rewrite IH by (intros Hin; apply Hx; right; exact Hin).
    simpl. rewrite <- app_assoc. reflexivity.
Qed.

Lemma split_at_last (sep : char) (cur x : str) :
  ~ In sep x -> split_at sep cur x = [rev cur ++ x].
Proof.
  revert cur; induction x as [|c x IH]; intros cur Hx; simpl.
  - rewrite app_nil_r. reflexivity.
  - assert (char_eqb c sep = false) as ->.
    { unfold char_eqb. apply N.eqb_neq. intros ->. apply Hx. left.
      reflexivity. }
    rewrite IH by (intros Hin; apply Hx; right; exact Hin).
    simpl. rewrite <- app_assoc. reflexivity.
Qed.

Lemma str_strip_after_space (x : str) : str_strip (32%N :: x) = str_strip x.
Proof. reflexivity. Qed.

Lemma split_at_space (s : str) :
  split_at comma [] (32%N :: s) = split_at comma [32%N] s.
Proof. reflexivity. Qed.

Lemma split_joined_from (items : list str) (x cur : str) :
  Forall (fun y => ~ In comma y) (x :: items)
  -> split_at comma cur (str_join (u ", ") (x :: items))
     = (rev cur ++ x) :: map (fun y => 32%N :: y) items.
Proof.
  revert x cur; induction items as [|y items IH]; intros x cur Hall;
    inversion Hall as [|? ? Hx Hrest]; subst.
  - apply split_at_last. exact Hx.
  - change (str_join (u ", ") (x :: y :: items))
      with (x ++ comma :: 32%N :: str_join (u ", ") (y :: items)).
    rewrite split_at_piece by exact Hx.
    rewrite split_at_space, (IH y [32%N] Hrest). reflexivity.
Qed.

(** The pieces of [", ".join(items)]: the first item, then each later
    item behind a space. *)
Lemma split_joined (x : str) (items : list str) :
  Forall (fun y => ~ In comma y) (x :: items)
  -> str_split_on comma (str_join (u ", ") (x :: items))
     = x :: map (fun y => 32%N :: y) items.
Proof. intros Hall. exact (split_joined_from items x [] Hall). Qed.

Lemma map_filter_through {A B} (f : A -> B) (keep : B -> bool) (l : list A) :
  map f (filter (fun a => keep (f a)) l) = filter keep (map f l).
Proof.
  induction l as [|a l IH]; simpl; [reflexivity|].
  destruct (keep (f a)); simpl; rewrite IH; reflexivity.
Qed.

Lemma stripped_joined (x : str) (items : list str) :
  Forall (fun y => str_strip y = y /\ ~ In comma y) (x :: items)
  -> stripped_items (str_join (u ", ") (x :: items)) = x :: items.
Proof.
  intros Hall. unfold stripped_items. rewrite split_joined.
  - inversion Hall as [|? ? [Hx _] Hrest]; subst. simpl. rewrite Hx. f_equal.
    rewrite map_map. clear Hall Hx.
    induction Hrest as [|y items [Hy _] _ IH]; simpl; [reflexivity|].
    rewrite str_strip_after_space, Hy, IH. reflexivity.
  - apply Forall_forall. intros y Hin.
    exact (proj2 (proj1 (Forall_forall _ _) Hall y Hin)).
Qed.

(** X15. How the wizard reads a comma-separated answer.  For interests
    and skills the list has one item more than the text has commas, so it is
    never empty (an empty answer gives one empty item); every item is stripped
    of surrounding whitespace and holds no comma; for goals the empty items
    are dropped.  Reading back what [", ".join] writes gives the items that
    were joined, when these are stripped, comma-free and (for goals, or for a
    non-empty list) non-empty. *)
Theorem comma_separated_answers :
  (forall text,
      List.length (stripped_items text)
      = S (List.length (filter (fun c => char_eqb c comma) text))
      /\ Forall (fun item => str_strip item = item /\ ~ In comma item)
                (stripped_items text)
      /\ nonempty_stripped_items text
         = filter (fun item => match item with [] => false | _ => true end)
                  (stripped_items text))
  /\ (forall items,
         Forall (fun item => str_strip item = item /\ ~ In comma item
                             /\ item <> []) items
         -> nonempty_stripped_items (str_join (u ", ") items) = items
            /\ (items <> []
                -> stripped_items (str_join (u ", ") items) = items)).
Proof.
  split.
  - intros text. split; [|split].
    + unfold stripped_items, str_split_on. rewrite length_map.
      apply split_at_count.
    + unfold stripped_items, str_split_on. apply Forall_forall.
      intros item Hin. apply in_map_iff in Hin.
      destruct Hin as (piece & <- & Hin). split.
      * apply str_strip_idempotent.
      * intros Hc. apply str_strip_incl in Hc.
        pose proof (split_at_no_sep comma [] text (fun F => F)) as Hno.
        exact (proj1 (Forall_forall _ _) Hno piece Hin Hc).
    + unfold nonempty_stripped_items, stripped_items.
      apply (map_filter_through str_strip
               (fun item => match item with [] => false | _ => true end)).
  - intros items Hall.
    assert (forall x rest, items = x :: rest
                           -> stripped_items (str_join (u ", ") items) = items)
      as Hstripped.
    { intros x rest ->. apply stripped_joined.
      apply Forall_forall. intros y Hin.
      destruct (proj1 (Forall_forall _ _) Hall y Hin) as (Hy & Hc & _).
      split; assumption. }
    split.
    + destruct items as [|x rest]; [reflexivity|].
      unfold nonempty_stripped_items.
      rewrite (map_filter_through str_strip
                 (fun item => match item with [] => false | _ => true end)).
      fold (stripped_items (str_join (u ", ") (x :: rest))).
      rewrite (Hstripped x rest eq_refl).
      clear Hstripped. induction Hall as [|y items (_ & _ & Hne) _ IH];
        [reflexivity|].
      simpl. destruct y as [|c y]; [contradiction|]. rewrite IH. reflexivity.
    + intros Hne. destruct items as [|x rest]; [contradiction|].
      exact (Hstripped x rest eq_refl).
Qed.

Lemma comma_separated_answers_witness :
  let items := [u "машинное обучение"; u "компьютерное зрение"; u "NLP"] in
  Forall (fun item => str_strip item = item /\ ~ In comma item /\ item <> [])
         items
  /\ stripped_items (u "машинное обучение, компьютерное зрение, NLP") = items
  /\ stripped_items [] = [[]]
  /\ nonempty_stripped_items (u " , ,") = [].
Proof.
  intros items.
  assert (Forall (fun item => str_strip item = item /\ ~ In comma item
                              /\ item <> []) items) as Hclean.
  { repeat constructor; try (vm_compute; reflexivity); try discriminate;
      intros Hin; vm_compute in Hin; repeat destruct Hin as [Hin | Hin];
      try discriminate Hin; exact Hin. }
  destruct comma_separated_answers as (_ & Hback).
  destruct (Hback items Hclean) as (_ & Hitems).
  refine (conj Hclean (conj _ (conj eq_refl eq_refl))).
  exact (Hitems ltac:(discriminate)).
Defined.

(** ** Steps of the handlers *)

Lemma api_ok (call : ApiCall) (c : Chat) :
  telegram_ok c
  -> exists c',
       api call c = (Done tt, c')
       /\ store c' = store c
       /\ fsm_state c' = fsm_state c
       /\ fsm_data c' = fsm_data c
       /\ api_calls c' = api_calls c ++ [call]
       /\ telegram_ok c'.
Proof.
  intros Hok. unfold api.
  destruct (telegram_faults c) as [|b rest] eqn:F.
  - eexists. split; [reflexivity|]. repeat split. intros b [].
  - assert (b = false) as -> by (apply Hok; rewrite F; left; reflexivity).
    eexists. split; [reflexivity|]. repeat split.
    intros b Hin. apply Hok. rewrite F. right. exact Hin.
Qed.

Lemma api_keeps (call : ApiCall) (c : Chat) :
  let c' := snd (api call c) in
  store c' = store c /\ fsm_state c' = fsm_state c
  /\ fsm_data c' = fsm_data c.
Proof.
  unfold api. destruct (telegram_faults c) as [|[|] rest]; repeat split.
Qed.

Lemma dict_get_updated (d : list (str * pyval)) (key : str) (v default : pyval) :
  dict_get (dict_update d key v) key default = v.
Proof.
  induction d as [|[k old] d IH]; simpl.
  - rewrite str_eqb_refl. reflexivity.
  - destruct (str_eqb k key) eqn:E; simpl; rewrite E; [reflexivity | exact IH].
Qed.

Lemma dict_get_other (d : list (str * pyval)) (key other : str)
  (v default : pyval) :
  str_eqb other key = false
  -> dict_get (dict_update d key v) other default = dict_get d other default.
Proof.
  intros Hneq. induction d as [|[k old] d IH]; simpl.
  - assert (str_eqb key other = false) as ->; [|reflexivity].
    destruct (str_eqb key other) eqn:E; [|reflexivity].
    apply str_eqb_eq in E. subst. rewrite str_eqb_refl in Hneq.
    discriminate Hneq.
  - destruct (str_eqb k key) eqn:E; simpl.
    + apply str_eqb_eq in E. subst k.
      assert (str_eqb key other = false) as ->; [|reflexivity].
      destruct (str_eqb key other) eqn:E'; [|reflexivity].
      apply str_eqb_eq in E'. subst. rewrite str_eqb_refl in Hneq.
      discriminate Hneq.
    + destruct (str_eqb k other); [reflexivity | exact IH].
Qed.

(** One step of the wizard that stores an answer, tells the user what to
    send next and moves to the next state. *)
Lemma wizard_step_ok (key : str) (v : pyval) (text : str) (next : FsmState)
  (c : Chat) :
  telegram_ok c
  -> exists c',
       (update_data key v ;;~
        api (send_message text None None) ;;~
        set_state next) c = (Done tt, c')
       /\ store c' = store c
       /\ fsm_state c' = next
       /\ fsm_data c' = dict_update (fsm_data c) key v
       /\ api_calls c' = api_calls c ++ [send_message text None None]
       /\ telegram_ok c'.
Proof.
  intros Hok. unfold h_bind, update_data, set_state.
  destruct (api_ok (send_message text None None)
              (with_fsm c (fsm_state c) (dict_update (fsm_data c) key v)) Hok)
    as (c1 & E & S & _ & D & A & T).
  rewrite E. eexists. split; [reflexivity|]. simpl.
  repeat split; assumption.
Qed.

Lemma process_background_ok (upd : Update) (c : Chat) :
  telegram_ok c
  -> exists c' q,
       process_background upd c = (Done tt, c')
       /\ store c' = store c
       /\ fsm_state c' = waiting_for_interests
       /\ fsm_data c'
          = dict_update (fsm_data c) (u "background")
                        (text_value (update_text upd))
       /\ api_calls c' = api_calls c ++ [send_message q None None]
       /\ telegram_ok c'.
Proof.
  intros Hok.
  edestruct (wizard_step_ok (u "background") (text_value (update_text upd)))
    as (c' & E & Hrest); [exact Hok|].
  exists c'. eexists. split; [exact E | exact Hrest].
Qed.

Lemma process_interests_ok (upd : Update) (text : str) (c : Chat) :
  update_text upd = Some text
  -> telegram_ok c
  -> exists c' q,
       process_interests upd c = (Done tt, c')
       /\ store c' = store c
       /\ fsm_state c' = waiting_for_skills
       /\ fsm_data c'
          = dict_update (fsm_data c) (u "interests")
                        (PList (map PStr (stripped_items text)))
       /\ api_calls c' = api_calls c ++ [send_message q None None]
       /\ telegram_ok c'.
Proof.
  intros Ht Hok.
  edestruct (wizard_step_ok (u "interests")
               (PList (map PStr (stripped_items text))))
    as (c' & E & Hrest); [exact Hok|].
  exists c'. eexists. split; [|exact Hrest].
  unfold process_interests, text_of. rewrite Ht. exact E.
Qed.

Lemma process_skills_ok (upd : Update) (text : str) (c : Chat) :
  update_text upd = Some text
  -> telegram_ok c
  -> exists c' q,
       process_skills upd c = (Done tt, c')
       /\ store c' = store c
       /\ fsm_state c' = waiting_for_goals
       /\ fsm_data c'
          = dict_update (fsm_data c) (u "skills")
                        (PList (map PStr (stripped_items text)))
       /\ api_calls c' = api_calls c ++ [send_message q None None]
       /\ telegram_ok c'.
Proof.
  intros Ht Hok.
  edestruct (wizard_step_ok (u "skills")
               (PList (map PStr (stripped_items text))))
    as (c' & E & Hrest); [exact Hok|].
  exists c'. eexists. split; [|exact Hrest].
  unfold process_skills, text_of. rewrite Ht. exact E.
Qed.

(** [process_goals] up to the reply: the profile is built from the
    collected data and handed to the store. *)
Lemma process_goals_run `{Platform} (upd : Update) (text : str) (c : Chat) :
  update_text upd = Some text
  -> let profile :=
       wizard_profile upd (fsm_data c) (nonempty_stripped_items text)
                      (clock (store c)) in
     let saved := save_user_profile profile (store c) in
     let reply :=
       if match fst saved with Ret true => true | _ => false end
       then send_message profile_saved_text
              (Some [ [ (u "🎯 Получить рекомендацию", u "get_recommendation") ];
                      [ (u "👀 Посмотреть профиль", u "view_profile") ];
                      [ (u "🏠 Главное меню", u "main_menu") ] ])
              markdown
       else send_message profile_save_failed_text (Some create_main_menu) None in
     (exists ok, fst saved = Ret ok)
     /\ process_goals upd c
        = (api reply ;;~ clear_state) (with_store c (snd saved)).
Proof.
  intros Ht profile saved reply.
  assert (exists ok, fst saved = Ret ok) as [ok Hok].
  { subst saved. unfold save_user_profile, try_except, bind, ret,
      insert_or_replace_profile.
    destruct (sqlite_connect (store c)) as [[[]|e] w1]; cbn [fst]; eauto. }
  split; [eauto|].
  unfold process_goals, text_of. rewrite Ht.
  unfold h_bind at 1. unfold h_lift.
  unfold h_bind at 1. unfold get_data.
  unfold h_bind at 1. unfold in_store at 1. unfold now at 1.
  unfold h_bind at 1. unfold in_store at 1.
  cbn [store with_store].
  change (save_user_profile
            (wizard_profile upd (fsm_data c) (nonempty_stripped_items text)
               (clock (store c))) (store c)) with saved.
  subst reply. destruct saved as [r w']. cbn [fst snd] in *. subst r.
  destruct ok; reflexivity.
Qed.

Lemma collected_profile (upd : Update) (d : list (str * pyval))
  (b : pyval) (i s : pyval) (goals : list str) (now_iso : str) :
  wizard_profile upd
    (dict_update (dict_update (dict_update d (u "background") b)
                              (u "interests") i) (u "skills") s)
    goals now_iso
  = {| user_id := from_id upd;
       username := display_name upd;
       background := PDict [ (u "description", b) ];
       interests := i;
       technical_skills := s;
       career_goals := PList (map PStr goals);
       preferred_program := None;
       profile_created_at := now_iso;
       profile_updated_at := now_iso |}.
Proof.
  unfold wizard_profile. rewrite dict_get_updated.
  rewrite (dict_get_other _ (u "skills") (u "interests")) by reflexivity.
  rewrite dict_get_updated.
  rewrite (dict_get_other _ (u "skills") (u "background")) by reflexivity.
  rewrite (dict_get_other _ (u "interests") (u "background")) by reflexivity.
  rewrite dict_get_updated. reflexivity.
Qed.

(** ** The profile wizard from the first answer to the saved profile *)

Lemma wizard_run `{Platform} (ub ui us ug : Update)
  (b i s g : str) (c : Chat) :
  update_text ub = Some b
  -> update_text ui = Some i
  -> update_text us = Some s
  -> update_text ug = Some g
  -> telegram_ok c
  -> no_faults (store c)
  -> profile_json_roundtrips (answered_profile ug b i s g (clock (store c)))
  -> let c' := after_wizard ub ui us ug c in
     telegram_ok c'
     /\ no_faults (store c')
     /\ fsm_state c' = no_state
     /\ fsm_data c' = []
     /\ fst (get_user_profile (from_id ug) (store c'))
        = Ret (Some (answered_profile ug b i s g (clock (store c))))
     /\ (forall uid, uid <> from_id ug
                     -> fst (get_user_profile uid (store c'))
                        = fst (get_user_profile uid (store c)))
     /\ exists q1 q2 q3,
          api_calls c'
          = api_calls c
            ++ [ send_message q1 None None;
                 send_message q2 None None;
                 send_message q3 None None;
                 send_message profile_saved_text
                   (Some [ [ (u "🎯 Получить рекомендацию", u "get_recommendation") ];
                           [ (u "👀 Посмотреть профиль", u "view_profile") ];
                           [ (u "🏠 Главное меню", u "main_menu") ] ])
                   markdown ].
Proof.
  intros Hb Hi Hs Hg Hok Hnf Hjson. unfold after_wizard.
  destruct (process_background_ok ub c Hok)
    as (c1 & q1 & E1 & S1 & _ & D1 & A1 & T1).
  rewrite E1. cbn [snd].
  destruct (process_interests_ok ui i c1 Hi T1)
    as (c2 & q2 & E2 & S2 & _ & D2 & A2 & T2).
  rewrite E2. cbn [snd].
  destruct (process_skills_ok us s c2 Hs T2)
    as (c3 & q3 & E3 & S3 & _ & D3 & A3 & T3).
  rewrite E3. cbn [snd].
  destruct (process_goals_run ug g c3 Hg) as (_ & Erun). rewrite Erun.
  clear Erun E1 E2 E3.
  rewrite D3, D2, D1, Hb. cbn [text_value]. rewrite collected_profile.
  assert (store c3 = store c) as Sc by congruence. rewrite Sc.
  change {| user_id := from_id ug; username := display_name ug;
            background := PDict [(u "description", PStr b)];
            interests := PList (map PStr (stripped_items i));
            technical_skills := PList (map PStr (stripped_items s));
            career_goals := PList (map PStr (nonempty_stripped_items g));
            preferred_program := None;
            profile_created_at := clock (store c);
            profile_updated_at := clock (store c) |}
    with (answered_profile ug b i s g (clock (store c))).
  set (p := answered_profile ug b i s g (clock (store c))) in *.
  destruct (save_user_profile_once (store c) p Hnf Hjson)
    as (Hsaved & Hnf' & Hget & Hother).
  rewrite Hsaved.
  set (w' := snd (save_user_profile p (store c))) in *.
  destruct (api_ok (send_message profile_saved_text
                      (Some [ [ (u "🎯 Получить рекомендацию", u "get_recommendation") ];
                              [ (u "👀 Посмотреть профиль", u "view_profile") ];
                              [ (u "🏠 Главное меню", u "main_menu") ] ])
                      markdown) (with_store c3 w') T3)
    as (c4 & E4 & S4 & _ & _ & A4 & T4).
  unfold h_bind. rewrite E4. unfold clear_state. cbn [snd fsm_state fsm_data
    with_fsm store api_calls].
  split; [exact T4|].
  split; [rewrite S4; exact Hnf'|].
  split; [reflexivity|]. split; [reflexivity|].
  rewrite S4. cbn [store with_store].
  split; [exact Hget|]. split; [exact Hother|].
  exists q1, q2, q3. rewrite A4. cbn [api_calls with_store].
  rewrite A3, A2, A1. rewrite <- !app_assoc. reflexivity.
Qed.


(** X16. The four steps of the profile wizard, run one after the other on
    text messages while Telegram and SQLite work: whatever the FSM context
    held before, the chat ends with the state cleared and an empty
    context, four messages sent (three prompts and the confirmation), and
    the store returns for the sender of the last answer the profile made of
    exactly the four answers: the background under "description", the
    interests and skills split at commas and stripped, the non-blank goals,
    no preferred program, and one timestamp for both dates. *)
Theorem wizard_saves_the_answers `{Platform} (ub ui us ug : Update)
  (b i s g : str) (c : Chat) :
  update_text ub = Some b
  -> update_text ui = Some i
  -> update_text us = Some s
  -> update_text ug = Some g
  -> telegram_ok c
  -> no_faults (store c)
  -> profile_json_roundtrips (answered_profile ug b i s g (clock (store c)))
  -> let c' := after_wizard ub ui us ug c in
     fsm_state c' = no_state
     /\ fsm_data c' = []
     /\ fst (get_user_profile (from_id ug) (store c'))
        = Ret (Some (answered_profile ug b i s g (clock (store c))))
     /\ (forall uid, uid <> from_id ug
                     -> fst (get_user_profile uid (store c'))
                        = fst (get_user_profile uid (store c)))
     /\ exists q1 q2 q3,
          api_calls c'
          = api_calls c
            ++ [ send_message q1 None None;
                 send_message q2 None None;
                 send_message q3 None None;
                 send_message profile_saved_text
                   (Some [ [ (u "🎯 Получить рекомендацию", u "get_recommendation") ];
                           [ (u "👀 Посмотреть профиль", u "view_profile") ];
                           [ (u "🏠 Главное меню", u "main_menu") ] ])
                   markdown ].
Proof.
  intros Hb Hi Hs Hg Hok Hnf Hjson.
  destruct (wizard_run ub ui us ug b i s g c Hb Hi Hs Hg Hok Hnf Hjson)
    as (_ & _ & Hrest).
  exact Hrest.
Qed.

Lemma wizard_saves_the_answers_witness :
  let P := Reference.mock_platform in
  let c := new_chat (Reference.empty_world (u "2025-01-01T12:00:00")) [] in
  let ub := text_update (u "Бакалавр по информатике") in
  let ui := text_update (u "машинное обучение, NLP") in
  let us := text_update (u "Python,  SQL ,") in
  let ug := text_update (u "ML Engineer, , Data Scientist") in
  let p := answered_profile ug (u "Бакалавр по информатике")
             (u "машинное обучение, NLP") (u "Python,  SQL ,")
             (u "ML Engineer, , Data Scientist") (u "2025-01-01T12:00:00") in
  let c' := @after_wizard P ub ui us ug c in
  telegram_ok c
  /\ no_faults (store c)
  /\ @profile_json_roundtrips P p
  /\ technical_skills p = PList [PStr (u "Python"); PStr (u "SQL"); PStr []]
  /\ career_goals p = PList [PStr (u "ML Engineer"); PStr (u "Data Scientist")]
  /\ fsm_state c' = no_state
  /\ fsm_data c' = []
  /\ fst (@get_user_profile P 12345 (store c')) = Ret (Some p).
Proof.
  intros P c ub ui us ug p c'.
  assert (telegram_ok c) as Hok by (intros b []).
  assert (no_faults (store c)) as Hnf by (intros b []).
  assert (@profile_json_roundtrips P p) as Hjson
    by (repeat apply conj; try (vm_compute; reflexivity);
        vm_compute; discriminate).
  destruct (@wizard_saves_the_answers P ub ui us ug _ _ _ _ c
              eq_refl eq_refl eq_refl eq_refl Hok Hnf Hjson)
    as (Hstate & Hdata & Hget & _).
  refine (conj Hok (conj Hnf (conj Hjson (conj _ (conj _
            (conj Hstate (conj Hdata Hget))))))).
  - vm_compute. reflexivity.
  - vm_compute. reflexivity.
Defined.

(** ** [process_goals] when something fails *)

Lemma api_fails (call : ApiCall) (c : Chat) :
  hd false (telegram_faults c) = true
  -> api call c
     = (Failed TelegramAPIError,
        with_api c (api_calls c) (tl (telegram_faults c))).
Proof.
  intros Hfault. unfold api.
  destruct (telegram_faults c) as [|[|] rest]; try discriminate Hfault.
  reflexivity.
Qed.

Lemma save_user_profile_fails `{Platform} (p : UserProfile) (w : World) :
  hd false (sqlite_faults w) = true
  -> exists w', save_user_profile p w = (Ret false, w') /\ one_connect w w'.
Proof.
  intros Hfault. destruct (sqlite_connect_fails w Hfault) as (w' & E & F).
  exists w'. split; [|exact F].
  unfold save_user_profile, try_except, bind, ret. rewrite E. reflexivity.
Qed.

(** X17. The last step of the wizard when something fails.  (a) When the
    SQLite block of the save fails, the handler tells the user that saving
    failed, with the main menu, and still clears the state and the collected
    answers; no table has changed.  (b) When the save went through but the
    confirmation cannot be sent, the handler ends with the Telegram error
    before [state.clear()]: the profile is stored, and the chat stays in
    the state and with the answers it had.  (c) On an update without text
    the handler ends with [AttributeError] before anything is read or
    written. *)
Theorem process_goals_failures `{Platform} (upd : Update) (c : Chat) :
  (forall text,
      update_text upd = Some text
      -> hd false (sqlite_faults (store c)) = true
      -> telegram_ok c
      -> exists c',
           process_goals upd c = (Done tt, c')
           /\ one_connect (store c) (store c')
           /\ fsm_state c' = no_state
           /\ fsm_data c' = []
           /\ api_calls c'
              = api_calls c
                ++ [send_message profile_save_failed_text
                      (Some create_main_menu) None])
  /\ (forall text,
         update_text upd = Some text
         -> no_faults (store c)
         -> hd false (telegram_faults c) = true
         -> exists c',
              process_goals upd c = (Failed TelegramAPIError, c')
              /\ store c'
                 = snd (save_user_profile
                          (wizard_profile upd (fsm_data c)
                             (nonempty_stripped_items text)
                             (clock (store c)))
                          (store c))
              /\ In (from_id upd)
                    (map u_user_id (user_profiles_table (store c')))
              /\ fsm_state c' = fsm_state c
              /\ fsm_data c' = fsm_data c
              /\ api_calls c' = api_calls c)
  /\ (update_text upd = None
      -> process_goals upd c = (Failed (python_exn AttributeError), c)).
Proof.
  split; [|split].
  - intros text Ht Hfault Hok.
    destruct (process_goals_run upd text c Ht) as (_ & Erun). rewrite Erun.
    destruct (save_user_profile_fails
                (wizard_profile upd (fsm_data c)
                   (nonempty_stripped_items text) (clock (store c)))
                (store c) Hfault) as (w' & E & F).
    rewrite E. cbn [fst snd].
    destruct (api_ok (send_message profile_save_failed_text
                        (Some create_main_menu) None)
                (with_store c w') Hok) as (c1 & E1 & S1 & _ & _ & A1 & _).
    unfold h_bind. rewrite E1. unfold clear_state. eexists.
    split; [reflexivity|]. cbn [store fsm_state fsm_data api_calls with_fsm].
    rewrite S1, A1. cbn [store api_calls with_store].
    repeat split; apply F.
  - intros text Ht Hnf Hfault.
    destruct (process_goals_run upd text c Ht) as (_ & Erun). rewrite Erun.
    destruct (save_user_profile_ok
                (wizard_profile upd (fsm_data c)
                   (nonempty_stripped_items text) (clock (store c)))
                (store c) Hnf) as (w' & E & _ & Htable).
    rewrite E. cbn [fst snd]. unfold h_bind.
    rewrite api_fails by exact Hfault. eexists. split; [reflexivity|].
    cbn [store fsm_state fsm_data api_calls with_api with_store].
    repeat split. rewrite Htable, map_app. apply in_or_app. right.
    left. reflexivity.
  - intros Ht. unfold process_goals, text_of. rewrite Ht. reflexivity.
Qed.

Lemma process_goals_failures_witness :
  let P := Reference.mock_platform in
  let w := with_sqlite_faults
             (Reference.empty_world (u "2025-01-01T12:00:00")) [true] in
  let c := {| store := w; fsm_state := waiting_for_goals;
              fsm_data := [ (u "background", PStr (u "Бакалавр")) ];
              api_calls := []; telegram_faults := [] |} in
  let upd := text_update (u "ML Engineer") in
  let c' := snd (@process_goals P upd c) in
  hd false (sqlite_faults (store c)) = true
  /\ telegram_ok c
  /\ fsm_state c' = no_state
  /\ fsm_data c' = []
  /\ user_profiles_table (store c') = []
  /\ api_calls c'
     = [send_message profile_save_failed_text (Some create_main_menu) None].
Proof.
  intros P w c upd c'.
  assert (hd false (sqlite_faults (store c)) = true) as Hfault
    by reflexivity.
  assert (telegram_ok c) as Hok by (intros b []).
  destruct (proj1 (@process_goals_failures P upd c) _ eq_refl Hfault Hok)
    as (c1 & E & [(_ & _ & T & _) _] & S & D & A).
  subst c'. rewrite E. cbn [snd].
  exact (conj Hfault (conj Hok (conj S (conj D (conj T A))))).
Defined.

(** ** Questions in free text *)

Lemma get_response_of_returns `{Platform} (text : option str) (uid : Z)
  (w : World) :
  exists answer, fst (get_response_of text uid w) = Ret answer.
Proof.
  destruct text as [question|]; cbn [get_response_of].
  - destruct (try_except_absorbs (get_response_body question uid)
                apology_message w) as (s & w' & E & _).
    exists s. unfold get_response. rewrite E. reflexivity.
  - exists apology_message. reflexivity.
Qed.

Lemma api_next (call : ApiCall) (c : Chat) (b : bool) (rest : list bool) :
  telegram_faults c = b :: rest
  -> api call c
     = if b then (Failed TelegramAPIError, with_api c (api_calls c) rest)
       else (Done tt, with_api c (api_calls c ++ [call]) rest).
Proof.
  intros F. unfold api. rewrite F. destruct b; reflexivity.
Qed.

(** The [try] block shared by [process_question] and
    [handle_other_messages], with its handler sending [fallback]. *)
Lemma answer_block `{Platform} (upd : Update) (fallback : ApiCall) (c : Chat) :
  let run := get_response_of (update_text upd) (from_id upd) (store c) in
  forall answer,
    fst run = Ret answer
    -> h_try
         (ai_response <~ in_store
                           (get_response_of (update_text upd) (from_id upd)) ;;
          api (send_message ai_response (Some question_keyboard) markdown))
         (api fallback) c
       = h_try (api (send_message answer (Some question_keyboard) markdown))
               (api fallback) (with_store c (snd run)).
Proof.
  intros run answer Hrun. subst run. unfold h_try, h_bind, in_store.
  destruct (get_response_of (update_text upd) (from_id upd) (store c))
    as [r w']. cbn [fst snd] in *. subst r. reflexivity.
Qed.

Lemma h_bind_run {A B} (m : H A) (k : A -> H B) (c : Chat) :
  h_bind m k c
  = match m c with
    | (Done a, c') => k a c'
    | (Failed e, c') => (Failed e, c')
    end.
Proof. reflexivity. Qed.

(** X18. A question in free text, through [process_question] (after "ask
    a question") or the fallback handler [handle_other_messages].  The
    assistant always returns a text, and: (a) while Telegram works, the
    typing indicator and then exactly that text are sent, with the keyboard
    of the answers; [process_question] clears the state, the fallback
    handler leaves state and context alone.  (b) When the typing indicator
    cannot be sent, the handler ends with the Telegram error before the
    assistant is called: the store is untouched and nothing is sent.
    (c) When the answer cannot be sent, the apology of the handler is sent
    instead, although the assistant has run and what it did to the store (the
    logged exchange) stays. *)
Theorem free_text_questions `{Platform} (upd : Update) (c : Chat) :
  let run := get_response_of (update_text upd) (from_id upd) (store c) in
  exists answer,
    fst run = Ret answer
    /\ (telegram_ok c
        -> (exists c',
              process_question upd c = (Done tt, c')
              /\ store c' = snd run
              /\ fsm_state c' = no_state /\ fsm_data c' = []
              /\ api_calls c' = api_calls c ++ [typing; answer_reply answer])
           /\ (exists c',
                 handle_other_messages upd c = (Done tt, c')
                 /\ store c' = snd run
                 /\ fsm_state c' = fsm_state c /\ fsm_data c' = fsm_data c
                 /\ api_calls c'
                    = api_calls c ++ [typing; answer_reply answer]))
    /\ (hd false (telegram_faults c) = true
        -> (exists c',
              process_question upd c = (Failed TelegramAPIError, c')
              /\ store c' = store c
              /\ fsm_state c' = fsm_state c /\ fsm_data c' = fsm_data c
              /\ api_calls c' = api_calls c)
           /\ (exists c',
                 handle_other_messages upd c = (Failed TelegramAPIError, c')
                 /\ store c' = store c
                 /\ fsm_state c' = fsm_state c /\ fsm_data c' = fsm_data c
                 /\ api_calls c' = api_calls c))
    /\ (forall rest,
           telegram_faults c = false :: true :: false :: rest
           -> (exists c',
                 process_question upd c = (Done tt, c')
                 /\ store c' = snd run
                 /\ fsm_state c' = no_state /\ fsm_data c' = []
                 /\ api_calls c'
                    = api_calls c ++ [typing; question_failed_reply])
              /\ (exists c',
                    handle_other_messages upd c = (Done tt, c')
                    /\ store c' = snd run
                    /\ fsm_state c' = fsm_state c /\ fsm_data c' = fsm_data c
                    /\ api_calls c'
                       = api_calls c ++ [typing; message_failed_reply])).
Proof.
  intros run.
  destruct (get_response_of_returns (update_text upd) (from_id upd) (store c))
    as (answer & Hrun).
  exists answer. split; [exact Hrun|].
  pose proof (fun fallback c0 =>
                answer_block upd fallback c0) as Hblock.
  split; [|split].
  - intros Hok.
    destruct (api_ok typing c Hok) as (c1 & E1 & S1 & St1 & D1 & A1 & T1).
    assert (fst (get_response_of (update_text upd) (from_id upd) (store c1))
            = Ret answer) as Hrun1 by (rewrite S1; exact Hrun).
    destruct (api_ok (answer_reply answer)
                (with_store c1
                   (snd (get_response_of (update_text upd) (from_id upd)
                           (store c1)))) T1)
      as (c2 & E2 & S2 & St2 & D2 & A2 & _).
    split.
    + unfold process_question. rewrite h_bind_run.
      change (api (send_chat_action (u "typing")) c) with (api typing c).
      rewrite E1. rewrite h_bind_run.
      rewrite (Hblock _ c1 answer Hrun1).
      unfold h_try. unfold answer_reply in E2. rewrite E2.
      unfold clear_state. eexists. split; [reflexivity|].
      cbn [store fsm_state fsm_data api_calls with_fsm].
      rewrite S2, A2. cbn [store api_calls with_store]. rewrite S1, A1.
      rewrite <- app_assoc. repeat split.
    + unfold handle_other_messages. rewrite h_bind_run.
      change (api (send_chat_action (u "typing")) c) with (api typing c).
      rewrite E1.
      rewrite (Hblock _ c1 answer Hrun1).
      unfold h_try. unfold answer_reply in E2. rewrite E2.
      eexists. split; [reflexivity|].
      rewrite S2, St2, D2, A2. cbn [store fsm_state fsm_data api_calls
        with_store]. rewrite S1, St1, D1, A1.
      rewrite <- app_assoc. repeat split.
  - intros Hfault. split.
    + unfold process_question. rewrite h_bind_run.
      rewrite api_fails by exact Hfault. eexists.
      split; [reflexivity|]. repeat split.
    + unfold handle_other_messages. rewrite h_bind_run.
      rewrite api_fails by exact Hfault. eexists.
      split; [reflexivity|]. repeat split.
  - intros rest F.
    set (c1 := with_api c (api_calls c ++ [typing]) (true :: false :: rest)).
    assert (api typing c = (Done tt, c1)) as E1
        by (rewrite (api_next typing c false _ F); reflexivity).
    assert (fst (get_response_of (update_text upd) (from_id upd) (store c1))
            = Ret answer) as Hrun1 by exact Hrun.
    split.
    + unfold process_question. rewrite h_bind_run.
      change (api (send_chat_action (u "typing")) c) with (api typing c).
      rewrite E1. rewrite h_bind_run.
      rewrite (Hblock _ c1 answer Hrun1).
      unfold h_try, api. subst c1.
      cbn [telegram_faults with_store with_api api_calls].
      unfold clear_state. eexists. split; [reflexivity|].
      cbn [store fsm_state fsm_data api_calls with_fsm with_api with_store].
      rewrite <- app_assoc. repeat split.
    + unfold handle_other_messages. rewrite h_bind_run.
      change (api (send_chat_action (u "typing")) c) with (api typing c).
      rewrite E1.
      rewrite (Hblock _ c1 answer Hrun1).
      unfold h_try, api. subst c1.
      cbn [telegram_faults with_store with_api api_calls].
      eexists. split; [reflexivity|].
      cbn [store fsm_state fsm_data api_calls with_fsm with_api with_store].
      rewrite <- app_assoc. repeat split.
Qed.

Lemma free_text_questions_witness :
  let P := Reference.mock_platform in
  let c := {| store := Reference.empty_world (u "2025-01-01T12:00:00");
              fsm_state := waiting_for_question; fsm_data := [];
              api_calls := []; telegram_faults := [false; true; false] |} in
  let upd := text_update (u "Какие дисциплины в программе ИИ?") in
  let c' := snd (@process_question P upd c) in
  telegram_faults c = [false; true; false]
  /\ fsm_state c' = no_state
  /\ api_calls c' = [typing; question_failed_reply]
  /\ List.length (conversations_table (store c')) = 1%nat.
Proof.
  intros P c upd c'.
  destruct (@free_text_questions P upd c) as (answer & _ & _ & _ & Hc).
  destruct (Hc [] eq_refl) as ((c1 & E & S & St & _ & A) & _).
  subst c'. rewrite E. cbn [snd].
  refine (conj eq_refl (conj St (conj A _))).
  rewrite S. vm_compute. reflexivity.
Defined.

(** ** Rules for the handlers *)

Lemma triple_ret {A} (P : Chat -> Prop) (a : A) (E : Chat -> Prop) :
  triple P (h_ret a) (fun _ => P) E.
Proof. intros c Hc. exact Hc. Qed.

Lemma triple_bind {A B} (P : Chat -> Prop) (m : H A) (k : A -> H B)
  (Qm : A -> Chat -> Prop) (Q : B -> Chat -> Prop) (E : Chat -> Prop) :
  triple P m Qm E
  -> (forall a, triple (Qm a) (k a) Q E)
  -> triple P (h_bind m k) Q E.
Proof.
  intros Hm Hk c Hc. unfold h_bind. specialize (Hm c Hc).
  destruct (m c) as [[a|e] c1]; [exact (Hk a c1 Hm) | exact Hm].
Qed.

Lemma triple_try {A} (P : Chat -> Prop) (body handler : H A)
  (Q : A -> Chat -> Prop) (Eb E : Chat -> Prop) :
  triple P body Q Eb
  -> triple Eb handler Q E
  -> triple P (h_try body handler) Q E.
Proof.
  intros Hb Hh c Hc. unfold h_try. specialize (Hb c Hc).
  destruct (body c) as [[a|e] c1]; [exact Hb | exact (Hh c1 Hb)].
Qed.

Lemma triple_weaken {A} (P P' : Chat -> Prop) (m : H A)
  (Q Q' : A -> Chat -> Prop) (E E' : Chat -> Prop) :
  triple P' m Q' E'
  -> (forall c, P c -> P' c)
  -> (forall a c, Q' a c -> Q a c)
  -> (forall c, E' c -> E c)
  -> triple P m Q E.
Proof.
  intros Hm HP HQ HE c Hc. specialize (Hm c (HP c Hc)).
  destruct (m c) as [[a|e] c1]; auto.
Qed.

(** A property that looks at the store and the FSM context only is
    untouched by a call to the Bot API. *)
Lemma triple_api (P : Chat -> Prop) (call : ApiCall) :
  (forall c calls faults, P c -> P (with_api c calls faults))
  -> triple P (api call) (fun _ => P) P.
Proof.
  intros Hstable c Hc. unfold api.
  destruct (telegram_faults c) as [|[|] rest]; apply Hstable; exact Hc.
Qed.

Lemma triple_lift {A} (P : Chat -> Prop) (r : res A) :
  triple P (h_lift r) (fun _ => P) P.
Proof. intros c Hc. unfold h_lift. destruct r; exact Hc. Qed.

Lemma triple_in_store {A} (P : Chat -> Prop) (m : M A) :
  (forall c, P c -> P (with_store c (snd (m (store c)))))
  -> triple P (in_store m) (fun _ => P) P.
Proof.
  intros Hm c Hc. unfold in_store. specialize (Hm c Hc).
  destruct (m (store c)) as [[a|e] w]; exact Hm.
Qed.

Lemma preserves_bind {A B} (P : Chat -> Prop) (m : H A) (k : A -> H B) :
  preserves P m -> (forall a, preserves P (k a)) -> preserves P (h_bind m k).
Proof. intros Hm Hk. exact (triple_bind P m k _ _ P Hm Hk). Qed.

Lemma preserves_try {A} (P : Chat -> Prop) (body handler : H A) :
  preserves P body -> preserves P handler -> preserves P (h_try body handler).
Proof. intros Hb Hh. exact (triple_try P body handler _ P P Hb Hh). Qed.

Lemma preserves_lift {A} (P : Chat -> Prop) (r : res A) :
  preserves P (h_lift r).
Proof. exact (triple_lift P r). Qed.

Lemma preserves_get_data (P : Chat -> Prop) : preserves P get_data.
Proof. intros c Hc. exact Hc. Qed.

Lemma preserves_snd {A} (P : Chat -> Prop) (m : H A) (c : Chat) :
  preserves P m -> P c -> P (snd (m c)).
Proof.
  intros Hm Hc. specialize (Hm c Hc). destruct (m c) as [[a|e] c1]; exact Hm.
Qed.

(** *** Handlers and a property of the store *)

Lemma store_api (S : World -> Prop) (call : ApiCall) :
  preserves (on_store S) (api call).
Proof. apply triple_api. intros c calls faults Hc. exact Hc. Qed.

Lemma store_set_state (S : World -> Prop) (s : FsmState) :
  preserves (on_store S) (set_state s).
Proof. intros c Hc. exact Hc. Qed.

Lemma store_update_data (S : World -> Prop) (key : str) (v : pyval) :
  preserves (on_store S) (update_data key v).
Proof. intros c Hc. exact Hc. Qed.

Lemma store_clear_state (S : World -> Prop) :
  preserves (on_store S) clear_state.
Proof. intros c Hc. exact Hc. Qed.

Lemma store_in_store {A} (S : World -> Prop) (m : M A) :
  (forall w, S w -> S (snd (m w))) -> preserves (on_store S) (in_store m).
Proof.
  intros Hm. apply triple_in_store. intros c Hc. exact (Hm (store c) Hc).
Qed.

(** *** Handlers and a property of the FSM context *)

Lemma fsm_api (F : FsmState -> list (str * pyval) -> Prop) (call : ApiCall) :
  preserves (on_fsm F) (api call).
Proof. apply triple_api. intros c calls faults Hc. exact Hc. Qed.

Lemma fsm_in_store {A} (F : FsmState -> list (str * pyval) -> Prop)
  (m : M A) :
  preserves (on_fsm F) (in_store m).
Proof. apply triple_in_store. intros c Hc. exact Hc. Qed.

(** Sequences of steps that keep a property of the store, or of the FSM
    context. *)
Ltac keeps_store :=
  repeat
    match goal with
    | |- preserves _ (h_bind _ _) => apply preserves_bind; [|intros ?]
    | |- preserves _ (h_try _ _) => apply preserves_try
    | |- preserves _ (api _) => apply store_api
    | |- preserves _ (set_state _) => apply store_set_state
    | |- preserves _ (update_data _ _) => apply store_update_data
    | |- preserves _ clear_state => apply store_clear_state
    | |- preserves _ (h_lift _) => apply preserves_lift
    | |- preserves _ get_data => apply preserves_get_data
    end.

Ltac keeps_fsm :=
  repeat
    match goal with
    | |- preserves _ (h_bind _ _) => apply preserves_bind; [|intros ?]
    | |- preserves _ (h_try _ _) => apply preserves_try
    | |- preserves _ (api _) => apply fsm_api
    | |- preserves _ (in_store _) => apply fsm_in_store
    | |- preserves _ (h_lift _) => apply preserves_lift
    | |- preserves _ get_data => apply preserves_get_data
    end.

(** *** What the methods called by the handlers do to the tables *)

Lemma same_tables_trans (w1 w2 w3 : World) :
  same_tables w1 w2 -> same_tables w2 w3 -> same_tables w1 w3.
Proof.
  intros (A1 & A2 & A3 & A4 & A5) (B1 & B2 & B3 & B4 & B5).
  repeat split; congruence.
Qed.

Lemma one_connect_tables (w w' : World) : one_connect w w' -> same_tables w w'.
Proof.
  intros [(T1 & T2 & T3 & T4 & T5 & _) _]. repeat split; assumption.
Qed.

Lemma get_user_profile_tables `{Platform} (uid : Z) (w0 w : World) :
  same_tables w0 w -> same_tables w0 (snd (get_user_profile uid w)).
Proof.
  intros Hsame. destruct (get_user_profile_absorbs uid w) as (r & w' & E & F).
  rewrite E. exact (same_tables_trans _ _ _ Hsame (one_connect_tables _ _ F)).
Qed.

Lemma reports_tables `{Platform} (w0 w : World) :
  same_tables w0 w
  -> (forall p, same_tables w0 (snd (generate_program_recommendation p w)))
     /\ same_tables w0 (snd (compare_programs w))
     /\ same_tables w0 (snd (generate_admission_guide w)).
Proof.
  intros Hsame. destruct report_shapes as (Hrec & Hcmp & Hguide).
  split; [|split].
  - intros p. unfold generate_program_recommendation. rewrite Hrec.
    exact (same_tables_trans _ _ _ Hsame (proj1 (report_effects _ _ _ _ w))).
  - unfold compare_programs, try_except. rewrite Hcmp.
    exact (same_tables_trans _ _ _ Hsame (proj1 (report_effects _ _ _ _ w))).
  - unfold generate_admission_guide, try_except. rewrite Hguide.
    exact (same_tables_trans _ _ _ Hsame (proj1 (report_effects _ _ _ _ w))).
Qed.

Lemma get_response_of_logs `{Platform} (text : option str) (uid : Z)
  (w0 w : World) :
  let logged w1 :=
    programs_table w1 = programs_table w0
    /\ user_profiles_table w1 = user_profiles_table w0
    /\ exists added,
         conversations_table w1 = conversations_table w0 ++ added
         /\ Forall (fun row => c_user_id row = uid) added in
  logged w -> logged (snd (get_response_of text uid w)).
Proof.
  intros logged (HP & HU & added & HC & Hall).
  destruct text as [question|]; cbn [get_response_of].
  2:{ repeat split; try assumption. exists added. split; assumption. }
  destruct (get_response_changes question uid w) as (P1 & U1 & _ & C1).
  split; [congruence|]. split; [congruence|].
  destruct C1 as [C1 | (id & answer & C1 & _)]; rewrite C1, HC.
  - exists added. split; [reflexivity | exact Hall].
  - exists (added ++ [conversation_row id uid question answer (clock w)]).
    split; [rewrite app_assoc; reflexivity|].
    apply Forall_app. split; [exact Hall|]. repeat constructor.
Qed.

Lemma filter_others_saved (uid : Z) (rows : list ProfileRow)
  (row : ProfileRow) :
  u_user_id row = uid
  -> filter (fun r => negb (u_user_id r =? uid)%Z)
            (filter (fun r => negb (u_user_id r =? uid)%Z) rows ++ [row])
     = filter (fun r => negb (u_user_id r =? uid)%Z) rows.
Proof.
  intros Hrow. rewrite filter_app. simpl. rewrite Hrow, Z.eqb_refl. simpl.
  rewrite app_nil_r.
  induction rows as [|r rows IH]; simpl; [reflexivity|].
  destruct (u_user_id r =? uid)%Z eqn:E; simpl; [exact IH|].
  rewrite E. simpl. rewrite IH. reflexivity.
Qed.

Lemma save_user_profile_others `{Platform} (p : UserProfile) (w0 w : World) :
  let kept w1 :=
    programs_table w1 = programs_table w0
    /\ conversations_table w1 = conversations_table w0
    /\ others_profiles (user_id p) w1 = others_profiles (user_id p) w0 in
  kept w -> kept (snd (save_user_profile p w)).
Proof.
  intros kept (HP & HC & HO).
  unfold save_user_profile, try_except, bind, ret, insert_or_replace_profile.
  destruct (sqlite_connect w) as [[[]|e] w1] eqn:E;
    apply sqlite_connect_frame in E;
    destruct E as [(T1 & _ & T3 & T4 & _) _]; cbn [snd].
  - split; [simpl; congruence|]. split; [simpl; congruence|].
    unfold others_profiles in *. simpl. rewrite T3.
    rewrite filter_others_saved by reflexivity. exact HO.
  - split; [congruence|]. split; [congruence|].
    unfold others_profiles in *. rewrite T3. exact HO.
Qed.

(** ** What the chat layer does to the store *)

(** X19. Whatever update arrives, in whatever chat, and however the
    handler ends (Telegram and SQLite may fail at any call): no handler
    changes the table of programs; only [process_question] and
    [handle_other_messages] add to the conversation log, after the entries
    already there and only entries of the sender of the message; only
    [process_goals] writes a profile, and it leaves the profiles of all
    other users as they were; every other handler leaves the three tables
    as they were. *)
Theorem handlers_and_the_store `{Platform} (r : Routed) (c : Chat) :
  store_effect r c (snd (run_handler r c)).
Proof.
  assert (forall w0, same_tables w0 w0) as Hrefl by (repeat split).
  destruct r as [upd| | |upd| |upd| | |upd| |upd|upd|upd|upd| |upd];
    cbn [store_effect run_handler].
  - (* cmd_start *)
    apply (preserves_snd (on_store (same_tables (store c)))); [|apply Hrefl].
    unfold cmd_start. keeps_store.
    apply store_in_store. intros w. apply get_user_profile_tables.
  - apply (preserves_snd (on_store (same_tables (store c)))); [|apply Hrefl].
    unfold show_main_menu. keeps_store.
  - apply (preserves_snd (on_store (same_tables (store c)))); [|apply Hrefl].
    unfold ask_question_mode. keeps_store.
  - (* process_question *)
    apply (preserves_snd
             (on_store (fun w =>
                programs_table w = programs_table (store c)
                /\ user_profiles_table w = user_profiles_table (store c)
                /\ exists added,
                     conversations_table w
                     = conversations_table (store c) ++ added
                     /\ Forall (fun row => c_user_id row = from_id upd)
                               added))).
    + unfold process_question. keeps_store.
      apply store_in_store. intros w. apply get_response_of_logs.
    + split; [reflexivity|]. split; [reflexivity|]. exists [].
      rewrite app_nil_r. split; [reflexivity | constructor].
  - (* compare_programs *)
    apply (preserves_snd (on_store (same_tables (store c)))); [|apply Hrefl].
    unfold compare_programs_handler. keeps_store.
    apply store_in_store. intros w Hw.
    exact (proj1 (proj2 (reports_tables _ w Hw))).
  - (* get_recommendation *)
    apply (preserves_snd (on_store (same_tables (store c)))); [|apply Hrefl].
    unfold get_recommendation. keeps_store.
    + apply store_in_store. intros w. apply get_user_profile_tables.
    + destruct a as [profile|]; keeps_store.
      apply store_in_store. intros w Hw.
      exact (proj1 (reports_tables _ w Hw) profile).
  - (* admission_guide *)
    apply (preserves_snd (on_store (same_tables (store c)))); [|apply Hrefl].
    unfold admission_guide_handler. keeps_store.
    apply store_in_store. intros w Hw.
    exact (proj2 (proj2 (reports_tables _ w Hw))).
  - apply (preserves_snd (on_store (same_tables (store c)))); [|apply Hrefl].
    unfold user_profile_menu. keeps_store.
  - (* view_profile *)
    apply (preserves_snd (on_store (same_tables (store c)))); [|apply Hrefl].
    unfold view_profile. keeps_store.
    + apply store_in_store. intros w. apply get_user_profile_tables.
    + destruct a as [profile|]; keeps_store.
  - apply (preserves_snd (on_store (same_tables (store c)))); [|apply Hrefl].
    unfold setup_profile. keeps_store.
  - apply (preserves_snd (on_store (same_tables (store c)))); [|apply Hrefl].
    unfold process_background. keeps_store.
  - apply (preserves_snd (on_store (same_tables (store c)))); [|apply Hrefl].
    unfold process_interests. keeps_store.
  - apply (preserves_snd (on_store (same_tables (store c)))); [|apply Hrefl].
    unfold process_skills. keeps_store.
  - (* process_goals *)
    apply (preserves_snd
             (on_store (fun w =>
                programs_table w = programs_table (store c)
                /\ conversations_table w = conversations_table (store c)
                /\ others_profiles (from_id upd) w
                   = others_profiles (from_id upd) (store c)))).
    + unfold process_goals. keeps_store.
      * apply store_in_store. intros w Hw. exact Hw.
      * apply store_in_store. intros w.
        apply (save_user_profile_others
                 (wizard_profile upd a0 (nonempty_stripped_items a) a1)).
      * destruct a2; apply store_api.
    + repeat split.
  - apply (preserves_snd (on_store (same_tables (store c)))); [|apply Hrefl].
    unfold show_help. keeps_store.
  - (* handle_other_messages *)
    apply (preserves_snd
             (on_store (fun w =>
                programs_table w = programs_table (store c)
                /\ user_profiles_table w = user_profiles_table (store c)
                /\ exists added,
                     conversations_table w
                     = conversations_table (store c) ++ added
                     /\ Forall (fun row => c_user_id row = from_id upd)
                               added))).
    + unfold handle_other_messages. keeps_store.
      apply store_in_store. intros w. apply get_response_of_logs.
    + split; [reflexivity|]. split; [reflexivity|]. exists [].
      rewrite app_nil_r. split; [reflexivity | constructor].
Qed.

(** ** The answers collected by the wizard *)

Lemma dict_lookup_update (d : list (str * pyval)) (key other : str)
  (v : pyval) :
  dict_lookup (dict_update d key v) other
  = if str_eqb key other then Some v else dict_lookup d other.
Proof.
  induction d as [|[k old] d IH]; simpl; [reflexivity|].
  destruct (str_eqb k key) eqn:E; simpl.
  - apply str_eqb_eq in E. subst k.
    destruct (str_eqb key other); reflexivity.
  - rewrite IH. destruct (str_eqb k other) eqn:E1; [|reflexivity].
    destruct (str_eqb key other) eqn:E2; [|reflexivity].
    apply str_eqb_eq in E1, E2. subst. rewrite str_eqb_refl in E.
    discriminate E.
Qed.

Lemma has_key_updated (d : list (str * pyval)) (key : str) (v : pyval) :
  has_key (dict_update d key v) key.
Proof.
  exists v. rewrite dict_lookup_update, str_eqb_refl. reflexivity.
Qed.

Lemma has_key_kept (d : list (str * pyval)) (key other : str) (v : pyval) :
  has_key d other -> has_key (dict_update d key v) other.
Proof.
  intros [old Hold]. unfold has_key. rewrite dict_lookup_update.
  destruct (str_eqb key other); eauto.
Qed.

Lemma data_ready_kept (s : FsmState) (d : list (str * pyval)) (key : str)
  (v : pyval) :
  data_ready s d -> data_ready s (dict_update d key v).
Proof.
  destruct s; simpl; intuition auto using has_key_kept.
Qed.

Ltac other_key :=
  match goal with
  | |- context [str_eqb ?a ?b] => change (str_eqb a b) with false; cbv iota
  end.

Lemma data_typed_background (d : list (str * pyval)) (text : option str) :
  data_typed d
  -> data_typed (dict_update d (u "background") (text_value text)).
Proof.
  intros (Hb & Hi & Hs). repeat split; intros v; rewrite dict_lookup_update.
  - rewrite str_eqb_refl. intros E. inversion E.
    destruct text; simpl; [right; eauto | left; reflexivity].
  - other_key. apply Hi.
  - other_key. apply Hs.
Qed.

Lemma data_typed_interests (d : list (str * pyval)) (items : list str) :
  data_typed d
  -> data_typed (dict_update d (u "interests") (PList (map PStr items))).
Proof.
  intros (Hb & Hi & Hs). repeat split; intros v; rewrite dict_lookup_update.
  - other_key. apply Hb.
  - rewrite str_eqb_refl. intros E. inversion E. eauto.
  - other_key. apply Hs.
Qed.

Lemma data_typed_skills (d : list (str * pyval)) (items : list str) :
  data_typed d
  -> data_typed (dict_update d (u "skills") (PList (map PStr items))).
Proof.
  intros (Hb & Hi & Hs). repeat split; intros v; rewrite dict_lookup_update.
  - other_key. apply Hb.
  - other_key. apply Hi.
  - rewrite str_eqb_refl. intros E. inversion E. eauto.
Qed.

Lemma fsm_set_state (F : FsmState -> list (str * pyval) -> Prop)
  (s : FsmState) :
  (forall s0 d, F s0 d -> F s d) -> preserves (on_fsm F) (set_state s).
Proof. intros HF c Hc. exact (HF _ _ Hc). Qed.

Lemma fsm_clear_state (F : FsmState -> list (str * pyval) -> Prop) :
  F no_state [] -> preserves (on_fsm F) clear_state.
Proof. intros HF c Hc. exact HF. Qed.

Lemma wizard_invariant_cleared : wizard_invariant no_state [].
Proof. split; [exact I|]. repeat split; intros v E; discriminate E. Qed.

(** One step of the wizard, however it ends. *)
Lemma wizard_step_invariant (key : str) (v : pyval) (text : str)
  (next : FsmState) (c : Chat) :
  wizard_invariant (fsm_state c) (dict_update (fsm_data c) key v)
  -> wizard_invariant next (dict_update (fsm_data c) key v)
  -> on_fsm wizard_invariant
       (snd ((update_data key v ;;~
              api (send_message text None None) ;;~
              set_state next) c)).
Proof.
  intros Hstay Hnext. unfold h_bind, update_data, api, set_state, on_fsm.
  cbn [telegram_faults with_fsm].
  destruct (telegram_faults c) as [|[|] rest]; cbn; assumption.
Qed.

Lemma handler_keeps_invariant `{Platform} (r : Routed) (c : Chat) :
  (forall s, state_filter r = Some s -> fsm_state c = s)
  -> on_fsm wizard_invariant c
  -> on_fsm wizard_invariant (snd (run_handler r c)).
Proof.
  intros Hfilter Hinv.
  assert (forall s0 d, wizard_invariant s0 d
                       -> wizard_invariant waiting_for_question d) as Hq
      by (intros s0 d [_ Ht]; split; [exact I | exact Ht]).
  assert (forall s0 d, wizard_invariant s0 d
                       -> wizard_invariant waiting_for_background d) as Hb
      by (intros s0 d [_ Ht]; split; [exact I | exact Ht]).
  destruct r as [upd| | |upd| |upd| | |upd| |upd|upd|upd|upd| |upd];
    cbn [run_handler]; cbn [state_filter] in Hfilter.
  - apply preserves_snd; [|exact Hinv]. unfold cmd_start. keeps_fsm.
  - apply preserves_snd; [|exact Hinv]. unfold show_main_menu. keeps_fsm.
  - apply preserves_snd; [|exact Hinv]. unfold ask_question_mode. keeps_fsm.
    apply fsm_set_state. exact Hq.
  - apply preserves_snd; [|exact Hinv]. unfold process_question. keeps_fsm.
    apply fsm_clear_state. exact wizard_invariant_cleared.
  - apply preserves_snd; [|exact Hinv]. unfold compare_programs_handler.
    keeps_fsm.
  - apply preserves_snd; [|exact Hinv]. unfold get_recommendation. keeps_fsm.
    destruct a; keeps_fsm.
  - apply preserves_snd; [|exact Hinv]. unfold admission_guide_handler.
    keeps_fsm.
  - apply preserves_snd; [|exact Hinv]. unfold user_profile_menu. keeps_fsm.
  - apply preserves_snd; [|exact Hinv]. unfold view_profile. keeps_fsm.
    destruct a; keeps_fsm.
  - apply preserves_snd; [|exact Hinv]. unfold setup_profile. keeps_fsm.
    apply fsm_set_state. exact Hb.
  - (* process_background *)
    destruct Hinv as [Hready Htyped]. unfold process_background.
    apply wizard_step_invariant; (split; [|apply data_typed_background;
                                             exact Htyped]).
    + apply data_ready_kept. exact Hready.
    + apply has_key_updated.
  - (* process_interests *)
    specialize (Hfilter _ eq_refl). destruct Hinv as [Hready Htyped].
    unfold process_interests, text_of.
    destruct (update_text upd) as [text|];
      [|split; [exact Hready | exact Htyped]].
    rewrite Hfilter in Hready.
    apply (wizard_step_invariant (u "interests"));
      (split; [|apply data_typed_interests; exact Htyped]).
    + rewrite Hfilter. apply data_ready_kept. exact Hready.
    + split; [apply has_key_kept; exact Hready | apply has_key_updated].
  - (* process_skills *)
    specialize (Hfilter _ eq_refl). destruct Hinv as [Hready Htyped].
    unfold process_skills, text_of.
    destruct (update_text upd) as [text|];
      [|split; [exact Hready | exact Htyped]].
    rewrite Hfilter in Hready. destruct Hready as [Hbg Hint].
    apply (wizard_step_invariant (u "skills"));
      (split; [|apply data_typed_skills; exact Htyped]).
    + rewrite Hfilter. split; apply has_key_kept; assumption.
    + split; [|split]; [apply has_key_kept; exact Hbg
                       | apply has_key_kept; exact Hint
                       | apply has_key_updated].
  - (* process_goals *)
    apply preserves_snd; [|exact Hinv]. unfold process_goals. keeps_fsm.
    + destruct a2; apply fsm_api.
    + apply fsm_clear_state. exact wizard_invariant_cleared.
  - apply preserves_snd; [|exact Hinv]. unfold show_help. keeps_fsm.
  - apply preserves_snd; [|exact Hinv]. unfold handle_other_messages.
    keeps_fsm.
Qed.

Lemma reachable_invariant `{Platform} (c0 c : Chat) :
  on_fsm wizard_invariant c0
  -> reachable c0 c
  -> on_fsm wizard_invariant c.
Proof.
  intros H0' Hreach. induction Hreach as [|c c' _ IH Hstep]; [exact H0'|].
  destruct Hstep as [r c Hfilter].
  exact (handler_keeps_invariant r c Hfilter IH).
Qed.

(** X20. In every chat reachable from a new one, through any sequence of
    updates, handlers that fail midway included: the state of the wizard
    tells which answers are in the FSM context (the background while waiting
    for the interests; also the interests while waiting for the skills; all
    three while waiting for the goals), the stored interests and skills are
    lists of strings and the stored background is a text or [None].  So the
    defaults of the three [user_data.get] of [process_goals] are never used:
    the profile it builds takes the three fields from the answers. *)
Theorem wizard_answers_are_collected `{Platform} (w : World)
  (faults : list bool) (c : Chat) :
  reachable (new_chat w faults) c
  -> wizard_data_ready c
     /\ wizard_data_typed c
     /\ (fsm_state c = waiting_for_goals
         -> exists b i s,
              dict_lookup (fsm_data c) (u "background") = Some b
              /\ dict_lookup (fsm_data c) (u "interests")
                 = Some (PList (map PStr i))
              /\ dict_lookup (fsm_data c) (u "skills")
                 = Some (PList (map PStr s))
              /\ (b = PNone \/ exists text, b = PStr text)
              /\ forall upd goals now_iso,
                   wizard_profile upd (fsm_data c) goals now_iso
                   = {| user_id := from_id upd;
                        username := display_name upd;
                        background := PDict [ (u "description", b) ];
                        interests := PList (map PStr i);
                        technical_skills := PList (map PStr s);
                        career_goals := PList (map PStr goals);
                        preferred_program := None;
                        profile_created_at := now_iso;
                        profile_updated_at := now_iso |}).
Proof.
  intros Hreach.
  destruct (reachable_invariant (new_chat w faults) c
              wizard_invariant_cleared Hreach) as [Hready Htyped].
  split; [exact Hready|]. split; [exact Htyped|].
  intros Hstate. rewrite Hstate in Hready.
  destruct Hready as ((b & Hb) & (vi & Hi) & (vs & Hs)).
  destruct Htyped as (Tb & Ti & Ts).
  destruct (Ti vi Hi) as (i & ->). destruct (Ts vs Hs) as (s & ->).
  exists b, i, s. repeat (split; [assumption|]).
  split; [exact (Tb b Hb)|].
  intros upd goals now_iso. unfold wizard_profile.
  rewrite !dict_get_lookup, Hb, Hi, Hs. reflexivity.
Qed.

Lemma wizard_answers_are_collected_witness :
  let P := Reference.mock_platform in
  let c0 := new_chat (Reference.empty_world (u "2025-01-01T12:00:00"))
                     [false; false; true] in
  let c1 := snd (@run_handler P to_setup_profile c0) in
  let c2 := snd (@run_handler P (to_process_background photo_update) c1) in
  @reachable P c0 c2
  /\ fsm_state c2 = waiting_for_background
  /\ dict_lookup (fsm_data c2) (u "background") = Some PNone
  /\ wizard_data_ready c2
  /\ wizard_data_typed c2.
Proof.
  intros P c0 c1 c2.
  assert (@reachable P c0 c2) as Hreach.
  { apply (@reach_step P c0 c1 c2).
    - apply (@reach_step P c0 c0 c1); [apply reach_start|].
      apply (@handled P to_setup_profile c0). intros s E. discriminate E.
    - apply (@handled P (to_process_background photo_update) c1).
      intros s E. injection E as <-. reflexivity. }
  destruct (@wizard_answers_are_collected P _ _ c2 Hreach)
    as (Hready & Htyped & _).
  refine (conj Hreach (conj _ (conj _ (conj Hready Htyped)))).
  - vm_compute. reflexivity.
  - vm_compute. reflexivity.
Defined.

(** ** Showing the profile *)

Lemma joined_or_unset_strs (items : list str) :
  joined_or_unset (PList (map PStr items)) = Ret (shown_list items).
Proof.
  destruct items as [|item items]; [reflexivity|].
  unfold joined_or_unset. cbn [py_truthy map].
  change (PStr item :: map PStr items) with (map PStr (item :: items)).
  rewrite py_join_strs. reflexivity.
Qed.

Lemma in_store_run {A} (m : M A) (a : A) (c : Chat) :
  fst (m (store c)) = Ret a
  -> in_store m c = (Done a, with_store c (snd (m (store c)))).
Proof.
  intros E. unfold in_store. destruct (m (store c)) as [r w].
  cbn [fst snd] in *. subst r. reflexivity.
Qed.

Lemma view_profile_shows `{Platform} (upd : Update) (p : UserProfile)
  (text : str) (c : Chat) :
  telegram_ok c
  -> fst (get_user_profile (from_id upd) (store c)) = Ret (Some p)
  -> profile_text p = Ret text
  -> exists c',
       view_profile upd c = (Done tt, c')
       /\ api_calls c' = api_calls c ++ profile_shown text
       /\ fsm_state c' = fsm_state c
       /\ fsm_data c' = fsm_data c.
Proof.
  intros Hok Hget Htext. unfold view_profile.
  rewrite h_bind_run, (in_store_run _ _ _ Hget).
  rewrite h_bind_run. unfold h_lift at 1. rewrite Htext.
  set (c1 := with_store c _).
  destruct (api_ok (edit_message_text text (Some create_profile_menu)
                      markdown) c1 Hok)
    as (c2 & E2 & _ & St2 & D2 & A2 & T2).
  rewrite h_bind_run, E2.
  destruct (api_ok answer_callback_query c2 T2)
    as (c3 & E3 & _ & St3 & D3 & A3 & _).
  rewrite E3. exists c3. split; [reflexivity|].
  rewrite A3, A2, St3, St2, D3, D2. unfold profile_shown.
  rewrite <- app_assoc. repeat split.
Qed.

Lemma occurs_framed (la a b rb x l r rest : str) :
  l = la ++ a
  -> r = b ++ rb
  -> occurs_in (a ++ x ++ b) (l ++ x ++ r ++ rest).
Proof.
  intros -> ->. exists la, (rb ++ rest). rewrite <- !app_assoc. reflexivity.
Qed.

Lemma occurs_framed_end (la a b x l r : str) :
  l = la ++ a
  -> r = b
  -> occurs_in (a ++ x ++ b) (l ++ x ++ r).
Proof.
  intros -> ->. exists la, []. rewrite <- !app_assoc, app_nil_r. reflexivity.
Qed.

Lemma profile_text_of_strs (p : UserProfile) (is_ ss gs : list str) :
  interests p = PList (map PStr is_)
  -> technical_skills p = PList (map PStr ss)
  -> career_goals p = PList (map PStr gs)
  -> exists text,
       profile_text p = Ret text
       /\ occurs_in (u "📚 **Интересы:** " ++ shown_list is_ ++ nl) text
       /\ occurs_in (u "💻 **Технические навыки:** " ++ shown_list ss ++ nl)
                    text
       /\ occurs_in (u "🎯 **Карьерные цели:** " ++ shown_list gs ++ nl) text
       /\ occurs_in (u "📅 **Создан:** "
                     ++ date_or_na (profile_created_at p) ++ nl) text
       /\ occurs_in (u "🔄 **Обновлен:** "
                     ++ date_or_na (profile_updated_at p) ++ nl) text.
Proof.
  intros Hi Hs Hg. unfold profile_text.
  rewrite Hi, Hs, Hg, !joined_or_unset_strs. cbn [res_bind].
  eexists. split; [reflexivity|].
  split; [|split; [|split; [|split]]].
  - do 2 apply occurs_in_app_r.
    apply (occurs_framed nl _ _ (u "💻 **Технические навыки:** "));
      vm_compute; reflexivity.
  - do 4 apply occurs_in_app_r.
    apply (occurs_framed nl _ _ (u "🎯 **Карьерные цели:** "));
      vm_compute; reflexivity.
  - do 6 apply occurs_in_app_r.
    apply (occurs_framed nl _ _ (u "📖 **Предпочитаемая программа:** "));
      vm_compute; reflexivity.
  - do 10 apply occurs_in_app_r.
    apply (occurs_framed (nl ++ nl) _ _ (u "🔄 **Обновлен:** "));
      vm_compute; reflexivity.
  - do 12 apply occurs_in_app_r.
    apply (occurs_framed_end nl); vm_compute; reflexivity.
Qed.

(** X21. From the wizard to "view profile".  After the four steps of the
    wizard on text messages, with Telegram and SQLite working, the handler
    [view_profile] of the same user ends normally with two calls (the edited
    message and the answer to the callback), and the text it shows has the
    interests and the skills as the stripped pieces of the answers joined by
    ", ", the goals likewise without the blank pieces (or "не указаны" when
    every piece was blank), and the first ten characters of the clock at the
    time of saving as both dates. *)
Theorem wizard_profile_is_shown `{Platform} (ub ui us ug : Update)
  (b i s g : str) (c : Chat) :
  update_text ub = Some b
  -> update_text ui = Some i
  -> update_text us = Some s
  -> update_text ug = Some g
  -> telegram_ok c
  -> no_faults (store c)
  -> profile_json_roundtrips (answered_profile ug b i s g (clock (store c)))
  -> let c' := after_wizard ub ui us ug c in
     exists text c'',
       view_profile ug c' = (Done tt, c'')
       /\ api_calls c'' = api_calls c' ++ profile_shown text
       /\ fsm_state c'' = no_state
       /\ occurs_in (u "📚 **Интересы:** "
                     ++ shown_list (stripped_items i) ++ nl) text
       /\ occurs_in (u "💻 **Технические навыки:** "
                     ++ shown_list (stripped_items s) ++ nl) text
       /\ occurs_in (u "🎯 **Карьерные цели:** "
                     ++ shown_list (nonempty_stripped_items g) ++ nl) text
       /\ occurs_in (u "📅 **Создан:** "
                     ++ date_or_na (clock (store c)) ++ nl) text
       /\ occurs_in (u "🔄 **Обновлен:** "
                     ++ date_or_na (clock (store c)) ++ nl) text.
Proof.
  intros Hb Hi Hs Hg Hok Hnf Hjson c'.
  destruct (wizard_run ub ui us ug b i s g c Hb Hi Hs Hg Hok Hnf Hjson)
    as (Hok' & _ & Hstate & _ & Hget & _).
  fold c' in Hok', Hstate, Hget.
  destruct (profile_text_of_strs
              (answered_profile ug b i s g (clock (store c)))
              (stripped_items i) (stripped_items s)
              (nonempty_stripped_items g) eq_refl eq_refl eq_refl)
    as (text & Htext & O1 & O2 & O3 & O4 & O5).
  destruct (view_profile_shows ug _ text c' Hok' Hget Htext)
    as (c'' & E & A & St & _).
  exists text, c''. split; [exact E|]. split; [exact A|].
  split; [congruence|].
  exact (conj O1 (conj O2 (conj O3 (conj O4 O5)))).
Qed.

Lemma wizard_profile_is_shown_witness :
  let P := Reference.mock_platform in
  let c := new_chat (Reference.empty_world (u "2025-01-01T12:00:00")) [] in
  let ub := text_update (u "Бакалавр по информатике") in
  let ui := text_update (u "машинное обучение, NLP") in
  let us := text_update (u "Python,  SQL ,") in
  let ug := text_update (u " , ") in
  let p := answered_profile ug (u "Бакалавр по информатике")
             (u "машинное обучение, NLP") (u "Python,  SQL ,")
             (u " , ") (u "2025-01-01T12:00:00") in
  let c' := @after_wizard P ub ui us ug c in
  telegram_ok c
  /\ no_faults (store c)
  /\ @profile_json_roundtrips P p
  /\ exists text c'',
       @view_profile P ug c' = (Done tt, c'')
       /\ occurs_in (u "📚 **Интересы:** машинное обучение, NLP" ++ nl) text
       /\ occurs_in (u "💻 **Технические навыки:** Python, SQL, " ++ nl) text
       /\ occurs_in (u "🎯 **Карьерные цели:** не указаны" ++ nl) text
       /\ occurs_in (u "📅 **Создан:** 2025-01-01" ++ nl) text.
Proof.
  intros P c ub ui us ug p c'.
  assert (telegram_ok c) as Hok by (intros b []).
  assert (no_faults (store c)) as Hnf by (intros b []).
  assert (@profile_json_roundtrips P p) as Hjson
    by (repeat apply conj; try (vm_compute; reflexivity);
        vm_compute; discriminate).
  destruct (@wizard_profile_is_shown P ub ui us ug _ _ _ _ c
              eq_refl eq_refl eq_refl eq_refl Hok Hnf Hjson)
    as (text & c'' & E & _ & _ & O1 & O2 & O3 & O4 & _).
  refine (conj Hok (conj Hnf (conj Hjson _))).
  exists text, c''.
  assert (u "📚 **Интересы:** машинное обучение, NLP" ++ nl
          = u "📚 **Интересы:** "
            ++ shown_list (stripped_items (u "машинное обучение, NLP")) ++ nl)
    as -> by (vm_compute; reflexivity).
  assert (u "💻 **Технические навыки:** Python, SQL, " ++ nl
          = u "💻 **Технические навыки:** "
            ++ shown_list (stripped_items (u "Python,  SQL ,")) ++ nl)
    as -> by (vm_compute; reflexivity).
  assert (u "🎯 **Карьерные цели:** не указаны" ++ nl
          = u "🎯 **Карьерные цели:** "
            ++ shown_list (nonempty_stripped_items (u " , ")) ++ nl)
    as -> by (vm_compute; reflexivity).
  assert (u "📅 **Создан:** 2025-01-01" ++ nl
          = u "📅 **Создан:** "
            ++ date_or_na (clock (store c)) ++ nl)
    as -> by (vm_compute; reflexivity).
  exact (conj E (conj O1 (conj O2 (conj O3 O4)))).
Defined.

(** ** Handlers that look the profile up *)

Lemma get_user_profile_fails `{Platform} (uid : Z) (w : World) :
  hd false (sqlite_faults w) = true
  -> fst (get_user_profile uid w) = Ret None.
Proof.
  intros Hfault. destruct (sqlite_connect_fails w Hfault) as (w' & E & _).
  unfold get_user_profile, try_except, bind, ret. rewrite E. reflexivity.
Qed.

Lemma get_user_profile_model_calls `{Platform} (uid : Z) (w : World) :
  model_calls (snd (get_user_profile uid w)) = model_calls w.
Proof.
  destruct (get_user_profile_absorbs uid w) as (r & w' & E & F).
  rewrite E. destruct F as [(_ & _ & _ & _ & _ & C & _) _]. exact C.
Qed.

(** X22. The three handlers that begin with a profile lookup, while
    Telegram works.  When the lookup gives nothing, [cmd_start] adds the
    hint to set the profile up to its greeting, [get_recommendation] asks
    for the profile and sends no request to the language model, and
    [view_profile] says that the profile is not filled in.  A lookup whose
    SQLite block fails gives nothing, so this is also what the user of a
    stored profile sees then.  When the lookup gives a profile, [cmd_start]
    sends the greeting without the hint. *)
Theorem lookups_without_profile `{Platform} (upd : Update) (c : Chat) :
  (hd false (sqlite_faults (store c)) = true
   -> fst (get_user_profile (from_id upd) (store c)) = Ret None)
  /\ (telegram_ok c
      -> fst (get_user_profile (from_id upd) (store c)) = Ret None
      -> (exists c',
            cmd_start upd c = (Done tt, c')
            /\ api_calls c'
               = api_calls c
                 ++ [send_message
                       (welcome_text (display_name upd) ++ setup_hint)
                       (Some create_main_menu) markdown])
         /\ (exists c' invitation,
               get_recommendation upd c = (Done tt, c')
               /\ api_calls c'
                  = api_calls c
                    ++ [ edit_message_text invitation
                           (Some [ [ (u "✏️ Настроить профиль",
                                      u "setup_profile") ];
                                   [ (u "🏠 Главное меню", u "main_menu") ] ])
                           markdown;
                         answer_callback_query ]
               /\ occurs_in (u "необходимо заполнить профиль") invitation
               /\ model_calls (store c') = model_calls (store c))
         /\ (exists c',
               view_profile upd c = (Done tt, c')
               /\ api_calls c'
                  = api_calls c ++ profile_shown profile_missing_text))
  /\ (forall p,
         telegram_ok c
         -> fst (get_user_profile (from_id upd) (store c)) = Ret (Some p)
         -> exists c',
              cmd_start upd c = (Done tt, c')
              /\ api_calls c'
                 = api_calls c
                   ++ [send_message (welcome_text (display_name upd))
                         (Some create_main_menu) markdown]).
Proof.
  split; [apply get_user_profile_fails|]. split.
  - intros Hok Hget.
    set (c1 := with_store c
                 (snd (get_user_profile (from_id upd) (store c)))).
    assert (telegram_ok c1) as Hok1 by exact Hok.
    split; [|split].
    + unfold cmd_start. cbv zeta.
      rewrite h_bind_run, (in_store_run _ _ _ Hget). fold c1.
      destruct (api_ok (send_message
                          (welcome_text (display_name upd) ++ setup_hint)
                          (Some create_main_menu) markdown) c1 Hok1)
        as (c2 & E2 & _ & _ & _ & A2 & _).
      rewrite E2. exists c2. split; [reflexivity | exact A2].
    + unfold get_recommendation.
      rewrite h_bind_run, (in_store_run _ _ _ Hget). fold c1.
      rewrite h_bind_run.
      match goal with
      | |- context [api (edit_message_text ?t ?k ?m) c1] =>
          destruct (api_ok (edit_message_text t k m) c1 Hok1)
            as (c2 & E2 & S2 & _ & _ & A2 & T2);
          rewrite E2;
          destruct (api_ok answer_callback_query c2 T2)
            as (c3 & E3 & S3 & _ & _ & A3 & _);
          rewrite E3; exists c3, t
      end.
      split; [reflexivity|]. split.
      { rewrite A3, A2, <- app_assoc. reflexivity. }
      split; [apply str_in_spec; vm_compute; reflexivity|].
      rewrite S3, S2. apply get_user_profile_model_calls.
    + unfold view_profile.
      rewrite h_bind_run, (in_store_run _ _ _ Hget). fold c1.
      rewrite h_bind_run.
      destruct (api_ok (edit_message_text profile_missing_text
                          (Some create_profile_menu) markdown) c1 Hok1)
        as (c2 & E2 & _ & _ & _ & A2 & T2).
      rewrite E2.
      destruct (api_ok answer_callback_query c2 T2)
        as (c3 & E3 & _ & _ & _ & A3 & _).
      rewrite E3. exists c3. split; [reflexivity|].
      rewrite A3, A2, <- app_assoc. reflexivity.
  - intros p Hok Hget. unfold cmd_start. cbv zeta.
    rewrite h_bind_run, (in_store_run _ _ _ Hget).
    set (c1 := with_store c _).
    destruct (api_ok (send_message (welcome_text (display_name upd))
                        (Some create_main_menu) markdown) c1 Hok)
      as (c2 & E2 & _ & _ & _ & A2 & _).
    rewrite E2. exists c2. split; [reflexivity | exact A2].
Qed.

Lemma lookups_without_profile_witness :
  let P := Reference.mock_platform in
  let w := with_sqlite_faults
             (snd (@save_user_profile P Reference.sample_user_profile
                     (Reference.empty_world (u "2025-01-01T12:00:00"))))
             [true] in
  let c := new_chat w [] in
  hd false (sqlite_faults (store c)) = true
  /\ telegram_ok c
  /\ map u_user_id (user_profiles_table (store c)) = [from_id photo_update]
  /\ api_calls (snd (@view_profile P photo_update c))
     = profile_shown profile_missing_text.
Proof.
  intros P w c.
  assert (hd false (sqlite_faults (store c)) = true) as Hfault
    by reflexivity.
  assert (telegram_ok c) as Hok by (intros b []).
  destruct (@lookups_without_profile P photo_update c) as (Hnone & Hrun & _).
  destruct (Hrun Hok (Hnone Hfault)) as (_ & _ & c' & E & A).
  rewrite E. cbn [snd].
  refine (conj Hfault (conj Hok (conj _ A))).
  vm_compute. reflexivity.
Defined.

(* ================================================================== *)
(** * Properties of the site parser *)

Lemma save_program_returns `{Platform} (p : Program) (w : World) :
  exists ok, fst (save_program p w) = Ret ok.
Proof.
  unfold save_program, try_except, bind, ret, insert_or_replace_program.
  destruct (sqlite_connect w) as [[[]|e] w1]; cbn [fst]; eauto.
Qed.

(** One round of the loop: the page is requested; if it was parsed, the
    clock is read and the program saved; then the parser sleeps. *)
Lemma parse_and_save_one_run `{Platform} (env : Outside) (url : str)
  (c : Crawl) :
  parse_and_save_one env url c
  = (match time_sleep env (request_delay env) with
     | None => Crawled tt
     | Some e => Crashed (sleep_raised e)
     end,
     match page_data env url with
     | Some d =>
         {| db := snd (save_program
                         (program_of_data d (time_at env (clock_reads c)))
                         (db c));
            clock_reads := S (clock_reads c);
            fetched := fetched c ++ [url] |}
     | None =>
         {| db := db c; clock_reads := clock_reads c;
            fetched := fetched c ++ [url] |}
     end).
Proof.
  unfold parse_and_save_one, parse_program_page, page_data, c_bind,
    fetch_page, c_ret, datetime_now, in_db, sleep.
  destruct (page env url) as [e|]; cbv beta iota;
    cbn [db clock_reads fetched].
  - destruct (save_program_returns
                (program_of_data (data_of url e)
                   (time_at env (clock_reads c))) (db c)) as (ok & Hok).
    destruct (save_program _ (db c)) as [r w'].
    cbn [fst snd] in *. subst r.
    destruct (time_sleep env (request_delay env)); reflexivity.
  - destruct (time_sleep env (request_delay env)); reflexivity.
Qed.

(** The whole run: both rounds when [time.sleep] returns, the first round
    only when it raises. *)
Lemma parse_and_save_programs_run `{Platform} (env : Outside) (w : World) :
  let w1 := match page_data env url_ai with
            | Some d => snd (save_program
                               (program_of_data d (time_at env 0)) w)
            | None => w
            end in
  let w2 := match page_data env url_ai_product with
            | Some d =>
                snd (save_program
                       (program_of_data d
                          (time_at env (reads_before_second env))) w1)
            | None => w1
            end in
  match time_sleep env (request_delay env) with
  | None =>
      fst (parse_and_save_programs env (new_crawl w)) = Crawled tt
      /\ db (snd (parse_and_save_programs env (new_crawl w))) = w2
      /\ fetched (snd (parse_and_save_programs env (new_crawl w)))
         = [url_ai; url_ai_product]
  | Some e =>
      fst (parse_and_save_programs env (new_crawl w))
      = Crashed (sleep_raised e)
      /\ db (snd (parse_and_save_programs env (new_crawl w))) = w1
      /\ fetched (snd (parse_and_save_programs env (new_crawl w)))
         = [url_ai]
  end.
Proof.
  cbv zeta. unfold parse_and_save_programs, reads_before_second.
  cbn [for_urls]. unfold c_bind, c_ret. rewrite parse_and_save_one_run.
  destruct (time_sleep env (request_delay env)) as [e|] eqn:Hsleep.
  - cbv beta iota. cbn [fst snd new_crawl db clock_reads fetched].
    destruct (page_data env url_ai); cbn [db fetched]; repeat split.
  - cbv beta iota. rewrite parse_and_save_one_run, Hsleep.
    cbn [fst snd new_crawl db clock_reads fetched].
    destruct (page_data env url_ai);
      destruct (page_data env url_ai_product);
      cbn [db clock_reads fetched]; repeat split.
Qed.

Lemma save_program_keeps_rest `{Platform} (p : Program) (w : World) :
  let w' := snd (save_program p w) in
  user_profiles_table w' = user_profiles_table w
  /\ conversations_table w' = conversations_table w
  /\ model_calls w' = model_calls w.
Proof.
  unfold save_program, try_except, bind, ret, insert_or_replace_program.
  destruct (sqlite_connect w) as [[[]|e] w1] eqn:E;
    apply sqlite_connect_frame in E;
    destruct E as [(_ & _ & U & C & _ & MC & _) _]; simpl; auto.
Qed.

Lemma save_program_other_name `{Platform} (p : Program) (n : str) (w : World) :
  no_faults w
  -> n <> name p
  -> fst (get_program n (snd (save_program p w))) = fst (get_program n w).
Proof.
  intros Hnf Hneq.
  destruct (save_program_ok p w Hnf) as (w' & E & Hnf' & Htable).
  rewrite E. cbn [snd].
  apply get_program_depends_on_selection; try assumption.
  rewrite Htable. apply filter_other_name; [reflexivity | exact Hneq].
Qed.

Lemma save_program_no_faults `{Platform} (p : Program) (w : World) :
  no_faults w -> no_faults (snd (save_program p w)).
Proof.
  intros Hnf. destruct (save_program_ok p w Hnf) as (w' & E & Hnf' & _).
  rewrite E. exact Hnf'.
Qed.

Lemma page_data_url (env : Outside) (url : str) (d : ProgramData) :
  page_data env url = Some d -> d_url d = url.
Proof.
  unfold page_data. destruct (page env url); [|discriminate].
  intros E. injection E as <-. reflexivity.
Qed.

(** The store after the first round of the loop. *)
Lemma first_round `{Platform} (env : Outside) (w : World) :
  let w1 := match page_data env url_ai with
            | Some d => snd (save_program
                               (program_of_data d (time_at env 0)) w)
            | None => w
            end in
  (user_profiles_table w1 = user_profiles_table w
   /\ conversations_table w1 = conversations_table w
   /\ model_calls w1 = model_calls w)
  /\ (no_faults w
      -> no_faults w1
         /\ (forall n,
                (forall d1, page_data env url_ai = Some d1 -> d_name d1 <> n)
                -> fst (get_program n w1) = fst (get_program n w))
         /\ (forall d1,
                page_data env url_ai = Some d1
                -> json_roundtrips (program_of_data d1 (time_at env 0))
                -> fst (get_program (d_name d1) w1)
                   = Ret (Some (program_of_data d1 (time_at env 0))))).
Proof.
  cbv zeta. destruct (page_data env url_ai) as [d|].
  - split; [apply save_program_keeps_rest|].
    intros Hnf. split; [apply save_program_no_faults; exact Hnf|]. split.
    + intros n Hnames. apply save_program_other_name; [exact Hnf|].
      intros ->. exact (Hnames d eq_refl eq_refl).
    + intros d1 E Hjson. injection E as <-.
      exact (proj1 (proj2 (proj2
               (save_program_once w (program_of_data d (time_at env 0))
                  Hnf Hjson)))).
  - split; [auto|]. intros Hnf. split; [exact Hnf|]. split.
    + reflexivity.
    + intros d1 E. discriminate E.
Qed.

(** X23. [parse_and_save_programs], for any pages, clock and
    [time.sleep].  It never touches the profiles, the conversation log or
    the language model, and the store never makes it raise.  When
    [time.sleep] returns, the run ends normally after requesting both
    addresses, and while SQLite works: a stored program whose name is on
    neither page is read back as before, so an unparsable page deletes
    nothing; a parsed second page is stored with its address and one clock
    reading for both dates (the second reading of the run if the first page
    was parsed); the first page likewise, with the first reading, if its
    name differs from the second's; if both pages give the same name (as two
    pages without [h1] do), the table ends with exactly one row of that
    name, the second page's.  When [time.sleep] raises (a negative
    [REQUEST_DELAY]), the run ends with that exception after the first
    round: only the first address was requested, the first page is stored,
    the second never. *)
Theorem parse_and_save_programs_result `{Platform} (env : Outside)
  (w : World) :
  let run := parse_and_save_programs env (new_crawl w) in
  let w' := db (snd run) in
  (user_profiles_table w' = user_profiles_table w
   /\ conversations_table w' = conversations_table w
   /\ model_calls w' = model_calls w
   /\ forall e, fst run <> Crashed (store_raised e))
  /\ (time_sleep env (request_delay env) = None
      -> fst run = Crawled tt
         /\ fetched (snd run) = [url_ai; url_ai_product]
         /\ (no_faults w
             -> (forall n,
                    (forall url d, In url [url_ai; url_ai_product]
                                   -> page_data env url = Some d
                                   -> d_name d <> n)
                    -> fst (get_program n w') = fst (get_program n w))
                /\ (forall d2,
                       page_data env url_ai_product = Some d2
                       -> let p2 :=
                            program_of_data d2
                              (time_at env (reads_before_second env)) in
                          url p2 = url_ai_product
                          /\ created_at p2 = updated_at p2
                          /\ List.length
                               (filter
                                  (fun r => str_eqb (p_name r) (d_name d2))
                                  (programs_table w')) = 1%nat
                          /\ (json_roundtrips p2
                              -> fst (get_program (d_name d2) w')
                                 = Ret (Some p2)))
                /\ (forall d1,
                       page_data env url_ai = Some d1
                       -> (forall d2,
                              page_data env url_ai_product = Some d2
                              -> d_name d2 <> d_name d1)
                       -> let p1 := program_of_data d1 (time_at env 0) in
                          url p1 = url_ai
                          /\ (json_roundtrips p1
                              -> fst (get_program (d_name d1) w')
                                 = Ret (Some p1)))))
  /\ (forall e,
         time_sleep env (request_delay env) = Some e
         -> fst run = Crashed (sleep_raised e)
            /\ fetched (snd run) = [url_ai]
            /\ (no_faults w
                -> (forall n,
                       (forall d1, page_data env url_ai = Some d1
                                   -> d_name d1 <> n)
                       -> fst (get_program n w') = fst (get_program n w))
                   /\ (forall d1,
                          page_data env url_ai = Some d1
                          -> let p1 := program_of_data d1 (time_at env 0) in
                             json_roundtrips p1
                             -> fst (get_program (d_name d1) w')
                                = Ret (Some p1)))).
Proof.
  cbv zeta. pose proof (parse_and_save_programs_run env w) as Hrun.
  pose proof (first_round env w) as Hfirst. cbv zeta in Hrun, Hfirst.
  set (w1 := match page_data env url_ai with
             | Some d => snd (save_program
                                (program_of_data d (time_at env 0)) w)
             | None => w
             end) in *.
  destruct Hfirst as ((U1 & C1 & M1) & Hfirst).
  destruct (time_sleep env (request_delay env)) as [e|] eqn:Hsleep.
  - (* time.sleep raises *)
    destruct Hrun as (Hres & Hdb & Hfetched). rewrite Hres, Hdb, Hfetched.
    split; [|split].
    + repeat split; try assumption; intros e' E; discriminate E.
    + intros E. discriminate E.
    + intros e' E. injection E as <-.
      split; [reflexivity|]. split; [reflexivity|].
      intros Hnf. destruct (Hfirst Hnf) as (_ & Hother & Hstored).
      split; [exact Hother | exact Hstored].
  - (* time.sleep returns *)
    destruct Hrun as (Hres & Hdb & Hfetched). rewrite Hres, Hdb, Hfetched.
    clear Hres Hdb Hfetched.
    split; [|split].
    + destruct (page_data env url_ai_product) as [d|].
      * destruct (save_program_keeps_rest
                    (program_of_data d
                       (time_at env (reads_before_second env))) w1)
          as (U2 & C2 & M2).
        repeat split; try congruence; intros e' E; discriminate E.
      * repeat split; try assumption; intros e' E; discriminate E.
    + intros _. split; [reflexivity|]. split; [reflexivity|].
      intros Hnf. destruct (Hfirst Hnf) as (Hnf1 & Hother & Hstored).
      split; [|split].
      * intros n Hnames.
        assert (fst (get_program n w1) = fst (get_program n w)) as E1.
        { apply Hother. intros d1 P1.
          exact (Hnames url_ai d1 (or_introl eq_refl) P1). }
        destruct (page_data env url_ai_product) as [d|] eqn:P2;
          [|exact E1].
        rewrite <- E1. apply save_program_other_name; [exact Hnf1|].
        intros ->.
        exact (Hnames url_ai_product d (or_intror (or_introl eq_refl))
                 P2 eq_refl).
      * intros d2 P2. rewrite P2.
        split; [exact (page_data_url env url_ai_product d2 P2)|].
        split; [reflexivity|].
        destruct (save_program_ok
                    (program_of_data d2
                       (time_at env (reads_before_second env))) w1 Hnf1)
          as (w2 & E2 & Hnf2 & Htable).
        split.
        -- rewrite E2. cbn [snd]. rewrite Htable.
           change (name (program_of_data d2
                           (time_at env (reads_before_second env))))
             with (d_name d2).
           rewrite filter_name_last by reflexivity. reflexivity.
        -- intros Hjson.
           exact (proj1 (proj2 (proj2
                    (save_program_once w1
                       (program_of_data d2
                          (time_at env (reads_before_second env)))
                       Hnf1 Hjson)))).
      * intros d1 P1 Hdiff.
        split; [exact (page_data_url env url_ai d1 P1)|].
        intros Hjson. pose proof (Hstored d1 P1 Hjson) as E1.
        destruct (page_data env url_ai_product) as [d2|] eqn:P2;
          [|exact E1].
        rewrite <- E1. apply save_program_other_name; [exact Hnf1|].
        intros Heq. exact (Hdiff d2 eq_refl (eq_sym Heq)).
    + intros e E. discriminate E.
Qed.

Lemma parse_and_save_programs_result_witness :
  let P := Reference.mock_platform in
  let w := Reference.empty_world (u "2024-12-31T09:00:00") in
  let d1 := data_of url_ai bare_page in
  let d2 := data_of url_ai_product bare_page in
  let p1 := program_of_data d1 (u "2025-01-01T12:00:00") in
  let p2 := program_of_data d2 (u "2025-01-01T12:00:03") in
  let run := @parse_and_save_programs P (bare_site 1) (new_crawl w) in
  let crash := @parse_and_save_programs P (bare_site (-1)) (new_crawl w) in
  no_faults w
  /\ (time_sleep (bare_site 1) (request_delay (bare_site 1)) = None
      /\ @json_roundtrips P p2
      /\ fst run = Crawled tt
      /\ List.length
           (filter (fun r => str_eqb (p_name r) (d_name d2))
                   (programs_table (db (snd run)))) = 1%nat
      /\ fst (@get_program P (d_name d2) (db (snd run))) = Ret (Some p2))
  /\ (time_sleep (bare_site (-1)) (request_delay (bare_site (-1)))
      = Some ValueError
      /\ @json_roundtrips P p1
      /\ fst crash = Crashed (sleep_raised ValueError)
      /\ fetched (snd crash) = [url_ai]
      /\ fst (@get_program P (d_name d1) (db (snd crash))) = Ret (Some p1)).
Proof.
  intros P w d1 d2 p1 p2 run crash.
  assert (no_faults w) as Hnf by (intros b []).
  assert (@json_roundtrips P p1) as Hjson1
    by (repeat apply conj; vm_compute; reflexivity).
  assert (@json_roundtrips P p2) as Hjson2
    by (repeat apply conj; vm_compute; reflexivity).
  destruct (@parse_and_save_programs_result P (bare_site 1) w)
    as (_ & Hreturns & _).
  destruct (Hreturns eq_refl) as (Hdone & _ & Hstored).
  destruct (Hstored Hnf) as (_ & Hsecond & _).
  destruct (Hsecond d2 eq_refl) as (_ & _ & Hone & Hget2).
  destruct (@parse_and_save_programs_result P (bare_site (-1)) w)
    as (_ & _ & Hraises).
  destruct (Hraises ValueError eq_refl) as (Hcrash & Hfetched & Hfirst).
  destruct (Hfirst Hnf) as (_ & Hget1).
  refine (conj Hnf (conj _ _)).
  - exact (conj eq_refl (conj Hjson2 (conj Hdone
             (conj Hone (Hget2 Hjson2))))).
  - exact (conj eq_refl (conj Hjson1 (conj Hcrash
             (conj Hfetched (Hget1 d1 eq_refl Hjson1))))).
Defined.
